(** * ai-artifact-provenance-recorder: the provenance recorder of [main.py]

    A shallow embedding of [ProvenanceRecorder] and [main] together with
    the part of the Python runtime they drive: the file system, the clock,
    the log, [hashlib] objects and the [json] codec.

    Conventions.
    - A Python [str] is the list of its code points, [bytes] the list of
      its bytes; both are [list N].
    - A Python [dict] is an association list in insertion order.
    - A statement that can raise returns a [result]; the state it works on
      (the recorder object and the outside world) is threaded explicitly.
    - The file system maps a path, compared as written, to a regular file
      or a directory; two spellings of one file are not identified, so a
      world stands for a file system in which the paths at hand name
      different files unless they are equal.  Whether a new file can be
      created at a path is a datum of the world.  Text files are read in a
      UTF-8 locale.  Permissions are outside the model.
    - A log record is kept as its level and the fixed part of its message.
    - A number in a loaded file is kept as the literal that was read.
    - [main] is the program once its command line has parsed.
    - Resource limits of the interpreter (recursion depth, the digit limit
      of integer conversion) are outside the model. *)

From Stdlib Require Import NArith ZArith List Lia Bool Ascii String.
From stdpp Require Import base option list gmap strings.
From Equations Require Import Equations.

Local Open Scope N_scope.

(** ** Strings and bytes *)

Fixpoint py (s : string) : list N :=
  match s with
  | EmptyString => []
  | String a s' => N_of_ascii a :: py s'
  end.

(** Truth value of a [str], and of an optional argument defaulting to
    [None]: [None] and the empty string are false. *)
Definition truthy (s : list N) : bool :=
  match s with [] => false | _ :: _ => true end.

Definition truthy_opt (o : option (list N)) : bool :=
  match o with Some s => truthy s | None => false end.

(** ** Hexadecimal *)

Definition hexdigit (d : N) : N :=
  if d <? 10 then 48 + d else 87 + d.


(** [bytes.hex()]: two lowercase digits per byte. *)
Fixpoint hexlify (bs : list N) : list N :=
  match bs with
  | [] => []
  | b :: bs' => hexdigit ((b / 16) mod 16) :: hexdigit (b mod 16) :: hexlify bs'
  end.

(** ** JSON values, as [json.load] builds them and [json.dump] walks them

    Numbers never originate in the recorder; they only pass through from a
    loaded file, and are kept as the literal that denotes them. *)

#[warnings="-register-all"]
Inductive json : Type :=
| JNull
| JBool (b : bool)
| JNum (lit : list N)
| JStr (s : list N)
| JArr (items : list json)
| JObj (members : list (list N * json)).

(** [d[k]] lookup, [d[k] = v] assignment (a present key keeps its
    position, a new key goes last) on the members of a dict. *)
Fixpoint dict_get (k : list N) (d : list (list N * json)) : option json :=
  match d with
  | [] => None
  | (k', v) :: d' => if decide (k' = k) then Some v else dict_get k d'
  end.

Fixpoint dict_set (k : list N) (v : json) (d : list (list N * json))
  : list (list N * json) :=
  match d with
  | [] => [(k, v)]
  | (k', v') :: d' =>
      if decide (k' = k) then (k', v) :: d' else (k', v') :: dict_set k v d'
  end.

Definition dict_keys (d : list (list N * json)) : list (list N) := map fst d.

Definition count_key (k : list N) (d : list (list N * json)) : nat :=
  length (filter (fun kv => kv.1 = k) d).

(** ** Exceptions and results *)

Inductive exn : Type :=
| FileNotFoundError
| IsADirectoryError
| NotADirectoryError
| UnicodeDecodeError
| JSONDecodeError
| ValueError
| TypeError
| KeyError
| AttributeError.

Inductive result (A : Type) : Type :=
| Ok (a : A)
| Raise (e : exn).
Arguments Ok {A} a.
Arguments Raise {A} e.

(** [v[k]], [v[k] = x] and [v.append(x)] on an arbitrary loaded value. *)
Definition getitem (v : json) (k : list N) : result json :=
  match v with
  | JObj d => match dict_get k d with Some x => Ok x | None => Raise KeyError end
  | _ => Raise TypeError
  end.

Definition setitem (v : json) (k : list N) (x : json) : result json :=
  match v with
  | JObj d => Ok (JObj (dict_set k x d))
  | _ => Raise TypeError
  end.

Definition append (v : json) (x : json) : result json :=
  match v with
  | JArr l => Ok (JArr (l ++ [x]))
  | _ => Raise AttributeError
  end.

(** ** The outside world *)

Inductive node : Type :=
| File (data : list N)
| Dir.

Inductive level : Type := INFO | WARNING | ERROR.

(** [fs] holds what exists.  [denied p] is the error with which the system
    refuses to create a file at a path [p] where nothing exists:
    [FileNotFoundError] for an empty name or a missing parent directory,
    [NotADirectoryError] for a parent that is a regular file; it is [None]
    where a file can be created.  [clock] is the sequence of readings that
    successive calls of [datetime.utcnow().isoformat()] return; [ticks]
    counts the calls made. *)
Record world : Type := World {
  fs : gmap (list N) node;
  denied : list N -> option exn;
  clock : nat -> list N;
  ticks : nat;
  log : list (level * string)
}.

Definition set_fs (w : world) (m : gmap (list N) node) : world :=
  {| fs := m; denied := denied w; clock := clock w; ticks := ticks w;
     log := log w |}.

Definition logging (lv : level) (msg : string) (w : world) : world :=
  {| fs := fs w; denied := denied w; clock := clock w; ticks := ticks w;
     log := log w ++ [(lv, msg)] |}.

(** [datetime.utcnow().isoformat() + "Z"] *)
Definition utcnow_iso_z (w : world) : list N * world :=
  (clock w (ticks w) ++ py "Z",
   {| fs := fs w; denied := denied w; clock := clock w; ticks := S (ticks w);
      log := log w |}).

Definition path_exists (w : world) (p : list N) : bool :=
  match fs w !! p with Some _ => true | None => false end.

(** [open(p, "rb")] / [open(p, "r")]: the bytes of the file. *)
Definition open_read (w : world) (p : list N) : result (list N) :=
  match fs w !! p with
  | Some (File data) => Ok data
  | Some Dir => Raise IsADirectoryError
  | None => Raise FileNotFoundError
  end.

(** [open(p, "w")] followed by writing [data] and closing: an existing
    file is replaced, and a new one is created where the system allows
    it. *)
Definition open_write (w : world) (p : list N) (data : list N) : result world :=
  match fs w !! p with
  | Some Dir => Raise IsADirectoryError
  | Some (File _) => Ok (set_fs w (<[p := File data]> (fs w)))
  | None =>
      match denied w p with
      | Some e => Raise e
      | None => Ok (set_fs w (<[p := File data]> (fs w)))
      end
  end.

(** ** hashlib objects

    A hash object accumulates the bytes fed to it; [hexdigest] is the
    lowercase hexadecimal form of the digest of everything fed so far. *)
Record hasher : Type := Hasher {
  h_digest : list N -> list N;
  h_fed : list N
}.

Definition update (h : hasher) (chunk : list N) : hasher :=
  {| h_digest := h_digest h; h_fed := h_fed h ++ chunk |}.

Definition hexdigest (h : hasher) : list N := hexlify (h_digest h (h_fed h)).

(** [f.read(n)] on the unread rest of a file: the chunk and the new rest. *)
Definition read (n : nat) (f : list N) : list N * list N := (take n f, drop n f).

Definition inspect {A : Type} (a : A) : {b : A | a = b} := exist _ a eq_refl.

(** [while chunk := f.read(n): hasher.update(chunk)] *)
Equations read_loop (n : nat) (h : hasher) (f : list N) : hasher
  by wf (length f) lt :=
  read_loop n h f with inspect (read n f) := {
    | exist _ ([], _) _ => h
    | exist _ (c :: chunk, f') _ => read_loop n (update h (c :: chunk)) f' }.
Next Obligation.
  match goal with E : take ?n ?f = _ :: _ |- _ => destruct n, f; try discriminate E end.
  simpl. rewrite length_drop. lia.
Qed.

(** ** json.dump: the encoder with [indent=4] and [ensure_ascii=True] *)

Definition hex4 (n : N) : list N :=
  [hexdigit ((n / 4096) mod 16); hexdigit ((n / 256) mod 16);
   hexdigit ((n / 16) mod 16); hexdigit (n mod 16)].

(** The replacement of one character by [py_encode_basestring_ascii]:
    the short escapes, printable ASCII as it is, [\uXXXX] otherwise, with a
    surrogate pair above the basic plane. *)
Definition escape_char (c : N) : list N :=
  if c =? 34 then [92; 34]
  else if c =? 92 then [92; 92]
  else if c =? 10 then [92; 110]
  else if c =? 13 then [92; 114]
  else if c =? 9 then [92; 116]
  else if c =? 8 then [92; 98]
  else if c =? 12 then [92; 102]
  else if (32 <=? c) && (c <=? 126) then [c]
  else if c <? 65536 then 92 :: 117 :: hex4 c
  else
    let n := c - 65536 in
    (92 :: 117 :: hex4 (N.lor 55296 (N.land (N.shiftr n 10) 1023)))
      ++ (92 :: 117 :: hex4 (N.lor 56320 (N.land n 1023))).

Definition encode_str (s : list N) : list N :=
  34 :: flat_map escape_char s ++ [34].

(** ['\n' + ' ' * (4 * level)] *)
Definition newline_indent (level : nat) : list N :=
  10 :: repeat 32 (4 * level)%nat.

Fixpoint join (sep : list N) (parts : list (list N)) : list N :=
  match parts with
  | [] => []
  | [p] => p
  | p :: ps => p ++ sep ++ join sep ps
  end.

Fixpoint encode (level : nat) (v : json) : list N :=
  match v with
  | JNull => py "null"
  | JBool true => py "true"
  | JBool false => py "false"
  | JNum lit => lit
  | JStr s => encode_str s
  | JArr [] => py "[]"
  | JArr items =>
      [91] ++ newline_indent (S level)
        ++ join (44 :: newline_indent (S level)) (map (encode (S level)) items)
        ++ newline_indent level ++ [93]
  | JObj [] => py "{}"
  | JObj members =>
      [123] ++ newline_indent (S level)
        ++ join (44 :: newline_indent (S level))
             (map (fun kv => encode_str kv.1 ++ [58; 32] ++ encode (S level) kv.2)
                  members)
        ++ newline_indent level ++ [125]
  end.

Definition json_dumps (v : json) : list N := encode 0 v.

(** ** json.load: the decoder *)

Inductive parse (A : Type) : Type :=
| Parsed (a : A) (rest : list N)
| Malformed
| OutOfFuel.
Arguments Parsed {A} a rest.
Arguments Malformed {A}.
Arguments OutOfFuel {A}.

Definition is_ws (c : N) : bool :=
  (c =? 32) || (c =? 9) || (c =? 10) || (c =? 13).

Fixpoint skip_ws (s : list N) : list N :=
  match s with
  | c :: s' => if is_ws c then skip_ws s' else s
  | [] => []
  end.

Definition is_digit (c : N) : bool := (48 <=? c) && (c <=? 57).

Definition hexval (c : N) : option N :=
  if is_digit c then Some (c - 48)
  else if (97 <=? c) && (c <=? 102) then Some (c - 87)
  else if (65 <=? c) && (c <=? 70) then Some (c - 55)
  else None.

Definition hex4_val (h1 h2 h3 h4 : N) : option N :=
  match hexval h1, hexval h2, hexval h3, hexval h4 with
  | Some a, Some b, Some c, Some d => Some (((a * 16 + b) * 16 + c) * 16 + d)
  | _, _, _, _ => None
  end.

Definition is_high_surrogate (u : N) : bool := (55296 <=? u) && (u <=? 56319).
Definition is_low_surrogate (u : N) : bool := (56320 <=? u) && (u <=? 57343).

(** The [BACKSLASH] table of the decoder. *)
Definition unescape (e : N) : option N :=
  if e =? 34 then Some 34
  else if e =? 92 then Some 92
  else if e =? 47 then Some 47
  else if e =? 98 then Some 8
  else if e =? 102 then Some 12
  else if e =? 110 then Some 10
  else if e =? 114 then Some 13
  else if e =? 116 then Some 9
  else None.

(** [scanstring] in strict mode, entered after the opening quote. *)
Fixpoint scanstring (s : list N) : option (list N * list N) :=
  match s with
  | [] => None
  | c :: s' =>
      if c =? 34 then Some ([], s')
      else if c =? 92 then
        match s' with
        | [] => None
        | e :: s'' =>
            if e =? 117 then
              match s'' with
              | h1 :: h2 :: h3 :: h4 :: r =>
                  match hex4_val h1 h2 h3 h4 with
                  | None => None
                  | Some uni =>
                      let single :=
                        match scanstring r with
                        | Some (str, rest) => Some (uni :: str, rest)
                        | None => None
                        end in
                      if is_high_surrogate uni then
                        match r with
                        | b1 :: b2 :: g1 :: g2 :: g3 :: g4 :: r' =>
                            if (b1 =? 92) && (b2 =? 117) then
                              match hex4_val g1 g2 g3 g4 with
                              | None => None
                              | Some uni2 =>
                                  if is_low_surrogate uni2 then
                                    match scanstring r' with
                                    | Some (str, rest) =>
                                        Some (65536 + N.lor (N.shiftl (uni - 55296) 10)
                                                            (uni2 - 56320) :: str, rest)
                                    | None => None
                                    end
                                  else single
                              end
                            else single
                        | _ => single
                        end
                      else single
                  end
              | _ => None
              end
            else
              match unescape e with
              | Some ch =>
                  match scanstring s'' with
                  | Some (str, rest) => Some (ch :: str, rest)
                  | None => None
                  end
              | None => None
              end
        end
      else if c <? 32 then None
      else
        match scanstring s' with
        | Some (str, rest) => Some (c :: str, rest)
        | None => None
        end
  end.

(** [NUMBER_RE]: an integer part (an optional minus sign, then a single
    zero or a non-zero digit followed by digits), an optional fraction (a
    dot and at least one digit) and an optional exponent (e or E, an
    optional sign and at least one digit). *)
Fixpoint span_digits (s : list N) : list N * list N :=
  match s with
  | c :: s' =>
      if is_digit c then let '(d, r) := span_digits s' in (c :: d, r) else ([], s)
  | [] => ([], [])
  end.

Definition scan_int (s : list N) : option (list N * list N) :=
  let '(sign, s1) :=
    match s with
    | c :: s' => if c =? 45 then ([45], s') else ([], s)
    | [] => ([], s)
    end in
  match s1 with
  | c :: s2 =>
      if c =? 48 then Some (sign ++ [48], s2)
      else if is_digit c then
        let '(d, r) := span_digits s2 in Some (sign ++ c :: d, r)
      else None
  | [] => None
  end.

Definition scan_frac (s : list N) : list N * list N :=
  match s with
  | c :: s' =>
      if c =? 46 then
        match span_digits s' with
        | ([], _) => ([], s)
        | (d, r) => (46 :: d, r)
        end
      else ([], s)
  | [] => ([], s)
  end.

Definition scan_exp (s : list N) : list N * list N :=
  match s with
  | c :: s' =>
      if (c =? 101) || (c =? 69) then
        let '(sign, s1) :=
          match s' with
          | c2 :: s'' => if (c2 =? 45) || (c2 =? 43) then ([c2], s'') else ([], s')
          | [] => ([], s')
          end in
        match span_digits s1 with
        | ([], _) => ([], s)
        | (d, r) => (c :: sign ++ d, r)
        end
      else ([], s)
  | [] => ([], s)
  end.

Definition match_number (s : list N) : option (list N * list N) :=
  match scan_int s with
  | None => None
  | Some (i, r1) =>
      let '(f, r2) := scan_frac r1 in
      let '(e, r3) := scan_exp r2 in
      Some (i ++ f ++ e, r3)
  end.

(** [s[idx:idx+len(lit)] == lit] *)
Fixpoint starts_with (lit s : list N) : bool :=
  match lit, s with
  | [], _ => true
  | a :: lit', b :: s' => (a =? b) && starts_with lit' s'
  | _ :: _, [] => false
  end.

(** [dict(pairs)]: a repeated key keeps its first position and its last
    value. *)
Definition dict_of_pairs (ps : list (list N * json)) : list (list N * json) :=
  fold_left (fun d kv => dict_set kv.1 kv.2 d) ps [].

(** [scan_once] with [JSONArray] and [JSONObject].  [array_items] is entered
    at the first value of a non-empty array, [object_members] after the
    opening quote of a key. *)
Fixpoint scan_once (fuel : nat) (s : list N) {struct fuel} : parse json :=
  match fuel with
  | O => OutOfFuel
  | S fuel' =>
      match s with
      | [] => Malformed
      | c :: s' =>
          if c =? 34 then
            match scanstring s' with
            | Some (str, r) => Parsed (JStr str) r
            | None => Malformed
            end
          else if c =? 123 then
            match skip_ws s' with
            | c1 :: r =>
                if c1 =? 125 then Parsed (JObj []) r
                else if c1 =? 34 then
                  match object_members fuel' r with
                  | Parsed ms r' => Parsed (JObj (dict_of_pairs ms)) r'
                  | Malformed => Malformed
                  | OutOfFuel => OutOfFuel
                  end
                else Malformed
            | [] => Malformed
            end
          else if c =? 91 then
            match skip_ws s' with
            | c1 :: r =>
                if c1 =? 93 then Parsed (JArr []) r
                else
                  match array_items fuel' (c1 :: r) with
                  | Parsed vs r' => Parsed (JArr vs) r'
                  | Malformed => Malformed
                  | OutOfFuel => OutOfFuel
                  end
            | [] => Malformed
            end
          else if starts_with (py "null") s then Parsed JNull (drop 4 s)
          else if starts_with (py "true") s then Parsed (JBool true) (drop 4 s)
          else if starts_with (py "false") s then Parsed (JBool false) (drop 5 s)
          else
            match match_number s with
            | Some (lit, r) => Parsed (JNum lit) r
            | None =>
                if starts_with (py "NaN") s then Parsed (JNum (py "NaN")) (drop 3 s)
                else if starts_with (py "Infinity") s
                then Parsed (JNum (py "Infinity")) (drop 8 s)
                else if starts_with (py "-Infinity") s
                then Parsed (JNum (py "-Infinity")) (drop 9 s)
                else Malformed
            end
      end
  end
with array_items (fuel : nat) (s : list N) {struct fuel} : parse (list json) :=
  match fuel with
  | O => OutOfFuel
  | S fuel' =>
      match scan_once fuel' s with
      | Parsed v r =>
          match skip_ws r with
          | c :: r1 =>
              if c =? 93 then Parsed [v] r1
              else if c =? 44 then
                match array_items fuel' (skip_ws r1) with
                | Parsed vs r2 => Parsed (v :: vs) r2
                | Malformed => Malformed
                | OutOfFuel => OutOfFuel
                end
              else Malformed
          | [] => Malformed
          end
      | Malformed => Malformed
      | OutOfFuel => OutOfFuel
      end
  end
with object_members (fuel : nat) (s : list N) {struct fuel}
  : parse (list (list N * json)) :=
  match fuel with
  | O => OutOfFuel
  | S fuel' =>
      match scanstring s with
      | None => Malformed
      | Some (key, r) =>
          match skip_ws r with
          | c :: r1 =>
              if c =? 58 then
                match scan_once fuel' (skip_ws r1) with
                | Parsed v r2 =>
                    match skip_ws r2 with
                    | c2 :: r3 =>
                        if c2 =? 125 then Parsed [(key, v)] r3
                        else if c2 =? 44 then
                          match skip_ws r3 with
                          | q :: r4 =>
                              if q =? 34 then
                                match object_members fuel' r4 with
                                | Parsed ms r5 => Parsed ((key, v) :: ms) r5
                                | Malformed => Malformed
                                | OutOfFuel => OutOfFuel
                                end
                              else Malformed
                          | [] => Malformed
                          end
                        else Malformed
                    | [] => Malformed
                    end
                | Malformed => Malformed
                | OutOfFuel => OutOfFuel
                end
              else Malformed
          | [] => Malformed
          end
      end
  end.

(** [json.loads] on a [str]: a leading byte-order mark is refused, the
    value may be surrounded by white space, and nothing may follow it.
    The fuel is more than any input of this length uses
    ([scan_once_fuel]). *)
Definition json_loads (s : list N) : result json :=
  if starts_with [65279] s then Raise JSONDecodeError
  else
    match scan_once (2 * length s + 2) (skip_ws s) with
    | Parsed v r =>
        match skip_ws r with
        | [] => Ok v
        | _ :: _ => Raise JSONDecodeError
        end
    | _ => Raise JSONDecodeError
    end.

(** ** Text files: strict UTF-8 decoding on read *)

Definition is_cont (b : N) : bool := (128 <=? b) && (b <=? 191).
Definition cont (b : N) : N := b - 128.

Fixpoint utf8_decode (bs : list N) : option (list N) :=
  match bs with
  | [] => Some []
  | b1 :: r1 =>
      if b1 <? 128 then option_map (cons b1) (utf8_decode r1)
      else if (194 <=? b1) && (b1 <=? 223) then
        match r1 with
        | b2 :: r2 =>
            if is_cont b2
            then option_map (cons ((b1 - 192) * 64 + cont b2)) (utf8_decode r2)
            else None
        | _ => None
        end
      else if (224 <=? b1) && (b1 <=? 239) then
        match r1 with
        | b2 :: b3 :: r3 =>
            if is_cont b2 && is_cont b3
               && negb ((b1 =? 224) && (b2 <? 160))
               && negb ((b1 =? 237) && (159 <? b2))
            then option_map (cons (((b1 - 224) * 64 + cont b2) * 64 + cont b3))
                            (utf8_decode r3)
            else None
        | _ => None
        end
      else if (240 <=? b1) && (b1 <=? 244) then
        match r1 with
        | b2 :: b3 :: b4 :: r4 =>
            if is_cont b2 && is_cont b3 && is_cont b4
               && negb ((b1 =? 240) && (b2 <? 144))
               && negb ((b1 =? 244) && (143 <? b2))
            then option_map
                   (cons ((((b1 - 240) * 64 + cont b2) * 64 + cont b3) * 64 + cont b4))
                   (utf8_decode r4)
            else None
        | _ => None
        end
      else None
  end.

(** [json.load(f)] for [f] opened in text mode on [data]. *)
Definition json_load (data : list N) : result json :=
  match utf8_decode data with
  | None => Raise UnicodeDecodeError
  | Some text => json_loads text
  end.

(** ** The recorder *)

Record recorder : Type := Recorder {
  artifact_path : list N;
  provenance_file : list N;
  provenance_data : json
}.

Definition set_data (self : recorder) (d : json) : recorder :=
  {| artifact_path := artifact_path self;
     provenance_file := provenance_file self;
     provenance_data := d |}.

(** A method call: the exception raised, if any, and the recorder and the
    world it leaves behind. *)
Definition method : Type := recorder -> world -> result unit * recorder * world.

Definition skip : method := fun self w => (Ok tt, self, w).

Definition seq (m1 m2 : method) : method :=
  fun self w =>
    match m1 self w with
    | (Ok _, self1, w1) => m2 self1 w1
    | (Raise e, self1, w1) => (Raise e, self1, w1)
    end.

Notation "'let*' x ':=' e 'in' k" :=
  (match e with Ok x => k | Raise err => Raise err end)
  (at level 10, x pattern, e at level 100, k at level 200, only parsing).

(** [v[k].m(...)] for a method [m] that changes the object [v[k]] in
    place: the object is looked up, changed, and is still what [v[k]]
    refers to. *)
Definition mutate_item (v : json) (k : list N) (m : json -> result json)
  : result json :=
  match v with
  | JObj d =>
      match dict_get k d with
      | Some x => let* x' := m x in Ok (JObj (dict_set k x' d))
      | None => Raise KeyError
      end
  | _ => Raise TypeError
  end.

(** The dict [__init__] starts from. *)
Definition fresh_data (artifact : list N) (now : list N) : json :=
  JObj [(py "artifact", JStr artifact);
        (py "created_at", JStr now);
        (py "build_steps", JArr []);
        (py "artifact_hash", JNull)].

(** [except (FileNotFoundError, json.JSONDecodeError)] *)
Definition load_handles (e : exn) : bool :=
  match e with
  | FileNotFoundError | JSONDecodeError => true
  | _ => false
  end.

Definition load_existing_provenance : method := fun self w =>
  if path_exists w (provenance_file self) then
    let loaded :=
      let* data := open_read w (provenance_file self) in
      json_load data in
    match loaded with
    | Ok v => (Ok tt, set_data self v, w)
    | Raise e =>
        if load_handles e
        then (Ok tt, self,
              logging WARNING "Could not load existing provenance file. Starting fresh." w)
        else (Raise e, self, w)
    end
  else (Ok tt, self, w).

Definition __init__ (artifact_path provenance_file : list N) (w : world)
  : result recorder * world :=
  let '(now, w1) := utcnow_iso_z w in
  let self := {| artifact_path := artifact_path;
                 provenance_file := provenance_file;
                 provenance_data := fresh_data artifact_path now |} in
  match load_existing_provenance self w1 with
  | (Ok _, self', w2) => (Ok self', w2)
  | (Raise e, _, w2) => (Raise e, w2)
  end.

(** The step dict [add_build_step] builds. *)
Definition build_step (command now : list N) (version : option (list N))
  : list (list N * json) :=
  let step := [(py "command", JStr command); (py "executed_at", JStr now)] in
  match version with
  | Some v => if truthy v then dict_set (py "version") (JStr v) step else step
  | None => step
  end.

Definition add_build_step (self : recorder) (command : list N)
  (version : option (list N)) (w : world) : result unit * recorder * world :=
  let '(now, w1) := utcnow_iso_z w in
  let step := build_step command now version in
  match mutate_item (provenance_data self) (py "build_steps")
                    (fun steps => append steps (JObj step)) with
  | Ok d => (Ok tt, set_data self d, logging INFO "Added build step" w1)
  | Raise e => (Raise e, self, logging ERROR "Error adding build step" w1)
  end.

Definition save_provenance : method := fun self w =>
  match open_write w (provenance_file self) (json_dumps (provenance_data self)) with
  | Ok w' => (Ok tt, self, logging INFO "Provenance data saved" w')
  | Raise e => (Raise e, self, logging ERROR "Error saving provenance data" w)
  end.

(** Command-line arguments as [argparse] delivers them: an option that was
    not given is [None]. *)
Record args : Type := Args {
  arg_artifact_path : list N;
  arg_provenance_file : list N;
  arg_command : option (list N);
  arg_version : option (list N);
  arg_hash_algorithm : list N
}.

(** The optional first step of [main]. *)
Definition first_step (a : args) : method :=
  if truthy_opt (arg_command a)
  then fun self => add_build_step self (default [] (arg_command a)) (arg_version a)
  else skip.

Section Recorder.

(** The hashing backend: [hashlib.new name] either knows the algorithm and
    gives a hash object for its digest function, or raises [ValueError].
    An algorithm counts as known when its hash object gives a digest of
    fixed length, as [hexdigest()] is called without a length.  For a name
    of variable digest length the call of [hexdigest()] is what fails, with
    [TypeError] and after the file was read; here such a name is refused
    at once, as an unknown one is.  The same handlers log and re-raise
    either exception, so only the kind of the exception differs. *)
Variable hashlib_new : list N -> option (list N -> list N).

Definition hash_result (algorithm : list N) (digest : list N -> list N)
  (data : list N) : json :=
  JObj [(py "algorithm", JStr algorithm);
        (py "hash", JStr (hexdigest (read_loop 4096 (Hasher digest []) data)))].

Definition calculate_hash (self : recorder) (algorithm : list N) (w : world)
  : result unit * recorder * world :=
  let body :=
    if negb (path_exists w (artifact_path self)) then Raise FileNotFoundError
    else
      match hashlib_new algorithm with
      | None => Raise ValueError
      | Some digest =>
          let* data := open_read w (artifact_path self) in
          setitem (provenance_data self) (py "artifact_hash")
                  (hash_result algorithm digest data)
      end in
  match body with
  | Ok d => (Ok tt, set_data self d, logging INFO "Calculated hash" w)
  | Raise FileNotFoundError =>
      (Raise FileNotFoundError, self, logging ERROR "File not found error" w)
  | Raise e => (Raise e, self, logging ERROR "Error calculating hash" w)
  end.

(** The [try] block of [main]: the recorder it ends with, or the exception
    that left it. *)
Definition main_body (a : args) (w : world) : result recorder * world :=
  if negb (path_exists w (arg_artifact_path a)) then (Raise FileNotFoundError, w)
  else
    match __init__ (arg_artifact_path a) (arg_provenance_file a) w with
    | (Raise e, w1) => (Raise e, w1)
    | (Ok self, w1) =>
        let steps :=
          seq (first_step a)
              (seq (fun self => calculate_hash self (arg_hash_algorithm a))
                   save_provenance) in
        match steps self w1 with
        | (Ok _, self', w2) => (Ok self', w2)
        | (Raise e, _, w2) => (Raise e, w2)
        end
    end.

(** [main]: the exit status of the process and the world it leaves. *)
Definition main (a : args) (w : world) : nat * world :=
  match main_body a w with
  | (Ok _, w') => (0%nat, w')
  | (Raise FileNotFoundError, w') => (1%nat, logging ERROR "File not found" w')
  | (Raise _, w') => (1%nat, logging ERROR "An error occurred" w')
  end.

End Recorder.

(** A sequence of [add_build_step] calls on one recorder, each given as
    its (command, version) arguments; it stops at the first call that
    raises. *)
Fixpoint add_build_steps (self : recorder)
  (calls : list (list N * option (list N))) (w : world)
  : result unit * recorder * world :=
  match calls with
  | [] => (Ok tt, self, w)
  | (command, version) :: calls' =>
      match add_build_step self command version w with
      | (Ok _, self1, w1) => add_build_steps self1 calls' w1
      | (Raise e, self1, w1) => (Raise e, self1, w1)
      end
  end.

(** Successive runs of the program, each on the world the one before
    left. *)
Fixpoint mains (hashlib_new : list N -> option (list N -> list N))
  (runs : list args) (w : world) : world :=
  match runs with
  | [] => w
  | a :: runs' => mains hashlib_new runs' (main hashlib_new a w).2
  end.

(** The invocation on one artifact, provenance file and algorithm with
    the command [cv.1] and the version [cv.2]. *)
Definition invoke (ap pf alg : list N) (cv : list N * option (list N)) : args :=
  {| arg_artifact_path := ap; arg_provenance_file := pf;
     arg_command := Some cv.1; arg_version := cv.2;
     arg_hash_algorithm := alg |}.

(** ** Values as the recorder can hold them

    A [str] holds code points below 0x110000 and no high surrogate directly
    followed by a low one: [json.load] never returns such a string
    ([json_load_ok]), and the command line cannot deliver one.  A number is
    a literal of the JSON grammar or one of the three constants the codec
    adds.  The keys of a dict are distinct.  Every record that a run saves
    is of this kind ([main_saves_ok]). *)
Fixpoint str_ok (s : list N) : bool :=
  match s with
  | [] => true
  | c :: s' =>
      (c <? 1114112)
      && negb (is_high_surrogate c
               && match s' with c' :: _ => is_low_surrogate c' | [] => false end)
      && str_ok s'
  end.

Definition num_ok (lit : list N) : bool :=
  bool_decide (match_number lit = Some (lit, []))
  || bool_decide (lit ∈ [py "NaN"; py "Infinity"; py "-Infinity"]).

Fixpoint json_ok (v : json) : bool :=
  match v with
  | JNull | JBool _ => true
  | JNum lit => num_ok lit
  | JStr s => str_ok s
  | JArr items => forallb json_ok items
  | JObj members =>
      forallb (fun kv => str_ok kv.1 && json_ok kv.2) members
      && bool_decide (NoDup (map fst members))
  end.

(** The number of nodes of a value, counting each element of an array or
    a dict once more: the fuel [scan_once] uses on its text. *)
Fixpoint jsize (v : json) : nat :=
  match v with
  | JArr items => S (list_sum (map (fun x => S (jsize x)) items))
  | JObj members => S (list_sum (map (fun kv => S (jsize kv.2)) members))
  | _ => 1
  end.

(** A value that holds no number.  The recorder writes none; one can
    only come from a provenance file written by other means, and there the
    decoder keeps it as the literal it read, while [json.load] and
    [json.dump] would print the number anew. *)
Fixpoint number_free (v : json) : bool :=
  match v with
  | JNum _ => false
  | JArr items => forallb number_free items
  | JObj members => forallb (fun kv => number_free kv.2) members
  | _ => true
  end.

(** ** A hashing backend for the examples: SHA-256 and SHA-224
    (FIPS 180-4) on 32-bit words held in [N] *)
Module Sha2.

Definition w32 (x : N) : N := x mod 4294967296.
Definition add32 (x y : N) : N := w32 (x + y).
Definition rotr (n x : N) : N :=
  N.lor (N.shiftr x n) (w32 (N.shiftl x (32 - n))).
Definition not32 (x : N) : N := N.lxor x 4294967295.

Definition Ch (x y z : N) : N := N.lxor (N.land x y) (N.land (not32 x) z).
Definition Maj (x y z : N) : N :=
  N.lxor (N.lxor (N.land x y) (N.land x z)) (N.land y z).
Definition Sigma0 (x : N) : N := N.lxor (N.lxor (rotr 2 x) (rotr 13 x)) (rotr 22 x).
Definition Sigma1 (x : N) : N := N.lxor (N.lxor (rotr 6 x) (rotr 11 x)) (rotr 25 x).
Definition sigma0 (x : N) : N := N.lxor (N.lxor (rotr 7 x) (rotr 18 x)) (N.shiftr x 3).
Definition sigma1 (x : N) : N := N.lxor (N.lxor (rotr 17 x) (rotr 19 x)) (N.shiftr x 10).

(** The constants are derived as the standard defines them: the first 32
    bits of the fractional parts of the cube roots of the first 64 primes,
    and of the square roots of the first 8; SHA-224 starts from the second
    32 bits of the square roots of the 9th to 16th primes. *)
Definition primes : list N :=
  [2; 3; 5; 7; 11; 13; 17; 19; 23; 29; 31; 37; 41; 43; 47; 53; 59; 61; 67; 71;
   73; 79; 83; 89; 97; 101; 103; 107; 109; 113; 127; 131; 137; 139; 149; 151;
   157; 163; 167; 173; 179; 181; 191; 193; 197; 199; 211; 223; 227; 229; 233;
   239; 241; 251; 257; 263; 269; 271; 277; 281; 283; 293; 307; 311].

(** The integer cube root, found bit by bit from bit [bits - 1] down. *)
Fixpoint cube_root (bits : nat) (r n : N) : N :=
  match bits with
  | O => r
  | S b =>
      let r' := r + 2 ^ N.of_nat b in
      if r' * r' * r' <=? n then cube_root b r' n else cube_root b r n
  end.

Definition K : list N := map (fun p => w32 (cube_root 40 0 (p * 2 ^ 96))) primes.
Definition H256 : list N := map (fun p => w32 (N.sqrt (p * 2 ^ 64))) (take 8 primes).
Definition H224 : list N :=
  map (fun p => w32 (N.sqrt (p * 2 ^ 128))) (take 8 (drop 8 primes)).

(** The [n] low bytes of [x], most significant first. *)
Fixpoint be_bytes (n : nat) (x : N) : list N :=
  match n with
  | O => []
  | S n' => be_bytes n' (x / 256) ++ [x mod 256]
  end.

Definition pad (msg : list N) : list N :=
  let l := length msg in
  msg ++ [128] ++ repeat 0 ((64 - (l + 9) mod 64) mod 64)%nat
      ++ be_bytes 8 (8 * N.of_nat l).

Fixpoint words (bs : list N) : list N :=
  match bs with
  | a :: b :: c :: d :: r => ((a * 256 + b) * 256 + c) * 256 + d :: words r
  | _ => []
  end.

(** The message schedule, newest word first. *)
Fixpoint schedule (n : nat) (ws : list N) : list N :=
  match n with
  | O => ws
  | S n' =>
      schedule n'
        (add32 (add32 (sigma1 (nth 1 ws 0)) (nth 6 ws 0))
               (add32 (sigma0 (nth 14 ws 0)) (nth 15 ws 0)) :: ws)
  end.

Definition round (st : list N) (kw : N * N) : list N :=
  match st with
  | [a; b; c; d; e; f; g; h] =>
      let t1 := add32 (add32 (add32 h (Sigma1 e)) (add32 (Ch e f g) kw.1)) kw.2 in
      let t2 := add32 (Sigma0 a) (Maj a b c) in
      [add32 t1 t2; a; b; c; add32 d t1; e; f; g]
  | _ => st
  end.

Definition compress (hs block : list N) : list N :=
  let W := rev (schedule 48 (rev (words block))) in
  zip_with add32 hs (fold_left round (combine K W) hs).

Fixpoint blocks (n : nat) (bs hs : list N) : list N :=
  match n with
  | O => hs
  | S n' => blocks n' (drop 64 bs) (compress hs (take 64 bs))
  end.

Definition state_bytes (iv msg : list N) : list N :=
  let p := pad msg in
  flat_map (be_bytes 4) (blocks (length p / 64) p iv).

Definition sha256 (msg : list N) : list N := state_bytes H256 msg.
Definition sha224 (msg : list N) : list N := take 28 (state_bytes H224 msg).

End Sha2.

(** A backend that knows ["sha256"] and ["sha224"]. *)
Definition hashlib_sha2 (name : list N) : option (list N -> list N) :=
  if decide (name = py "sha256") then Some Sha2.sha256
  else if decide (name = py "sha224") then Some Sha2.sha224
  else None.

(** ** A concrete world for the examples: the artifact [foo.bin] holds the
    bytes of "hello" and no provenance file exists yet. *)
Definition demo_clock (n : nat) : list N :=
  py "2024-05-01T10:00:0" ++ [48 + N.of_nat n].

Definition demo_world : world :=
  {| fs := {[ py "foo.bin" := File (py "hello") ]};
     denied := fun _ => None;
     clock := demo_clock; ticks := 0; log := [] |}.

Definition demo_args : args :=
  {| arg_artifact_path := py "foo.bin";
     arg_provenance_file := py "provenance.json";
     arg_command := Some (py "gcc -o foo foo.c");
     arg_version := Some (py "gcc 11.2");
     arg_hash_algorithm := py "sha256" |}.

Definition demo_recorder : recorder :=
  {| artifact_path := py "foo.bin";
     provenance_file := py "provenance.json";
     provenance_data := fresh_data (py "foo.bin") (py "2024-05-01T10:00:00Z") |}.

(** The steps that a sequence of calls starting in world [w] builds: the
    call at position [i] reads the clock at tick [ticks w + i]. *)
Definition steps_built (w : world) (calls : list (list N * option (list N)))
  : list json :=
  imap (fun i cv => JObj (build_step cv.1 (clock w (ticks w + i) ++ py "Z") cv.2))
       calls.

(** A recorder loaded from a file that already holds one step. *)
Definition demo_recorder1 : recorder :=
  {| artifact_path := py "foo.bin";
     provenance_file := py "provenance.json";
     provenance_data :=
       JObj [(py "artifact", JStr (py "foo.bin"));
             (py "created_at", JStr (py "2024-04-30T09:00:00Z"));
             (py "build_steps",
              JArr [JObj (build_step (py "gcc -o foo foo.c")
                                     (py "2024-04-30T09:00:01Z")
                                     (Some (py "gcc 11.2")))]);
             (py "artifact_hash", JNull)] |}.

(** A world in which a provenance file is already stored (the record of
    [demo_recorder1], which names [foo.bin]) and a second artifact exists. *)
Definition stored_world : world :=
  {| fs := {[ py "foo.bin" := File (py "hello");
              py "bar.bin" := File (py "world");
              py "provenance.json"
                := File (json_dumps (provenance_data demo_recorder1)) ]};
     denied := fun _ => None;
     clock := demo_clock; ticks := 0; log := [] |}.

(** A world whose provenance file is not text: the single byte 0xFF. *)
Definition corrupt_world : world :=
  {| fs := {[ py "foo.bin" := File (py "hello");
              py "provenance.json" := File [255] ]};
     denied := fun _ => None;
     clock := demo_clock; ticks := 0; log := [] |}.

(** A clock whose readings are text at every tick, and the world of the
    examples with it. *)
Definition steady_clock (n : nat) : list N :=
  py "2024-05-01T10:00:0" ++ [48 + N.of_nat (n mod 10)].

Definition steady_world : world :=
  {| fs := fs demo_world; denied := fun _ => None;
     clock := steady_clock; ticks := 0; log := [] |}.

(** A world whose provenance file is text but not JSON. *)
Definition malformed_world : world :=
  {| fs := {[ py "foo.bin" := File (py "hello");
              py "provenance.json" := File (py "{not json") ]};
     denied := fun _ => None;
     clock := demo_clock; ticks := 0; log := [] |}.

(** The invocation of [demo_args] without a command. *)
Definition demo_args_bare : args :=
  {| arg_artifact_path := py "foo.bin";
     arg_provenance_file := py "provenance.json";
     arg_command := None; arg_version := None;
     arg_hash_algorithm := py "sha256" |}.

(** A world whose provenance file holds a dict with an entry that the
    recorder does not know, and no [artifact_hash]. *)
Definition annotated_world : world :=
  {| fs := {[ py "foo.bin" := File (py "hello");
              py "provenance.json"
                := File (json_dumps (JObj [(py "owner", JStr (py "ci"));
                                           (py "build_steps", JArr [])])) ]};
     denied := fun _ => None;
     clock := demo_clock; ticks := 0; log := [] |}.

(** The invocation that names the artifact as its own provenance file. *)
Definition same_path_args : args :=
  {| arg_artifact_path := py "foo.bin";
     arg_provenance_file := py "foo.bin";
     arg_command := None; arg_version := None;
     arg_hash_algorithm := py "sha256" |}.

(** A recorder whose artifact does not exist, one whose record has no
    [build_steps], and one whose record holds a character outside ASCII. *)
Definition lost_recorder : recorder :=
  {| artifact_path := py "missing.bin";
     provenance_file := py "provenance.json";
     provenance_data := fresh_data (py "missing.bin") (py "2024-05-01T10:00:00Z") |}.

Definition bare_recorder : recorder :=
  {| artifact_path := py "foo.bin";
     provenance_file := py "provenance.json";
     provenance_data := JObj [] |}.


(** A world without the directory [out], and the invocation that asks
    for the provenance file in it. *)
Definition orphan_world : world :=
  {| fs := {[ py "foo.bin" := File (py "hello") ]};
     denied := fun p => if decide (p = py "out/provenance.json")
                        then Some FileNotFoundError else None;
     clock := demo_clock; ticks := 0; log := [] |}.

Definition orphan_args : args :=
  {| arg_artifact_path := py "foo.bin";
     arg_provenance_file := py "out/provenance.json";
     arg_command := None; arg_version := None;
     arg_hash_algorithm := py "sha256" |}.

(** Worlds whose provenance file is empty, and starts with a byte-order
    mark. *)
Definition blank_world : world :=
  {| fs := {[ py "foo.bin" := File (py "hello");
              py "provenance.json" := File [] ]};
     denied := fun _ => None;
     clock := demo_clock; ticks := 0; log := [] |}.

Definition bom_world : world :=
  {| fs := {[ py "foo.bin" := File (py "hello");
              py "provenance.json" := File (239 :: 187 :: 191 :: py "{}") ]};
     denied := fun _ => None;
     clock := demo_clock; ticks := 0; log := [] |}.

(** ** Notions used to state the properties of the codec *)

(** The text at [t] does not continue a high surrogate: it does not start
    with the escape of a low surrogate. *)
Definition no_low_escape (t : list N) : Prop :=
  match t with
  | b1 :: b2 :: g1 :: g2 :: g3 :: g4 :: _ =>
      (b1 =? 92) && (b2 =? 117) = true ->
      exists u, hex4_val g1 g2 g3 g4 = Some u /\ is_low_surrogate u = false
  | _ => True
  end.

Definition nondigit_head (rest : list N) : Prop :=
  match rest with [] => True | c :: _ => is_digit c = false end.

(** What may follow a value in the text that [encode] produces: nothing, a
    comma or a newline.  None of them continues a number. *)
Definition delimited (rest : list N) : Prop :=
  match rest with [] => True | c :: _ => c = 44 \/ c = 10 end.

(** The first character of a value: not white space, not a closing
    bracket, not a byte-order mark. *)
Definition value_head (s : list N) : Prop :=
  match s with
  | c :: _ => is_ws c = false /\ c <> 93 /\ c <> 65279
  | [] => False
  end.

(** The property of one value that the lemmas on arrays and dicts assume
    of the elements. *)
Definition reads_back (x : json) : Prop :=
  forall level fuel rest,
    (jsize x <= fuel)%nat -> delimited rest ->
    scan_once fuel (encode level x ++ rest) = Parsed x rest.

Definition member_text (l1 : nat) (kv : list N * json) : list N :=
  encode_str kv.1 ++ [58; 32] ++ encode l1 kv.2.

Definition ascii_text (s : list N) : Prop := Forall (fun c => c < 128) s.

(** A Unicode scalar value: a code point that is not a surrogate.  The
    characters of a file read as UTF-8 are scalar values. *)
Definition is_scalar (c : N) : bool :=
  (c <? 55296) || ((57343 <? c) && (c <? 1114112)).

Definition scalar_text (s : list N) : Prop := Forall (fun c => is_scalar c = true) s.

(** The text at [t] starts with the escape of a low surrogate. *)
Definition low_escape (t : list N) : Prop :=
  match t with
  | b1 :: b2 :: g1 :: g2 :: g3 :: g4 :: _ =>
      b1 = 92 /\ b2 = 117
      /\ exists u, hex4_val g1 g2 g3 g4 = Some u /\ is_low_surrogate u = true
  | _ => False
  end.

(** A member of a dict the recorder can hold. *)
Definition member_ok (kv : list N * json) : bool := str_ok kv.1 && json_ok kv.2.

(** Distinct dict keys are told apart by computation. *)
Ltac key_ne := let H := fresh in intros H; vm_compute in H; discriminate H.

(** Boolean tests in the hypotheses, as propositions for [lia]. *)
Ltac bool_to_prop :=
  repeat match goal with
         | H : _ && _ = true |- _ => apply andb_true_iff in H as [? ?]
         | H : _ && _ = false |- _ => apply andb_false_iff in H
         | H : _ || _ = true |- _ => apply orb_true_iff in H
         | H : _ || _ = false |- _ => apply orb_false_iff in H as [? ?]
         | H : negb _ = true |- _ => apply negb_true_iff in H
         | H : negb _ = false |- _ => apply negb_false_iff in H
         | H : (_ <=? _) = true |- _ => apply N.leb_le in H
         | H : (_ <=? _) = false |- _ => apply N.leb_gt in H
         | H : (_ <? _) = true |- _ => apply N.ltb_lt in H
         | H : (_ <? _) = false |- _ => apply N.ltb_ge in H
         | H : (_ =? _) = true |- _ => apply N.eqb_eq in H
         | H : (_ =? _) = false |- _ => apply N.eqb_neq in H
         | H : _ \/ _ |- _ => destruct H
         end.

(** * Properties *)

(** ** Dicts *)

Lemma dict_get_set_eq k v d : dict_get k (dict_set k v d) = Some v.
Proof.
  induction d as [|[k' v'] d IH]; simpl.
  - by rewrite decide_True.
  - destruct (decide (k' = k)) as [->|Hne]; simpl.
    + by rewrite decide_True.
    + by rewrite decide_False.
Qed.

Lemma dict_get_set_ne k k' v d :
  k <> k' -> dict_get k' (dict_set k v d) = dict_get k' d.
Proof.
  intros Hne. induction d as [|[k0 v0] d IH]; simpl.
  - by rewrite decide_False.
  - destruct (decide (k0 = k)) as [->|Hk0]; simpl.
    + by rewrite !decide_False.
    + by rewrite IH.
Qed.

Lemma dict_keys_set_present k v d :
  is_Some (dict_get k d) -> dict_keys (dict_set k v d) = dict_keys d.
Proof.
  induction d as [|[k0 v0] d IH]; simpl.
  - by intros [? ?].
  - destruct (decide (k0 = k)); simpl; [done|].
    intros H. by rewrite IH.
Qed.

Lemma dict_keys_set k v d :
  dict_keys (dict_set k v d)
  = match dict_get k d with Some _ => dict_keys d | None => dict_keys d ++ [k] end.
Proof.
  induction d as [|[k0 v0] d IH]; simpl; [done|].
  destruct (decide (k0 = k)); simpl; [done|].
  rewrite IH. by destruct (dict_get k d).
Qed.

Lemma dict_get_None_keys k d : dict_get k d = None <-> k ∉ dict_keys d.
Proof.
  induction d as [|[k0 v0] d IH]; simpl.
  - split; [intros _; apply not_elem_of_nil|done].
  - rewrite not_elem_of_cons. destruct (decide (k0 = k)) as [->|Hne].
    + split; [done|]. by intros [? _].
    + rewrite IH. split; [by intros ?; split|by intros [_ ?]].
Qed.

Lemma count_key_notin k d : k ∉ dict_keys d -> count_key k d = 0%nat.
Proof.
  unfold count_key. induction d as [|[k0 v0] d IH]; simpl; [done|].
  rewrite not_elem_of_cons. intros [Hne Hd].
  rewrite filter_cons_False by (simpl; congruence). by apply IH.
Qed.

Lemma count_key_set k v d :
  NoDup (dict_keys d) -> count_key k (dict_set k v d) = 1%nat.
Proof.
  unfold count_key. induction d as [|[k0 v0] d IH]; simpl; intros Hnd.
  - by rewrite filter_cons_True.
  - apply NoDup_cons in Hnd as [Hk0 Hnd].
    destruct (decide (k0 = k)) as [->|Hne].
    + rewrite filter_cons_True by done. simpl. f_equal.
      by apply (count_key_notin k d).
    + rewrite filter_cons_False by done. by apply IH.
Qed.

Lemma NoDup_dict_set k v d :
  NoDup (dict_keys d) -> NoDup (dict_keys (dict_set k v d)).
Proof.
  intros Hnd. rewrite dict_keys_set.
  destruct (dict_get k d) eqn:E; [done|].
  apply NoDup_app. split; [done|]. split.
  - intros x Hx Hx'. apply list_elem_of_singleton in Hx' as ->.
    by apply dict_get_None_keys in E.
  - apply NoDup_singleton.
Qed.

(** ** Hashing *)




(** The loop feeds the hash object every byte of the file, in order. *)
Lemma read_loop_update n h f : n <> 0%nat -> read_loop n h f = update h f.
Proof.
  intros Hn. funelim (read_loop n h f).
  - match goal with E : take ?n ?f = [] |- _ => destruct n, f; try done end.
    unfold update. destruct h. simpl. by rewrite app_nil_r.
  - match goal with
    | IH : _ -> read_loop _ _ _ = update _ _, E : take _ _ = _ |- _ =>
        rewrite IH by done; rewrite <- E
    end.
    unfold update. simpl. f_equal.
    rewrite <- app_assoc. f_equal. apply take_drop.
Qed.

Lemma dict_set_set k v1 v2 d : dict_set k v2 (dict_set k v1 d) = dict_set k v2 d.
Proof.
  induction d as [|[k0 v0] d IH]; simpl.
  - by rewrite decide_True.
  - destruct (decide (k0 = k)) as [->|Hne]; simpl.
    + by rewrite decide_True.
    + rewrite decide_False by done. by rewrite IH.
Qed.

Lemma dict_set_get_id k v d : dict_get k d = Some v -> dict_set k v d = d.
Proof.
  induction d as [|[k0 v0] d IH]; simpl; [done|].
  destruct (decide (k0 = k)); [by intros [= ->]|]. intros H. by rewrite IH.
Qed.

(** ** The methods of the recorder *)

Section RecorderProperties.

Variable hashlib_new : list N -> option (list N -> list N).

Lemma hash_result_hexlify algorithm digest data :
  hash_result algorithm digest data
  = JObj [(py "algorithm", JStr algorithm);
          (py "hash", JStr (hexlify (digest data)))].
Proof. unfold hash_result. by rewrite read_loop_update. Qed.

(** What a successful [calculate_hash] presupposes and does. *)
Lemma calculate_hash_Ok_inv self algorithm w u self' w' :
  calculate_hash hashlib_new self algorithm w = (Ok u, self', w') ->
  exists digest data d,
    hashlib_new algorithm = Some digest
    /\ fs w !! artifact_path self = Some (File data)
    /\ provenance_data self = JObj d
    /\ self' = set_data self (JObj (dict_set (py "artifact_hash")
                                     (hash_result algorithm digest data) d))
    /\ w' = logging INFO "Calculated hash" w.
Proof.
  unfold calculate_hash, path_exists, open_read, setitem.
  destruct (fs w !! artifact_path self) as [[data|]|] eqn:Efs; simpl;
    destruct (hashlib_new algorithm) as [digest|] eqn:Eh; simpl; try discriminate.
  destruct (provenance_data self) as [| | | | |d] eqn:Ed; try discriminate.
  intros [= <- <- <-]. by exists digest, data, d.
Qed.

Lemma calculate_hash_Ok self algorithm w digest data d :
  hashlib_new algorithm = Some digest ->
  fs w !! artifact_path self = Some (File data) ->
  provenance_data self = JObj d ->
  calculate_hash hashlib_new self algorithm w
  = (Ok tt,
     set_data self (JObj (dict_set (py "artifact_hash")
                            (hash_result algorithm digest data) d)),
     logging INFO "Calculated hash" w).
Proof.
  intros Eh Efs Ed.
  unfold calculate_hash, path_exists, open_read, setitem.
  by rewrite Efs, Eh, Ed.
Qed.

(** A failing [calculate_hash] leaves the recorder as it was and logs an
    error; no call touches the file system. *)
Lemma calculate_hash_Raise self algorithm w e self' w' :
  calculate_hash hashlib_new self algorithm w = (Raise e, self', w') ->
  self' = self /\ exists msg, w' = logging ERROR msg w.
Proof.
  unfold calculate_hash.
  match goal with |- context [match ?b with Ok _ => _ | Raise _ => _ end] =>
    destruct b as [d|[]] end;
    intros [= <- <- <-]; (split; [done|]); eauto.
Qed.

Lemma calculate_hash_fs self algorithm w r self' w' :
  calculate_hash hashlib_new self algorithm w = (r, self', w') -> fs w' = fs w.
Proof.
  destruct r as [[]|e]; intros H.
  - apply calculate_hash_Ok_inv in H as (? & ? & ? & _ & _ & _ & _ & ->). done.
  - apply calculate_hash_Raise in H as [_ [msg ->]]. done.
Qed.



(** C7. After two successful [calculate_hash] calls, with algorithms [a1]
    then [a2], the dict has exactly one [artifact_hash] entry, and the
    record is what the second call alone would have made of the original:
    the entry of the first call is overwritten. *)
Theorem calculate_hash_overwrites (self self1 self2 : recorder)
    (a1 a2 : list N) (w w1 w2 w3 : world) (d : list (list N * json)) :
  provenance_data self = JObj d ->
  NoDup (dict_keys d) ->
  calculate_hash hashlib_new self a1 w = (Ok tt, self1, w1) ->
  calculate_hash hashlib_new self1 a2 w2 = (Ok tt, self2, w3) ->
  exists digest2 data2,
    hashlib_new a2 = Some digest2
    /\ fs w2 !! artifact_path self = Some (File data2)
    /\ let entry := JObj [(py "algorithm", JStr a2);
                          (py "hash", JStr (hexlify (digest2 data2)))] in
       let d2 := dict_set (py "artifact_hash") entry d in
       provenance_data self2 = JObj d2
       /\ dict_get (py "artifact_hash") d2 = Some entry
       /\ count_key (py "artifact_hash") d2 = 1%nat.
Proof.
  intros Ed Hnd H1 H2.
  apply calculate_hash_Ok_inv in H1 as (g1 & x1 & d1 & _ & _ & Ed1 & -> & _).
  apply calculate_hash_Ok_inv in H2 as (g2 & x2 & d2 & Eh2 & Efs2 & Ed2 & -> & _).
  simpl in *. rewrite Ed in Ed1. injection Ed1 as <-. injection Ed2 as <-.
  exists g2, x2. rewrite dict_set_set, hash_result_hexlify.
  repeat split; try done.
  - apply dict_get_set_eq.
  - by apply count_key_set.
Qed.

End RecorderProperties.


(** ** add_build_step *)

Lemma set_data_set_data self x y : set_data (set_data self x) y = set_data self y.
Proof. done. Qed.

Lemma build_step_version command now version :
  dict_get (py "version") (build_step command now version)
  = match version with
    | Some v => if truthy v then Some (JStr v) else None
    | None => None
    end.
Proof.
  unfold build_step. destruct version as [v|]; [destruct (truthy v)|]; reflexivity.
Qed.

Lemma build_step_command command now version :
  dict_get (py "command") (build_step command now version) = Some (JStr command)
  /\ dict_get (py "executed_at") (build_step command now version) = Some (JStr now).
Proof.
  unfold build_step.
  destruct version as [v|]; [destruct (truthy v)|]; split; reflexivity.
Qed.

Lemma add_build_step_Ok self command version w d old :
  provenance_data self = JObj d ->
  dict_get (py "build_steps") d = Some (JArr old) ->
  add_build_step self command version w
  = (Ok tt,
     set_data self
       (JObj (dict_set (py "build_steps")
                (JArr (old ++ [JObj (build_step command
                                       (clock w (ticks w) ++ py "Z") version)]))
                d)),
     logging INFO "Added build step" (utcnow_iso_z w).2).
Proof.
  intros Ed Eb. unfold add_build_step, utcnow_iso_z, mutate_item.
  rewrite Ed. cbv beta iota. rewrite Eb. reflexivity.
Qed.

Lemma add_build_step_fs self command version w r self' w' :
  add_build_step self command version w = (r, self', w') -> fs w' = fs w.
Proof.
  unfold add_build_step. simpl.
  destruct (mutate_item _ _ _); by intros [= <- <- <-].
Qed.

Lemma add_build_step_Raise self command version w e self' w' :
  add_build_step self command version w = (Raise e, self', w') -> self' = self.
Proof.
  unfold add_build_step. simpl.
  destruct (mutate_item _ _ _); by intros [= <- <-].
Qed.

Lemma steps_built_cons w w1 command version calls :
  clock w1 = clock w -> ticks w1 = S (ticks w) ->
  steps_built w ((command, version) :: calls)
  = JObj (build_step command (clock w (ticks w) ++ py "Z") version)
      :: steps_built w1 calls.
Proof.
  intros Ec Et. unfold steps_built. rewrite imap_cons. cbn [fst snd].
  rewrite Nat.add_0_r. f_equal. apply imap_ext. intros i [c v] _.
  cbn [fst snd compose]. rewrite Ec, Et.
  by replace (S (ticks w) + i)%nat with (ticks w + S i)%nat by lia.
Qed.

Lemma length_steps_built w calls : length (steps_built w calls) = length calls.
Proof. apply length_imap. Qed.

Lemma add_build_steps_Ok calls : forall self w d old,
  provenance_data self = JObj d ->
  dict_get (py "build_steps") d = Some (JArr old) ->
  exists w',
    add_build_steps self calls w
    = (Ok tt,
       set_data self
         (JObj (dict_set (py "build_steps") (JArr (old ++ steps_built w calls)) d)),
       w')
    /\ fs w' = fs w /\ clock w' = clock w
    /\ ticks w' = (ticks w + length calls)%nat.
Proof.
  induction calls as [|[command version] calls IH]; intros self w d old Ed Eb.
  - exists w. simpl. rewrite app_nil_r. repeat split; [|lia].
    destruct self as [ap pf pd]. simpl in *. subst pd. unfold set_data. simpl.
    by rewrite dict_set_get_id.
  - simpl. rewrite (add_build_step_Ok _ _ _ _ d old) by done.
    set (w1 := logging INFO "Added build step" (utcnow_iso_z w).2).
    edestruct (IH (set_data self (JObj (dict_set (py "build_steps")
        (JArr (old ++ [JObj (build_step command (clock w (ticks w) ++ py "Z")
                                 version)])) d))) w1) as (w' & E & Hfs & Hc & Ht).
    { reflexivity. }
    { apply dict_get_set_eq. }
    exists w'. rewrite E, set_data_set_data, dict_set_set, <- app_assoc. simpl.
    rewrite (steps_built_cons w w1) by done.
    repeat split; [done|done|]. rewrite Ht. simpl. lia.
Qed.

Lemma add_build_steps_app calls1 calls2 : forall self w,
  add_build_steps self (calls1 ++ calls2) w
  = match add_build_steps self calls1 w with
    | (Ok _, self1, w1) => add_build_steps self1 calls2 w1
    | (Raise e, self1, w1) => (Raise e, self1, w1)
    end.
Proof.
  induction calls1 as [|[command version] calls1 IH]; intros self w; simpl; [done|].
  destruct (add_build_step self command version w) as [[[[]|e] self1] w1]; [|done].
  apply IH.
Qed.

(** C4, as the code has it.  On a record whose [build_steps] is the list
    [old], every sequence of calls succeeds and extends the list by one
    entry per call, in call order: after the first [length calls1] calls
    the list is [old] followed by their entries, and after the remaining
    calls it is that same list followed by the entries of the remaining
    calls.  So the length grows by the number of calls and no entry that
    is already in the list is changed or removed by a later call. *)
Theorem add_build_steps_append_only (self : recorder)
    (d : list (list N * json)) (old : list json)
    (calls1 calls2 : list (list N * option (list N))) (w : world) :
  provenance_data self = JObj d ->
  dict_get (py "build_steps") d = Some (JArr old) ->
  exists self1 w1 self2 w2,
    add_build_steps self calls1 w = (Ok tt, self1, w1)
    /\ add_build_steps self (calls1 ++ calls2) w = (Ok tt, self2, w2)
    /\ getitem (provenance_data self1) (py "build_steps")
       = Ok (JArr (old ++ steps_built w calls1))
    /\ getitem (provenance_data self2) (py "build_steps")
       = Ok (JArr ((old ++ steps_built w calls1) ++ steps_built w1 calls2))
    /\ length (old ++ steps_built w calls1) = (length old + length calls1)%nat
    /\ length ((old ++ steps_built w calls1) ++ steps_built w1 calls2)
       = (length old + length calls1 + length calls2)%nat.
Proof.
  intros Ed Eb.
  destruct (add_build_steps_Ok calls1 self w d old Ed Eb) as (w1 & E1 & _).
  edestruct (add_build_steps_Ok calls2
    (set_data self (JObj (dict_set (py "build_steps")
                            (JArr (old ++ steps_built w calls1)) d))) w1)
    as (w2 & E2 & _).
  { reflexivity. }
  { apply dict_get_set_eq. }
  eexists _, w1, _, w2. split; [exact E1|]. split.
  { rewrite add_build_steps_app, E1. exact E2. }
  cbn [provenance_data set_data getitem]. rewrite !dict_get_set_eq.
  repeat split; rewrite ?length_app, ?length_steps_built; lia.
Qed.

Lemma add_build_steps_append_only_witness :
  exists self2 w2,
    add_build_steps demo_recorder1
      [(py "strip foo", None); (py "upx foo", Some (py "upx 4.0"))] demo_world
    = (Ok tt, self2, w2)
    /\ getitem (provenance_data self2) (py "build_steps")
       = Ok (JArr [JObj (build_step (py "gcc -o foo foo.c")
                                    (py "2024-04-30T09:00:01Z")
                                    (Some (py "gcc 11.2")));
                   JObj (build_step (py "strip foo") (py "2024-05-01T10:00:00Z")
                                    None);
                   JObj (build_step (py "upx foo") (py "2024-05-01T10:00:01Z")
                                    (Some (py "upx 4.0")))]).
Proof.
  edestruct add_build_steps_append_only
    with (self := demo_recorder1) (calls1 := [(py "strip foo", @None (list N))])
         (calls2 := [(py "upx foo", Some (py "upx 4.0"))]) (w := demo_world)
    as (self1 & w1 & self2 & w2 & E1 & E2 & _ & G2 & _);
    [reflexivity | reflexivity |].
  exists self2, w2. split; [exact E2|].
  rewrite G2. vm_compute in E1. injection E1 as _ <-. reflexivity.
Defined.

(** C4 as stated fails on a record that already has steps: one call on a
    record with one step leaves two entries, not one, so it is not true
    that the list after N calls has length N for every record. *)
Lemma add_build_steps_length_counterexample :
  (exists self' w' steps,
     add_build_steps demo_recorder1 [(py "strip foo", None)] demo_world
     = (Ok tt, self', w')
     /\ getitem (provenance_data self') (py "build_steps") = Ok (JArr steps)
     /\ length steps = 2%nat)
  /\ ~ (forall self calls w self' w' steps,
          add_build_steps self calls w = (Ok tt, self', w') ->
          getitem (provenance_data self') (py "build_steps") = Ok (JArr steps) ->
          length steps = length calls).
Proof.
  assert (Hrun : exists self' w' steps,
     add_build_steps demo_recorder1 [(py "strip foo", None)] demo_world
     = (Ok tt, self', w')
     /\ getitem (provenance_data self') (py "build_steps") = Ok (JArr steps)
     /\ length steps = 2%nat).
  { eexists _, _, _. split; [vm_compute; reflexivity|].
    split; [vm_compute; reflexivity|reflexivity]. }
  split; [exact Hrun|].
  intros H. destruct Hrun as (self' & w' & steps & E & G & L).
  specialize (H _ _ _ _ _ _ E G). rewrite L in H. discriminate H.
Qed.

(** C5, as the code has it.  The appended step has a [version] entry
    exactly when a non-empty version was supplied, and the entry is then
    that string; with no version, or an empty one, the step has no
    [version] key at all (and so no null placeholder). *)
Theorem add_build_step_version (self : recorder) (command : list N)
    (version : option (list N)) (w : world)
    (d : list (list N * json)) (old : list json) :
  provenance_data self = JObj d ->
  dict_get (py "build_steps") d = Some (JArr old) ->
  exists step self' w',
    add_build_step self command version w = (Ok tt, self', w')
    /\ getitem (provenance_data self') (py "build_steps")
       = Ok (JArr (old ++ [JObj step]))
    /\ dict_get (py "command") step = Some (JStr command)
    /\ dict_get (py "version") step
       = match version with
         | Some v => if truthy v then Some (JStr v) else None
         | None => None
         end
    /\ (is_Some (dict_get (py "version") step) <-> truthy_opt version = true).
Proof.
  intros Ed Eb. eexists _, _, _. split; [by apply add_build_step_Ok|].
  simpl. rewrite dict_get_set_eq. split; [done|].
  split; [apply build_step_command|]. rewrite build_step_version.
  split; [done|].
  destruct version as [v|]; simpl; [destruct (truthy v)|];
    split; try done; by intros [? ?].
Qed.

Lemma add_build_step_version_witness :
  exists step self' w',
    add_build_step demo_recorder (py "gcc -o foo foo.c") (Some (py "gcc 11.2"))
                   demo_world = (Ok tt, self', w')
    /\ getitem (provenance_data self') (py "build_steps") = Ok (JArr [JObj step])
    /\ dict_get (py "version") step = Some (JStr (py "gcc 11.2")).
Proof.
  edestruct add_build_step_version
    with (self := demo_recorder) (command := py "gcc -o foo foo.c")
         (version := Some (py "gcc 11.2")) (w := demo_world)
    as (step & self' & w' & E & G & _ & V & _); [reflexivity | reflexivity |].
  exists step, self', w'. split; [exact E|]. split; [exact G|exact V].
Defined.

(** C5 as stated fails when the version supplied is the empty string: the
    caller passed a version, and the step has no [version] entry, so it is
    not true that the entry is there exactly when a version was supplied. *)
Lemma add_build_step_empty_version_counterexample :
  (exists step self' w',
     add_build_step demo_recorder (py "make") (Some []) demo_world
     = (Ok tt, self', w')
     /\ getitem (provenance_data self') (py "build_steps") = Ok (JArr [JObj step])
     /\ dict_get (py "version") step = None)
  /\ ~ (forall self command version w self' w' steps step,
          add_build_step self command version w = (Ok tt, self', w') ->
          getitem (provenance_data self') (py "build_steps")
          = Ok (JArr (steps ++ [JObj step])) ->
          (is_Some (dict_get (py "version") step) <-> is_Some version)).
Proof.
  assert (Hrun : exists step self' w',
     add_build_step demo_recorder (py "make") (Some []) demo_world
     = (Ok tt, self', w')
     /\ getitem (provenance_data self') (py "build_steps") = Ok (JArr [JObj step])
     /\ dict_get (py "version") step = None).
  { eexists _, _, _. split; [vm_compute; reflexivity|].
    split; [vm_compute; reflexivity|reflexivity]. }
  split; [exact Hrun|].
  intros H. destruct Hrun as (step & self' & w' & E & G & V).
  destruct (H _ _ _ _ _ _ [] step E G) as [_ Hv].
  destruct Hv as [x Hx]; [by eexists|]. rewrite V in Hx. discriminate Hx.
Qed.

(** ** Loading and saving *)

Lemma json_loads_Raise s e : json_loads s = Raise e -> e = JSONDecodeError.
Proof.
  unfold json_loads. destruct (starts_with [65279] s); [congruence|].
  destruct (scan_once _ _) as [v r| |]; try congruence.
  destruct (skip_ws r); congruence.
Qed.

Lemma json_load_Raise data e :
  json_load data = Raise e -> e = UnicodeDecodeError \/ e = JSONDecodeError.
Proof.
  unfold json_load. destruct (utf8_decode data).
  - intros H. right. by apply json_loads_Raise in H.
  - intros [= <-]. by left.
Qed.

Lemma load_existing_provenance_fs self w r self' w' :
  load_existing_provenance self w = (r, self', w') -> fs w' = fs w.
Proof.
  unfold load_existing_provenance. destruct (path_exists _ _); [|by intros [= <- <- <-]].
  match goal with |- context [match ?b with Ok _ => _ | Raise _ => _ end] =>
    destruct b as [v|e] end; [by intros [= <- <- <-]|].
  destruct (load_handles e); by intros [= <- <- <-].
Qed.

Lemma init_fs ap pf w r w' : __init__ ap pf w = (r, w') -> fs w' = fs w.
Proof.
  unfold __init__. simpl.
  match goal with |- context [load_existing_provenance ?s ?w0] =>
    destruct (load_existing_provenance s w0) as [[[u|e] s'] w0'] eqn:E end;
    intros [= <- <-]; by apply load_existing_provenance_fs in E.
Qed.

(** With no file at the path, [__init__] leaves the fresh record. *)
Lemma init_absent ap pf w :
  fs w !! pf = None ->
  __init__ ap pf w
  = (Ok {| artifact_path := ap; provenance_file := pf;
           provenance_data := fresh_data ap (clock w (ticks w) ++ py "Z") |},
     (utcnow_iso_z w).2).
Proof.
  intros E. unfold __init__, load_existing_provenance, path_exists. simpl.
  by rewrite E.
Qed.

(** A file that [json.load] reads replaces the fresh record whole. *)
Lemma init_loaded ap pf w data v :
  fs w !! pf = Some (File data) ->
  json_load data = Ok v ->
  __init__ ap pf w
  = (Ok {| artifact_path := ap; provenance_file := pf; provenance_data := v |},
     (utcnow_iso_z w).2).
Proof.
  intros E Ev.
  unfold __init__, load_existing_provenance, path_exists, open_read. simpl.
  by rewrite E, Ev.
Qed.

(** A file on which [json.load] raises [JSONDecodeError] is reported with
    a warning, and the fresh record stays. *)
Lemma init_malformed ap pf w data :
  fs w !! pf = Some (File data) ->
  json_load data = Raise JSONDecodeError ->
  __init__ ap pf w
  = (Ok {| artifact_path := ap; provenance_file := pf;
           provenance_data := fresh_data ap (clock w (ticks w) ++ py "Z") |},
     logging WARNING "Could not load existing provenance file. Starting fresh."
             (utcnow_iso_z w).2).
Proof.
  intros E Ev.
  unfold __init__, load_existing_provenance, path_exists, open_read. simpl.
  by rewrite E, Ev.
Qed.

(** Any other exception of the load leaves [__init__]: undecodable bytes,
    or a directory at the path. *)
Lemma init_undecodable ap pf w data :
  fs w !! pf = Some (File data) ->
  utf8_decode data = None ->
  __init__ ap pf w = (Raise UnicodeDecodeError, (utcnow_iso_z w).2).
Proof.
  intros E Ev.
  unfold __init__, load_existing_provenance, path_exists, open_read, json_load.
  simpl. by rewrite E, Ev.
Qed.

Lemma init_directory ap pf w :
  fs w !! pf = Some Dir ->
  __init__ ap pf w = (Raise IsADirectoryError, (utcnow_iso_z w).2).
Proof.
  intros E.
  unfold __init__, load_existing_provenance, path_exists, open_read. simpl.
  by rewrite E.
Qed.

Lemma init_paths ap pf w self w' :
  __init__ ap pf w = (Ok self, w') ->
  artifact_path self = ap /\ provenance_file self = pf.
Proof.
  unfold __init__, load_existing_provenance. simpl.
  destruct (path_exists _ _); [|by intros [= <- <-]].
  match goal with |- context [match ?b with Ok _ => _ | Raise _ => _ end] =>
    destruct b as [v|e] end; [by intros [= <- <-]|].
  destruct (load_handles e); [by intros [= <- <-]|done].
Qed.

Lemma save_provenance_Ok self w :
  fs w !! provenance_file self <> Some Dir ->
  (fs w !! provenance_file self = None -> denied w (provenance_file self) = None) ->
  save_provenance self w
  = (Ok tt, self,
     logging INFO "Provenance data saved"
       (set_fs w (<[provenance_file self
                    := File (json_dumps (provenance_data self))]> (fs w)))).
Proof.
  intros H Hnew. unfold save_provenance, open_write.
  destruct (fs w !! provenance_file self) as [[|]|]; [done|done|].
  by rewrite Hnew.
Qed.

Lemma save_provenance_Raise self w e self' w' :
  save_provenance self w = (Raise e, self', w') -> self' = self /\ fs w' = fs w.
Proof.
  unfold save_provenance, open_write.
  destruct (fs w !! provenance_file self) as [[|]|];
    [| |destruct (denied w (provenance_file self))]; by intros [= <- <- <-].
Qed.

(** ** main *)

Section MainProperties.

Variable hashlib_new : list N -> option (list N -> list N).

Lemma first_step_fs a self w r self' w' :
  first_step a self w = (r, self', w') -> fs w' = fs w.
Proof.
  unfold first_step, skip. destruct (truthy_opt _).
  - apply add_build_step_fs.
  - by intros [= <- <- <-].
Qed.

Lemma first_step_paths a self w r self' w' :
  first_step a self w = (r, self', w') ->
  artifact_path self' = artifact_path self
  /\ provenance_file self' = provenance_file self.
Proof.
  unfold first_step, skip, add_build_step. simpl. destruct (truthy_opt _).
  - destruct (mutate_item _ _ _); by intros [= <- <- <-].
  - by intros [= <- <- <-].
Qed.

Lemma main_body_unfold a w :
  main_body hashlib_new a w
  = if negb (path_exists w (arg_artifact_path a)) then (Raise FileNotFoundError, w)
    else
      match __init__ (arg_artifact_path a) (arg_provenance_file a) w with
      | (Raise e, w0) => (Raise e, w0)
      | (Ok self0, w0) =>
          match first_step a self0 w0 with
          | (Raise e, _, w1) => (Raise e, w1)
          | (Ok _, self1, w1) =>
              match calculate_hash hashlib_new self1 (arg_hash_algorithm a) w1 with
              | (Raise e, _, w2) => (Raise e, w2)
              | (Ok _, self2, w2) =>
                  match save_provenance self2 w2 with
                  | (Raise e, _, w3) => (Raise e, w3)
                  | (Ok _, self3, w3) => (Ok self3, w3)
                  end
              end
          end
      end.
Proof.
  unfold main_body, seq, first_step.
  destruct (negb _); [done|].
  destruct (__init__ _ _ _) as [[self0|e] w0]; [|done].
  destruct (truthy_opt _).
  - destruct (add_build_step _ _ _ _) as [[[u|e] self1] w1]; [|done].
    destruct (calculate_hash _ _ _ _) as [[[u2|e] self2] w2]; [|done].
    by destruct (save_provenance _ _) as [[[u3|e] self3] w3].
  - unfold skip.
    destruct (calculate_hash _ _ _ _) as [[[u2|e] self2] w2]; [|done].
    by destruct (save_provenance _ _) as [[[u3|e] self3] w3].
Qed.

(** A run that succeeds went through every stage. *)
Lemma main_body_Ok_inv a w self' w' :
  main_body hashlib_new a w = (Ok self', w') ->
  exists self0 w0 self1 w1 self2 w2,
    path_exists w (arg_artifact_path a) = true
    /\ __init__ (arg_artifact_path a) (arg_provenance_file a) w = (Ok self0, w0)
    /\ first_step a self0 w0 = (Ok tt, self1, w1)
    /\ calculate_hash hashlib_new self1 (arg_hash_algorithm a) w1 = (Ok tt, self2, w2)
    /\ save_provenance self2 w2 = (Ok tt, self', w').
Proof.
  rewrite main_body_unfold.
  destruct (path_exists _ _); [|done]. cbn [negb].
  destruct (__init__ _ _ _) as [[self0|e] w0] eqn:E0; [|done].
  destruct (first_step _ _ _) as [[[[]|e] self1] w1] eqn:E1; [|done].
  destruct (calculate_hash _ _ _ _) as [[[[]|e] self2] w2] eqn:E2; [|done].
  destruct (save_provenance _ _) as [[[[]|e] self3] w3] eqn:E3; [|done].
  intros [= <- <-]. by exists self0, w0, self1, w1, self2, w2.
Qed.

(** A run that raises has not written anything. *)
Lemma main_body_Raise_fs a w e w' :
  main_body hashlib_new a w = (Raise e, w') -> fs w' = fs w.
Proof.
  rewrite main_body_unfold.
  destruct (negb _); [by intros [= <- <-]|].
  destruct (__init__ _ _ _) as [[self0|e0] w0] eqn:E0;
    apply init_fs in E0; [|intros [= <- <-]; done].
  destruct (first_step _ _ _) as [[[[]|e1] self1] w1] eqn:E1;
    apply first_step_fs in E1; [|intros [= <- <-]; congruence].
  destruct (calculate_hash _ _ _ _) as [[[[]|e2] self2] w2] eqn:E2;
    apply calculate_hash_fs in E2; [|intros [= <- <-]; congruence].
  destruct (save_provenance _ _) as [[[[]|e3] self3] w3] eqn:E3; [done|].
  apply save_provenance_Raise in E3 as [_ E3]. intros [= <- <-]. congruence.
Qed.

(** Every exception that leaves the [try] block is logged as an error and
    turned into exit status 1. *)
Lemma main_of_Raise a w e w' :
  main_body hashlib_new a w = (Raise e, w') ->
  exists msg, main hashlib_new a w = (1%nat, logging ERROR msg w').
Proof.
  intros E. unfold main. rewrite E. destruct e; eauto.
Qed.

Lemma main_of_Ok a w self' w' :
  main_body hashlib_new a w = (Ok self', w') -> main hashlib_new a w = (0%nat, w').
Proof. intros E. unfold main. by rewrite E. Qed.

Lemma main_aborts a w :
  (forall self' w', main_body hashlib_new a w <> (Ok self', w')) ->
  exists msg w',
    main hashlib_new a w = (1%nat, logging ERROR msg w') /\ fs w' = fs w.
Proof.
  intros H. destruct (main_body hashlib_new a w) as [[self'|e] w'] eqn:E.
  - by destruct (H self' w').
  - destruct (main_of_Raise _ _ _ _ E) as [msg Hm].
    exists msg, w'. split; [done|]. by apply main_body_Raise_fs in E.
Qed.

(** C2. When the artifact path does not name an existing file (nothing is
    there, or a directory is), the process exits with status 1 and the file
    system is as it was: no provenance file has been created, and one that
    existed has its contents unchanged. *)
Theorem main_missing_artifact (a : args) (w : world) :
  (forall data, fs w !! arg_artifact_path a <> Some (File data)) ->
  exists w', main hashlib_new a w = (1%nat, w')
    /\ fs w' = fs w
    /\ fs w' !! arg_provenance_file a = fs w !! arg_provenance_file a.
Proof.
  intros Hnf.
  destruct (main_aborts a w) as (msg & w' & E & Hfs).
  - intros self' w' E.
    apply main_body_Ok_inv in E
      as (self0 & w0 & self1 & w1 & self2 & w2 & _ & E0 & E1 & E2 & _).
    apply calculate_hash_Ok_inv in E2 as (g & data & d & _ & Efs & _).
    pose proof (init_paths _ _ _ _ _ E0) as [P0 _].
    pose proof (first_step_paths _ _ _ _ _ _ E1) as [P1 _].
    apply init_fs in E0. apply first_step_fs in E1.
    apply (Hnf data). congruence.
  - exists (logging ERROR msg w'). simpl. by rewrite Hfs.
Qed.


End MainProperties.

Lemma main_missing_artifact_witness :
  exists w',
    main hashlib_sha2
      {| arg_artifact_path := py "missing.bin";
         arg_provenance_file := py "provenance.json";
         arg_command := Some (py "make"); arg_version := None;
         arg_hash_algorithm := py "sha256" |} stored_world = (1%nat, w')
    /\ fs w' = fs stored_world.
Proof.
  edestruct main_missing_artifact
    with (hashlib_new := hashlib_sha2)
         (a := {| arg_artifact_path := py "missing.bin";
                  arg_provenance_file := py "provenance.json";
                  arg_command := Some (py "make"); arg_version := None;
                  arg_hash_algorithm := py "sha256" |})
         (w := stored_world) as (w' & E & Hfs & _).
  - intros data. vm_compute. discriminate.
  - exists w'. split; [exact E|exact Hfs].
Defined.


(** ** Runs on a stored record *)

Section StoredRuns.

Variable hashlib_new : list N -> option (list N -> list N).

(** A run whose provenance file loads, whose artifact is a file and whose
    algorithm is known succeeds once its first step does; it saves the
    record of the first step with the new hash entry. *)
Lemma main_body_stored a w pdata v adata digest self1 w1 d1 :
  fs w !! arg_provenance_file a = Some (File pdata) ->
  json_load pdata = Ok v ->
  fs w !! arg_artifact_path a = Some (File adata) ->
  hashlib_new (arg_hash_algorithm a) = Some digest ->
  first_step a {| artifact_path := arg_artifact_path a;
                  provenance_file := arg_provenance_file a;
                  provenance_data := v |} (utcnow_iso_z w).2
  = (Ok tt, self1, w1) ->
  provenance_data self1 = JObj d1 ->
  let d2 := dict_set (py "artifact_hash")
              (hash_result (arg_hash_algorithm a) digest adata) d1 in
  exists w',
    main_body hashlib_new a w
    = (Ok {| artifact_path := arg_artifact_path a;
             provenance_file := arg_provenance_file a;
             provenance_data := JObj d2 |}, w')
    /\ fs w' = <[arg_provenance_file a := File (json_dumps (JObj d2))]> (fs w).
Proof.
  intros Ep Ev Ea Eh E1 Ed1 d2.
  pose proof (first_step_fs _ _ _ _ _ _ E1) as F1.
  pose proof (first_step_paths _ _ _ _ _ _ E1) as [P1 P1'].
  simpl in F1, P1, P1'.
  rewrite main_body_unfold. unfold path_exists. rewrite Ea. cbn [negb].
  rewrite (init_loaded _ _ _ pdata v) by done. rewrite E1.
  rewrite (calculate_hash_Ok _ _ _ _ digest adata d1) by (congruence || done).
  rewrite save_provenance_Ok.
  2:{ simpl. by rewrite P1', F1, Ep. }
  2:{ simpl. by rewrite P1', F1, Ep. }
  unfold set_data. simpl. rewrite P1, P1'.
  eexists. split; [reflexivity|]. simpl. by rewrite F1.
Qed.

(** C10. When the provenance file loads as a dict, the [artifact] entry
    of the record that the run saves is the one the file held, whatever the
    artifact path of the invocation, while its [artifact_hash] entry is the
    digest of the file named by the invocation. *)
Theorem stored_artifact_kept (a : args) (w : world) (pdata adata : list N)
    (d : list (list N * json)) (digest : list N -> list N) :
  fs w !! arg_provenance_file a = Some (File pdata) ->
  json_load pdata = Ok (JObj d) ->
  fs w !! arg_artifact_path a = Some (File adata) ->
  hashlib_new (arg_hash_algorithm a) = Some digest ->
  (truthy_opt (arg_command a) = true ->
   exists old, dict_get (py "build_steps") d = Some (JArr old)) ->
  exists d' w',
    main hashlib_new a w = (0%nat, w')
    /\ fs w' = <[arg_provenance_file a := File (json_dumps (JObj d'))]> (fs w)
    /\ dict_get (py "artifact") d' = dict_get (py "artifact") d
    /\ dict_get (py "artifact_hash") d'
       = Some (JObj [(py "algorithm", JStr (arg_hash_algorithm a));
                     (py "hash", JStr (hexlify (digest adata)))]).
Proof.
  intros Ep Ev Ea Eh Hcmd.
  assert (exists self1 w1 d1,
    first_step a {| artifact_path := arg_artifact_path a;
                    provenance_file := arg_provenance_file a;
                    provenance_data := JObj d |} (utcnow_iso_z w).2
    = (Ok tt, self1, w1)
    /\ provenance_data self1 = JObj d1
    /\ dict_get (py "artifact") d1 = dict_get (py "artifact") d)
    as (self1 & w1 & d1 & E1 & Ed1 & Hart).
  { unfold first_step. destruct (truthy_opt (arg_command a)).
    - destruct Hcmd as [old Eold]; [done|].
      eexists _, _, _. split; [by apply add_build_step_Ok with (d := d)|].
      split; [reflexivity|]. apply dict_get_set_ne. key_ne.
    - by exists {| artifact_path := arg_artifact_path a;
                   provenance_file := arg_provenance_file a;
                   provenance_data := JObj d |}, (utcnow_iso_z w).2, d. }
  destruct (main_body_stored a w pdata (JObj d) adata digest self1 w1 d1)
    as (w' & E & Hfs); try done.
  eexists _, w'. split; [by apply main_of_Ok in E|]. split; [exact Hfs|].
  split.
  - rewrite dict_get_set_ne by key_ne. exact Hart.
  - rewrite dict_get_set_eq. by rewrite hash_result_hexlify.
Qed.

(** C8. A run that loads a stored record and appends one step saves a
    record with the [created_at] of the stored one, and with the stored
    steps, unchanged and in their order, followed by the new step. *)
Theorem rerun_keeps_created_at (a : args) (w : world) (pdata adata : list N)
    (d : list (list N * json)) (old : list json) (c : list N)
    (digest : list N -> list N) :
  fs w !! arg_provenance_file a = Some (File pdata) ->
  json_load pdata = Ok (JObj d) ->
  dict_get (py "build_steps") d = Some (JArr old) ->
  arg_command a = Some c ->
  truthy c = true ->
  fs w !! arg_artifact_path a = Some (File adata) ->
  hashlib_new (arg_hash_algorithm a) = Some digest ->
  exists d' w',
    main hashlib_new a w = (0%nat, w')
    /\ fs w' = <[arg_provenance_file a := File (json_dumps (JObj d'))]> (fs w)
    /\ dict_get (py "created_at") d' = dict_get (py "created_at") d
    /\ dict_get (py "build_steps") d'
       = Some (JArr (old ++ [JObj (build_step c (clock w (S (ticks w)) ++ py "Z")
                                               (arg_version a))])).
Proof.
  intros Ep Ev Eold Ec Ht Ea Eh.
  edestruct (main_body_stored a w pdata (JObj d) adata digest)
    as (w' & E & Hfs); try done.
  { unfold first_step, truthy_opt. rewrite Ec, Ht. cbn [default].
    by apply add_build_step_Ok with (d := d). }
  { reflexivity. }
  eexists _, w'. split; [by apply main_of_Ok in E|]. split; [exact Hfs|].
  split.
  - rewrite !dict_get_set_ne by key_ne. done.
  - rewrite dict_get_set_ne by key_ne. by rewrite dict_get_set_eq.
Qed.

End StoredRuns.

Lemma calculate_hash_overwrites_witness :
  exists self1 w1 self2 w2 d2,
    calculate_hash hashlib_sha2 demo_recorder (py "sha224") demo_world
    = (Ok tt, self1, w1)
    /\ calculate_hash hashlib_sha2 self1 (py "sha256") demo_world
       = (Ok tt, self2, w2)
    /\ provenance_data self2 = JObj d2
    /\ dict_get (py "artifact_hash") d2
       = Some (JObj [(py "algorithm", JStr (py "sha256"));
                     (py "hash", JStr (hexlify (Sha2.sha256 (py "hello"))))])
    /\ count_key (py "artifact_hash") d2 = 1%nat.
Proof.
  eexists _, _, _, _, _.
  split; [vm_compute; reflexivity|]. split; [vm_compute; reflexivity|].
  edestruct calculate_hash_overwrites
    with (hashlib_new := hashlib_sha2) (self := demo_recorder)
         (a1 := py "sha224") (a2 := py "sha256") (w := demo_world)
         (w2 := demo_world)
    as (g & data & Eg & Ef & Ed & Eget & Ecount).
  { reflexivity. }
  { refine (bool_decide_unpack _ _). vm_compute. exact I. }
  { vm_compute. reflexivity. }
  { vm_compute. reflexivity. }
  vm_compute in Ef. injection Ef as <-.
  injection Eg as <-.
  split; [exact Ed|]. split; [exact Eget|exact Ecount].
Defined.

Lemma stored_artifact_kept_witness :
  exists d' w',
    main hashlib_sha2
      {| arg_artifact_path := py "bar.bin";
         arg_provenance_file := py "provenance.json";
         arg_command := None; arg_version := None;
         arg_hash_algorithm := py "sha256" |} stored_world = (0%nat, w')
    /\ fs w' !! py "provenance.json" = Some (File (json_dumps (JObj d')))
    /\ dict_get (py "artifact") d' = Some (JStr (py "foo.bin"))
    /\ dict_get (py "artifact_hash") d'
       = Some (JObj [(py "algorithm", JStr (py "sha256"));
                     (py "hash", JStr (hexlify (Sha2.sha256 (py "world"))))]).
Proof.
  edestruct stored_artifact_kept
    with (hashlib_new := hashlib_sha2)
         (a := {| arg_artifact_path := py "bar.bin";
                  arg_provenance_file := py "provenance.json";
                  arg_command := None; arg_version := None;
                  arg_hash_algorithm := py "sha256" |})
         (w := stored_world)
    as (d' & w' & E & Hfs & Hart & Hhash).
  { vm_compute. reflexivity. }
  { vm_compute. reflexivity. }
  { vm_compute. reflexivity. }
  { reflexivity. }
  { discriminate. }
  exists d', w'. split; [exact E|]. split.
  - rewrite Hfs. apply lookup_insert_eq.
  - split; [rewrite Hart; reflexivity|exact Hhash].
Defined.

Lemma rerun_keeps_created_at_witness :
  exists d' w',
    main hashlib_sha2
      {| arg_artifact_path := py "foo.bin";
         arg_provenance_file := py "provenance.json";
         arg_command := Some (py "strip foo"); arg_version := None;
         arg_hash_algorithm := py "sha256" |} stored_world = (0%nat, w')
    /\ fs w' !! py "provenance.json" = Some (File (json_dumps (JObj d')))
    /\ dict_get (py "created_at") d' = Some (JStr (py "2024-04-30T09:00:00Z"))
    /\ dict_get (py "build_steps") d'
       = Some (JArr [JObj [(py "command", JStr (py "gcc -o foo foo.c"));
                           (py "executed_at", JStr (py "2024-04-30T09:00:01Z"));
                           (py "version", JStr (py "gcc 11.2"))];
                     JObj [(py "command", JStr (py "strip foo"));
                           (py "executed_at", JStr (py "2024-05-01T10:00:01Z"))]]).
Proof.
  edestruct rerun_keeps_created_at
    with (hashlib_new := hashlib_sha2)
         (a := {| arg_artifact_path := py "foo.bin";
                  arg_provenance_file := py "provenance.json";
                  arg_command := Some (py "strip foo"); arg_version := None;
                  arg_hash_algorithm := py "sha256" |})
         (w := stored_world)
    as (d' & w' & E & Hfs & Hc & Hs).
  { vm_compute. reflexivity. }
  { vm_compute. reflexivity. }
  { vm_compute. reflexivity. }
  { reflexivity. }
  { reflexivity. }
  { vm_compute. reflexivity. }
  { reflexivity. }
  exists d', w'. split; [exact E|]. split.
  - rewrite Hfs. apply lookup_insert_eq.
  - split; [rewrite Hc; reflexivity|rewrite Hs; reflexivity].
Defined.

(** ** A provenance file that is not text

    C3 holds for a missing file ([init_absent]) and for text that is not
    JSON ([init_malformed]).  A file whose bytes do not decode is a file
    whose contents fail to parse as JSON as well, but there the load raises
    [UnicodeDecodeError], which the handler of
    [load_existing_provenance] does not list: no fresh record is returned,
    no warning is logged, and the run ends with status 1. *)
Lemma load_undecodable_aborts :
  json_load [255] = Raise UnicodeDecodeError
  /\ load_handles UnicodeDecodeError = false
  /\ __init__ (py "foo.bin") (py "provenance.json") corrupt_world
     = (Raise UnicodeDecodeError, (utcnow_iso_z corrupt_world).2)
  /\ log (utcnow_iso_z corrupt_world).2 = []
  /\ (main hashlib_sha2 demo_args corrupt_world).1 = 1%nat
  /\ fs (main hashlib_sha2 demo_args corrupt_world).2 = fs corrupt_world.
Proof.
  split; [reflexivity|]. split; [reflexivity|].
  split; [apply init_undecodable with (data := [255]); vm_compute; reflexivity|].
  split; [reflexivity|]. split; vm_compute; reflexivity.
Qed.

(** ** The codec: reading back what [json.dump] wrote *)

Lemma hexval_hexdigit d : d < 16 -> hexval (hexdigit d) = Some d.
Proof.
  intros Hd. unfold hexval, hexdigit, is_digit.
  destruct (N.ltb_spec d 10).
  - replace ((48 <=? 48 + d) && (48 + d <=? 57)) with true.
    + f_equal. lia.
    + symmetry. apply andb_true_iff. split; apply N.leb_le; lia.
  - replace ((48 <=? 87 + d) && (87 + d <=? 57)) with false.
    + replace ((97 <=? 87 + d) && (87 + d <=? 102)) with true.
      * f_equal. lia.
      * symmetry. apply andb_true_iff. split; apply N.leb_le; lia.
    + symmetry. apply andb_false_iff. right. apply N.leb_gt. lia.
Qed.

Lemma hex4_val_hex4 n :
  n < 65536 ->
  hex4_val (hexdigit ((n / 4096) mod 16)) (hexdigit ((n / 256) mod 16))
           (hexdigit ((n / 16) mod 16)) (hexdigit (n mod 16)) = Some n.
Proof.
  intros Hn. unfold hex4_val.
  rewrite !hexval_hexdigit by (apply N.mod_lt; lia).
  f_equal.
  change 4096 with (16 * 16 * 16). change 256 with (16 * 16).
  rewrite <- !N.Div0.div_div.
  pose proof (N.div_mod' n 16). pose proof (N.div_mod' (n / 16) 16).
  pose proof (N.div_mod' (n / 16 / 16) 16).
  assert (n / 16 / 16 / 16 < 16).
  { repeat (apply N.Div0.div_lt_upper_bound). lia. }
  rewrite (N.mod_small (n / 16 / 16 / 16)) by done.
  lia.
Qed.

Lemma lor_shifted a b k : b < 2 ^ k -> N.lor (a * 2 ^ k) b = a * 2 ^ k + b.
Proof.
  intros Hb.
  assert (Hland : N.land (a * 2 ^ k) b = 0).
  { apply N.bits_inj. intros i. rewrite N.land_spec, N.bits_0.
    destruct (N.lt_ge_cases i k).
    - by rewrite N.mul_pow2_bits_low.
    - rewrite andb_comm.
      replace (N.testbit b i) with false; [done|].
      symmetry. rewrite <- (N.mod_small b (2 ^ k)) by done.
      by apply N.mod_pow2_bits_high. }
  rewrite N.add_nocarry_lxor by done. symmetry. by apply N.lxor_lor.
Qed.

Lemma surrogate_pair_join c :
  65536 <= c < 1114112 ->
  let n := c - 65536 in
  N.lor 55296 (N.land (N.shiftr n 10) 1023) = 55296 + n / 1024
  /\ N.lor 56320 (N.land n 1023) = 56320 + n mod 1024
  /\ 65536 + N.lor (N.shiftl (55296 + n / 1024 - 55296) 10)
                   (56320 + n mod 1024 - 56320) = c.
Proof.
  intros Hc n.
  assert (Hn : n < 1048576) by (subst n; lia).
  assert (Hq : n / 1024 < 1024) by (apply N.Div0.div_lt_upper_bound; lia).
  assert (Hr : n mod 1024 < 1024) by (apply N.mod_lt; lia).
  change 1023 with (N.ones 10). rewrite !N.land_ones, N.shiftr_div_pow2.
  change (2 ^ 10) with 1024. rewrite (N.mod_small (n / 1024)) by done.
  split; [|split].
  - change 55296 with (54 * 2 ^ 10). by apply lor_shifted.
  - change 56320 with (55 * 2 ^ 10). by apply lor_shifted.
  - rewrite (N.add_comm 55296), (N.add_comm 56320), !N.add_sub.
    rewrite N.shiftl_mul_pow2, lor_shifted by done. change (2 ^ 10) with 1024.
    pose proof (N.div_mod' n 1024) as Hdm.
    assert (Hcn : c = 65536 + n) by (subst n; lia).
    clearbody n. generalize dependent (n / 1024). generalize dependent (n mod 1024).
    intros. lia.
Qed.

(** *** Strings *)

Lemma scanstring_raw c s :
  c <> 34 -> c <> 92 -> 32 <= c ->
  scanstring (c :: s)
  = match scanstring s with
    | Some (str, rest) => Some (c :: str, rest)
    | None => None
    end.
Proof.
  intros H1 H2 H3. cbn [scanstring].
  apply N.eqb_neq in H1, H2. apply N.ltb_ge in H3. by rewrite H1, H2, H3.
Qed.

Lemma scanstring_short e ch s :
  unescape e = Some ch -> e <> 117 ->
  scanstring (92 :: e :: s)
  = match scanstring s with
    | Some (str, rest) => Some (ch :: str, rest)
    | None => None
    end.
Proof.
  intros H1 H2. cbn [scanstring]. apply N.eqb_neq in H2.
  change (92 =? 34) with false. change (92 =? 92) with true. cbv iota.
  by rewrite H2, H1.
Qed.

Lemma scanstring_u h1 h2 h3 h4 uni r :
  hex4_val h1 h2 h3 h4 = Some uni ->
  (is_high_surrogate uni = true -> no_low_escape r) ->
  scanstring (92 :: 117 :: h1 :: h2 :: h3 :: h4 :: r)
  = match scanstring r with
    | Some (str, rest) => Some (uni :: str, rest)
    | None => None
    end.
Proof.
  intros H1 H2. cbn [scanstring].
  change (92 =? 34) with false. change (92 =? 92) with true.
  change (117 =? 117) with true. cbv iota. rewrite H1.
  destruct (is_high_surrogate uni); [|done].
  specialize (H2 eq_refl). unfold no_low_escape in H2.
  destruct r as [|b1 [|b2 [|g1 [|g2 [|g3 [|g4 r']]]]]]; try done.
  destruct ((b1 =? 92) && (b2 =? 117)); [|done].
  destruct H2 as (u & -> & ->); done.
Qed.

Lemma scanstring_pair h1 h2 h3 h4 g1 g2 g3 g4 hi lo r :
  hex4_val h1 h2 h3 h4 = Some hi ->
  hex4_val g1 g2 g3 g4 = Some lo ->
  is_high_surrogate hi = true ->
  is_low_surrogate lo = true ->
  scanstring (92 :: 117 :: h1 :: h2 :: h3 :: h4
                :: 92 :: 117 :: g1 :: g2 :: g3 :: g4 :: r)
  = match scanstring r with
    | Some (str, rest) =>
        Some (65536 + N.lor (N.shiftl (hi - 55296) 10) (lo - 56320) :: str, rest)
    | None => None
    end.
Proof.
  intros H1 H2 H3 H4.
  change (scanstring (92 :: 117 :: h1 :: h2 :: h3 :: h4
                        :: 92 :: 117 :: g1 :: g2 :: g3 :: g4 :: r))
    with (match hex4_val h1 h2 h3 h4 with
          | None => None
          | Some uni =>
              let single :=
                match scanstring (92 :: 117 :: g1 :: g2 :: g3 :: g4 :: r) with
                | Some (str, rest) => Some (uni :: str, rest)
                | None => None
                end in
              if is_high_surrogate uni then
                match hex4_val g1 g2 g3 g4 with
                | None => None
                | Some uni2 =>
                    if is_low_surrogate uni2 then
                      match scanstring r with
                      | Some (str, rest) =>
                          Some (65536 + N.lor (N.shiftl (uni - 55296) 10)
                                              (uni2 - 56320) :: str, rest)
                      | None => None
                      end
                    else single
                end
              else single
          end).
  by rewrite H1, H2, H3, H4.
Qed.

Lemma escape_char_cases c :
  c < 1114112 ->
  (exists e, escape_char c = [92; e] /\ e <> 117 /\ unescape e = Some c)
  \/ (escape_char c = [c] /\ c <> 34 /\ c <> 92 /\ 32 <= c)
  \/ (escape_char c = 92 :: 117 :: hex4 c /\ c < 65536)
  \/ (65536 <= c
      /\ escape_char c
         = 92 :: 117 :: hex4 (55296 + (c - 65536) / 1024)
             ++ 92 :: 117 :: hex4 (56320 + (c - 65536) mod 1024)).
Proof.
  intros Hc. unfold escape_char.
  destruct (N.eqb_spec c 34) as [->|]; [left; by exists 34|].
  destruct (N.eqb_spec c 92) as [->|]; [left; by exists 92|].
  destruct (N.eqb_spec c 10) as [->|]; [left; by exists 110|].
  destruct (N.eqb_spec c 13) as [->|]; [left; by exists 114|].
  destruct (N.eqb_spec c 9) as [->|]; [left; by exists 116|].
  destruct (N.eqb_spec c 8) as [->|]; [left; by exists 98|].
  destruct (N.eqb_spec c 12) as [->|]; [left; by exists 102|].
  destruct (N.leb_spec 32 c); cbn [andb].
  - destruct (N.leb_spec c 126).
    + right. left. done.
    + destruct (N.ltb_spec c 65536).
      * right. right. left. done.
      * right. right. right. split; [done|].
        destruct (surrogate_pair_join c) as (-> & -> & _); [lia|done].
  - destruct (N.ltb_spec c 65536); [|lia].
    right. right. left. done.
Qed.

Lemma high_of_pair n : n < 1048576 ->
  55296 + n / 1024 < 65536
  /\ is_high_surrogate (55296 + n / 1024) = true
  /\ is_low_surrogate (55296 + n / 1024) = false.
Proof.
  intros Hn.
  assert (n / 1024 < 1024) by (apply N.Div0.div_lt_upper_bound; lia).
  generalize dependent (n / 1024). intros q Hq.
  unfold is_high_surrogate, is_low_surrogate. split; [lia|]. split.
  - apply andb_true_iff. split; apply N.leb_le; lia.
  - apply andb_false_iff. left. apply N.leb_gt. lia.
Qed.

Lemma low_of_pair n :
  56320 + n mod 1024 < 65536
  /\ is_low_surrogate (56320 + n mod 1024) = true.
Proof.
  assert (n mod 1024 < 1024) by (apply N.mod_lt; lia).
  generalize dependent (n mod 1024). intros r Hr.
  unfold is_low_surrogate. split; [lia|].
  apply andb_true_iff. split; apply N.leb_le; lia.
Qed.

Lemma no_low_escape_escaped s rest :
  str_ok s = true ->
  match s with c :: _ => is_low_surrogate c = false | [] => True end ->
  no_low_escape (flat_map escape_char s ++ 34 :: rest).
Proof.
  destruct s as [|c s]; intros Hok Hlow.
  - simpl. destruct rest as [|? [|? [|? [|? [|? ?]]]]]; simpl; done.
  - cbn [str_ok] in Hok. apply andb_true_iff in Hok as [Hok _].
    apply andb_true_iff in Hok as [Hc _]. apply N.ltb_lt in Hc.
    cbn [flat_map]. rewrite <- app_assoc.
    generalize (flat_map escape_char s ++ 34 :: rest). intros u.
    destruct (escape_char_cases c Hc)
      as [(e & -> & He & _)|[(-> & _ & Hc92 & _)|[[-> Hlt]|[Hge ->]]]].
    + destruct u as [|? [|? [|? [|? ?]]]]; simpl; try done.
      intros Hb. by apply N.eqb_eq in Hb.
    + destruct u as [|? [|? [|? [|? [|? ?]]]]]; simpl; try done.
      intros Hb. apply andb_true_iff in Hb as [Hb _]. by apply N.eqb_eq in Hb.
    + simpl. intros _. exists c. split; [by apply hex4_val_hex4|done].
    + simpl. intros _. exists (55296 + (c - 65536) / 1024).
      destruct (high_of_pair (c - 65536)) as (H1 & _ & H3); [lia|].
      split; [by apply hex4_val_hex4|done].
Qed.

Lemma scanstring_escaped s : forall rest,
  str_ok s = true ->
  scanstring (flat_map escape_char s ++ 34 :: rest) = Some (s, rest).
Proof.
  induction s as [|c s IH]; intros rest Hok.
  - reflexivity.
  - pose proof Hok as Hok'. cbn [str_ok] in Hok.
    apply andb_true_iff in Hok as [Hok Hs].
    apply andb_true_iff in Hok as [Hc Hpair]. apply N.ltb_lt in Hc.
    specialize (IH rest Hs).
    cbn [flat_map]. rewrite <- app_assoc.
    destruct (escape_char_cases c Hc)
      as [(e & -> & He & Hu)|[(-> & Hc34 & Hc92 & Hc32)|[[-> Hlt]|[Hge ->]]]].
    + cbn [app]. by rewrite (scanstring_short e c), IH.
    + cbn [app]. by rewrite scanstring_raw, IH.
    + cbn [app hex4]. rewrite (scanstring_u _ _ _ _ c), IH; [done| |].
      * by apply hex4_val_hex4.
      * intros Hhigh. apply no_low_escape_escaped; [done|].
        rewrite Hhigh in Hpair. destruct s as [|c' s]; [done|].
        by apply negb_true_iff in Hpair.
    + destruct (high_of_pair (c - 65536)) as (H1 & H2 & _); [lia|].
      destruct (low_of_pair (c - 65536)) as (L1 & L2).
      cbn [app hex4].
      rewrite (scanstring_pair _ _ _ _ _ _ _ _
                 (55296 + (c - 65536) / 1024) (56320 + (c - 65536) mod 1024)),
        IH; try done; try by apply hex4_val_hex4.
      destruct (surrogate_pair_join c) as (_ & _ & ->); [lia|done].
Qed.

(** *** Numbers *)

Lemma delimited_nondigit rest : delimited rest -> nondigit_head rest.
Proof. destruct rest as [|c rest]; [done|]. by intros [->| ->]. Qed.

Lemma span_digits_app s rest : forall d r,
  span_digits s = (d, r) ->
  (r = [] -> nondigit_head rest) ->
  span_digits (s ++ rest) = (d, r ++ rest).
Proof.
  induction s as [|c s IH]; intros d r E Hr.
  - injection E as <- <-. simpl. specialize (Hr eq_refl).
    destruct rest as [|c rest]; [done|]. simpl in *. by rewrite Hr.
  - simpl in *. destruct (is_digit c); [|by injection E as <- <-].
    destruct (span_digits s) as [d' r']. injection E as <- <-.
    by rewrite (IH d' r').
Qed.

Lemma scan_int_app s rest i r :
  scan_int s = Some (i, r) ->
  (r = [] -> nondigit_head rest) ->
  scan_int (s ++ rest) = Some (i, r ++ rest).
Proof.
  assert (Hbody : forall sign s1,
    match s1 with
    | c :: s2 =>
        if c =? 48 then Some (sign ++ [48], s2)
        else if is_digit c then
          let '(d, r) := span_digits s2 in Some (sign ++ c :: d, r)
        else None
    | [] => None
    end = Some (i, r) ->
    (r = [] -> nondigit_head rest) ->
    match s1 ++ rest with
    | c :: s2 =>
        if c =? 48 then Some (sign ++ [48], s2)
        else if is_digit c then
          let '(d, r) := span_digits s2 in Some (sign ++ c :: d, r)
        else None
    | [] => None
    end = Some (i, r ++ rest)).
  { intros sign [|c s2]; [done|]. cbn [app].
    destruct (c =? 48); [by intros [= <- <-]|].
    destruct (is_digit c); [|done].
    destruct (span_digits s2) as [d r'] eqn:E. intros [= <- <-] Hr.
    by rewrite (span_digits_app s2 rest d r'). }
  unfold scan_int. destruct s as [|c s]; [done|]. cbn [app].
  destruct (c =? 45).
  - apply Hbody.
  - apply (Hbody [] (c :: s)).
Qed.

Lemma scan_frac_app s rest f r :
  scan_frac s = (f, r) ->
  delimited rest ->
  scan_frac (s ++ rest) = (f, r ++ rest).
Proof.
  intros E Hrest. unfold scan_frac in *. destruct s as [|c s].
  - injection E as <- <-. simpl. destruct rest as [|c rest]; [done|].
    by destruct Hrest as [->| ->].
  - cbn [app]. destruct (c =? 46); [|by injection E as <- <-].
    destruct (span_digits s) as [d r'] eqn:Ed.
    rewrite (span_digits_app s rest d r' Ed)
      by (intros _; by apply delimited_nondigit).
    destruct d; by injection E as <- <-.
Qed.

Lemma scan_exp_app s rest e :
  scan_exp s = (e, []) ->
  delimited rest ->
  scan_exp (s ++ rest) = (e, rest).
Proof.
  intros E Hrest. unfold scan_exp in *. destruct s as [|c s].
  - injection E as <-. simpl. destruct rest as [|c rest]; [done|].
    by destruct Hrest as [->| ->].
  - cbn [app]. destruct ((c =? 101) || (c =? 69)); [|done].
    destruct s as [|c2 s]; [done|]. cbn [app].
    assert (Hsp : forall sign s1,
      match span_digits s1 with
      | ([], _) => ([], c :: c2 :: s)
      | (d, r) => (c :: sign ++ d, r)
      end = (e, []) ->
      match span_digits (s1 ++ rest) with
      | ([], _) => ([], c :: c2 :: s ++ rest)
      | (d, r) => (c :: sign ++ d, r)
      end = (e, rest)).
    { intros sign s1. destruct (span_digits s1) as [d r'] eqn:Ed.
      destruct d; [done|]. intros [= <- ->].
      rewrite (span_digits_app s1 rest _ [] Ed)
        by (intros _; by apply delimited_nondigit). done. }
    destruct ((c2 =? 45) || (c2 =? 43)).
    + by apply Hsp.
    + by apply (Hsp [] (c2 :: s)).
Qed.

Lemma match_number_app lit rest :
  match_number lit = Some (lit, []) ->
  delimited rest ->
  match_number (lit ++ rest) = Some (lit, rest).
Proof.
  unfold match_number. intros E Hrest.
  destruct (scan_int lit) as [[i r1]|] eqn:Ei; [|done].
  destruct (scan_frac r1) as [f r2] eqn:Ef.
  destruct (scan_exp r2) as [e r3] eqn:Ee.
  injection E as E ->.
  rewrite (scan_int_app lit rest i r1 Ei)
    by (intros _; by apply delimited_nondigit).
  rewrite (scan_frac_app r1 rest f r2 Ef Hrest).
  by rewrite (scan_exp_app r2 rest e Ee Hrest), E.
Qed.

(** A number literal starts with a minus sign or a digit. *)
Lemma match_number_head s l r :
  match_number s = Some (l, r) ->
  exists c t, s = c :: t /\ (c = 45 \/ is_digit c = true).
Proof.
  unfold match_number, scan_int. destruct s as [|c s]; [done|].
  intros E. exists c, s. split; [done|].
  destruct (N.eqb_spec c 45) as [|Hne]; [by left|]. right.
  destruct (N.eqb_spec c 48) as [->|]; [done|].
  by destruct (is_digit c).
Qed.

(** *** Values *)

Lemma json_ind' (P : json -> Prop) :
  P JNull ->
  (forall b, P (JBool b)) ->
  (forall lit, P (JNum lit)) ->
  (forall s, P (JStr s)) ->
  (forall items, Forall P items -> P (JArr items)) ->
  (forall members, Forall (fun kv => P kv.2) members -> P (JObj members)) ->
  forall v, P v.
Proof.
  intros Hnull Hbool Hnum Hstr Harr Hobj.
  fix IH 1. intros [|b|lit|s|items|members].
  - exact Hnull.
  - apply Hbool.
  - apply Hnum.
  - apply Hstr.
  - apply Harr. induction items as [|x items IHl]; constructor; [apply IH|exact IHl].
  - apply Hobj.
    induction members as [|[k x] members IHl]; constructor; [apply IH|exact IHl].
Qed.

Lemma skip_ws_newline_indent level s :
  skip_ws (newline_indent level ++ s) = skip_ws s.
Proof.
  unfold newline_indent. cbn [app skip_ws]. change (is_ws 10) with true. cbv iota.
  induction (4 * level)%nat as [|n IH]; [done|]. exact IH.
Qed.

Lemma skip_ws_ws c s : is_ws c = true -> skip_ws (c :: s) = skip_ws s.
Proof. intros H. simpl. by rewrite H. Qed.

Lemma skip_ws_nonws c s : is_ws c = false -> skip_ws (c :: s) = c :: s.
Proof. intros H. simpl. by rewrite H. Qed.

Lemma value_head_app s t : value_head s -> value_head (s ++ t).
Proof. by destruct s. Qed.

Lemma skip_ws_value_head s : value_head s -> skip_ws s = s.
Proof. destruct s as [|c s]; [done|]. intros [H _]. simpl. by rewrite H. Qed.

Lemma num_ok_cases lit :
  num_ok lit = true ->
  match_number lit = Some (lit, [])
  \/ lit = py "NaN" \/ lit = py "Infinity" \/ lit = py "-Infinity".
Proof.
  unfold num_ok. intros H. apply orb_true_iff in H as [H|H].
  - left. by apply bool_decide_eq_true in H.
  - right. apply bool_decide_eq_true in H.
    rewrite !elem_of_cons in H. destruct H as [H|[H|[H|H]]]; auto.
    by apply elem_of_nil in H.
Qed.

Lemma encode_head level v : json_ok v = true -> value_head (encode level v).
Proof.
  destruct v as [|[]|lit|s|[|x items]|[|[k x] members]]; try done.
  intros H. cbn [json_ok] in H.
  destruct (num_ok_cases lit H) as [H1|[->|[->| ->]]]; try done.
  apply match_number_head in H1 as (c & t & -> & [->|Hd]); [done|].
  cbn [encode value_head]. unfold is_digit in Hd.
  apply andb_true_iff in Hd as [Hd1 Hd2].
  apply N.leb_le in Hd1, Hd2. unfold is_ws.
  repeat split; try lia.
  repeat (apply orb_false_iff; split); apply N.eqb_neq; lia.
Qed.

Lemma scan_once_string fuel s :
  scan_once (S fuel) (34 :: s)
  = match scanstring s with
    | Some (str, r) => Parsed (JStr str) r
    | None => Malformed
    end.
Proof. reflexivity. Qed.

Lemma scan_once_array fuel s :
  scan_once (S fuel) (91 :: s)
  = match skip_ws s with
    | c1 :: r =>
        if c1 =? 93 then Parsed (JArr []) r
        else
          match array_items fuel (c1 :: r) with
          | Parsed vs r' => Parsed (JArr vs) r'
          | Malformed => Malformed
          | OutOfFuel => OutOfFuel
          end
    | [] => Malformed
    end.
Proof. reflexivity. Qed.

Lemma scan_once_object fuel s :
  scan_once (S fuel) (123 :: s)
  = match skip_ws s with
    | c1 :: r =>
        if c1 =? 125 then Parsed (JObj []) r
        else if c1 =? 34 then
          match object_members fuel r with
          | Parsed ms r' => Parsed (JObj (dict_of_pairs ms)) r'
          | Malformed => Malformed
          | OutOfFuel => OutOfFuel
          end
        else Malformed
    | [] => Malformed
    end.
Proof. reflexivity. Qed.

Lemma array_items_S fuel s :
  array_items (S fuel) s
  = match scan_once fuel s with
    | Parsed v r =>
        match skip_ws r with
        | c :: r1 =>
            if c =? 93 then Parsed [v] r1
            else if c =? 44 then
              match array_items fuel (skip_ws r1) with
              | Parsed vs r2 => Parsed (v :: vs) r2
              | Malformed => Malformed
              | OutOfFuel => OutOfFuel
              end
            else Malformed
        | [] => Malformed
        end
    | Malformed => Malformed
    | OutOfFuel => OutOfFuel
    end.
Proof. reflexivity. Qed.

Lemma object_members_S fuel s :
  object_members (S fuel) s
  = match scanstring s with
    | None => Malformed
    | Some (key, r) =>
        match skip_ws r with
        | c :: r1 =>
            if c =? 58 then
              match scan_once fuel (skip_ws r1) with
              | Parsed v r2 =>
                  match skip_ws r2 with
                  | c2 :: r3 =>
                      if c2 =? 125 then Parsed [(key, v)] r3
                      else if c2 =? 44 then
                        match skip_ws r3 with
                        | q :: r4 =>
                            if q =? 34 then
                              match object_members fuel r4 with
                              | Parsed ms r5 => Parsed ((key, v) :: ms) r5
                              | Malformed => Malformed
                              | OutOfFuel => OutOfFuel
                              end
                            else Malformed
                        | [] => Malformed
                        end
                      else Malformed
                  | [] => Malformed
                  end
              | Malformed => Malformed
              | OutOfFuel => OutOfFuel
              end
            else Malformed
        | [] => Malformed
        end
    end.
Proof. reflexivity. Qed.

(** A number literal is scanned as a number: no earlier case of
    [scan_once] takes its first character. *)
Lemma scan_once_number fuel lit rest :
  match_number lit = Some (lit, []) ->
  delimited rest ->
  scan_once (S fuel) (lit ++ rest) = Parsed (JNum lit) rest.
Proof.
  intros Hlit Hrest.
  pose proof (match_number_app lit rest Hlit Hrest) as Happ.
  destruct (match_number_head _ _ _ Hlit) as (c & t & -> & Hc).
  assert (Hc' : 45 <= c <= 57).
  { destruct Hc as [->|Hd]; [lia|]. unfold is_digit in Hd.
    apply andb_true_iff in Hd as [Hd1 Hd2]. apply N.leb_le in Hd1, Hd2. lia. }
  cbn [app] in *. cbn [scan_once].
  rewrite Happ.
  replace (c =? 34) with false by (symmetry; apply N.eqb_neq; lia).
  replace (c =? 123) with false by (symmetry; apply N.eqb_neq; lia).
  replace (c =? 91) with false by (symmetry; apply N.eqb_neq; lia).
  cbn [py starts_with].
  change (N_of_ascii "n") with 110. change (N_of_ascii "t") with 116.
  change (N_of_ascii "f") with 102.
  replace (110 =? c) with false by (symmetry; apply N.eqb_neq; lia).
  replace (116 =? c) with false by (symmetry; apply N.eqb_neq; lia).
  replace (102 =? c) with false by (symmetry; apply N.eqb_neq; lia).
  done.
Qed.

Lemma scan_once_special fuel lit rest :
  lit = py "NaN" \/ lit = py "Infinity" \/ lit = py "-Infinity" ->
  scan_once (S fuel) (lit ++ rest) = Parsed (JNum lit) rest.
Proof. intros [->|[->| ->]]; reflexivity. Qed.

Lemma join_cons2 sep a b l :
  join sep (a :: b :: l) = a ++ sep ++ join sep (b :: l).
Proof. reflexivity. Qed.

Lemma join_cons sep a l : l <> [] -> join sep (a :: l) = a ++ sep ++ join sep l.
Proof. by destruct l. Qed.

Lemma value_head_join sep a l : value_head a -> value_head (join sep (a :: l)).
Proof.
  intros H. destruct l as [|b l]; [done|]. rewrite join_cons2.
  by apply value_head_app.
Qed.

Lemma array_items_encode l1 l0 rest items :
  Forall (fun x => json_ok x = true /\ reads_back x) items ->
  items <> [] ->
  forall fuel,
    (list_sum (map (fun x => S (jsize x)) items) <= fuel)%nat ->
    array_items fuel
      (join (44 :: newline_indent l1) (map (encode l1) items)
         ++ newline_indent l0 ++ 93 :: rest)
    = Parsed items rest.
Proof.
  induction items as [|x items IH]; [done|].
  intros Hall _ fuel Hfuel. apply Forall_cons in Hall as [[Hok Hx] Hall].
  simpl in Hfuel.
  destruct fuel as [|fuel]; [lia|]. rewrite array_items_S.
  destruct items as [|y items].
  - cbn [map join]. rewrite Hx; [|lia|by right].
    rewrite skip_ws_newline_indent. reflexivity.
  - cbn [map]. rewrite join_cons2, <- !app_assoc.
    rewrite Hx; [|lia|by left]. cbn [app].
    rewrite (skip_ws_nonws 44) by done.
    change (44 =? 93) with false. change (44 =? 44) with true. cbv iota.
    rewrite skip_ws_newline_indent, skip_ws_value_head.
    2:{ apply value_head_app, (value_head_join _ _ (map (encode l1) items)).
        apply Forall_cons in Hall as [[Hy _] _]. by apply encode_head. }
    change (encode l1 y :: map (encode l1) items)
      with (map (encode l1) (y :: items)).
    rewrite IH; [done|done|done|]. simpl in *. lia.
Qed.

Lemma member_text_head l1 kv : exists t, member_text l1 kv = 34 :: t.
Proof. by eexists. Qed.

Lemma join_member_head sep l1 kv l :
  exists t, join sep (map (member_text l1) (kv :: l)) = 34 :: t.
Proof.
  cbn [map]. destruct l as [|kv' l]; [by eexists|].
  change (map (member_text l1) (kv' :: l))
    with (member_text l1 kv' :: map (member_text l1) l).
  rewrite join_cons2. by eexists.
Qed.

Lemma object_members_encode l1 l0 rest members :
  Forall (fun kv => (str_ok kv.1 = true /\ json_ok kv.2 = true)
                    /\ reads_back kv.2) members ->
  members <> [] ->
  forall fuel,
    (list_sum (map (fun kv => S (jsize kv.2)) members) <= fuel)%nat ->
    object_members fuel
      (tail (join (44 :: newline_indent l1) (map (member_text l1) members)
               ++ newline_indent l0 ++ 125 :: rest))
    = Parsed members rest.
Proof.
  induction members as [|[k x] members IH]; [done|].
  intros Hall _ fuel Hfuel. apply Forall_cons in Hall as [[[Hk Hok] Hx] Hall].
  simpl in Hfuel. cbn [fst snd] in *.
  destruct fuel as [|fuel]; [lia|]. rewrite object_members_S.
  destruct members as [|kv members].
  - cbn [map join]. unfold member_text, encode_str. cbn [fst snd app tail].
    rewrite <- !app_assoc. cbn [app].
    rewrite scanstring_escaped by done.
    rewrite (skip_ws_nonws 58) by done. change (58 =? 58) with true. cbv iota.
    rewrite (skip_ws_ws 32) by done.
    rewrite skip_ws_value_head by (by apply value_head_app, encode_head).
    rewrite Hx; [|lia|by right].
    rewrite skip_ws_newline_indent. reflexivity.
  - cbn [map]. rewrite join_cons2.
    unfold member_text at 1. unfold encode_str. cbn [fst snd app tail].
    rewrite <- !app_assoc. cbn [app].
    rewrite scanstring_escaped by done.
    rewrite (skip_ws_nonws 58) by done. change (58 =? 58) with true. cbv iota.
    rewrite (skip_ws_ws 32) by done.
    rewrite skip_ws_value_head by (by apply value_head_app, encode_head).
    rewrite Hx; [|lia|by left].
    rewrite (skip_ws_nonws 44) by done.
    change (44 =? 125) with false. change (44 =? 44) with true. cbv iota.
    rewrite <- app_assoc, skip_ws_newline_indent.
    change (member_text l1 kv :: map (member_text l1) members)
      with (map (member_text l1) (kv :: members)).
    specialize (IH Hall ltac:(done) fuel).
    destruct (join_member_head (44 :: newline_indent l1) l1 kv members)
      as [t Et].
    rewrite Et in *. cbn [app tail] in *.
    rewrite (skip_ws_nonws 34) by done. change (34 =? 34) with true. cbv iota.
    rewrite IH; [done|]. simpl in *. lia.
Qed.

Lemma dict_of_pairs_NoDup ms : NoDup (map fst ms) -> dict_of_pairs ms = ms.
Proof.
  unfold dict_of_pairs.
  assert (H : forall acc,
    NoDup (map fst (acc ++ ms)) ->
    fold_left (fun d (kv : list N * json) => dict_set kv.1 kv.2 d) ms acc
    = acc ++ ms).
  { induction ms as [|[k v] ms IH]; intros acc Hnd.
    - by rewrite app_nil_r.
    - cbn [fold_left fst snd].
      assert (Hset : dict_set k v acc = acc ++ [(k, v)]).
      { rewrite map_app in Hnd. apply NoDup_app in Hnd as (_ & Hdis & _).
        assert (Hk : k ∉ map fst acc).
        { intros Hin. apply (Hdis k Hin). simpl. apply list_elem_of_here. }
        clear - Hk. induction acc as [|[k0 v0] acc IHa]; [done|].
        simpl in *. apply not_elem_of_cons in Hk as [Hne Hk].
        rewrite decide_False by done. by rewrite IHa. }
      rewrite Hset, IH; rewrite <- app_assoc; done. }
  intros Hnd. by apply (H []).
Qed.

Lemma jsize_pos v : (1 <= jsize v)%nat.
Proof. destruct v; simpl; lia. Qed.

(** [scan_once] reads back the text of a well-formed value, whatever the
    indentation level it was written at, given fuel for its size. *)
Lemma scan_once_encode v : json_ok v = true -> reads_back v.
Proof.
  induction v as [|b|lit|s|items IH|members IH] using json_ind';
    intros Hok level fuel rest Hfuel Hrest;
    (destruct fuel as [|fuel]; [pose proof (jsize_pos JNull); simpl in Hfuel; lia|]).
  - reflexivity.
  - by destruct b.
  - cbn [json_ok] in Hok. cbn [encode].
    destruct (num_ok_cases lit Hok) as [H|H].
    + by apply scan_once_number.
    + by apply scan_once_special.
  - cbn [json_ok] in Hok. cbn [encode]. unfold encode_str.
    cbn [app]. rewrite <- app_assoc. cbn [app].
    by rewrite scan_once_string, scanstring_escaped.
  - destruct items as [|x items]; [reflexivity|].
    cbn [json_ok] in Hok.
    assert (Hall : Forall (fun x => json_ok x = true /\ reads_back x) (x :: items)).
    { apply Forall_forall. intros y Hy. rewrite Forall_forall in IH.
      assert (json_ok y = true).
      { rewrite forallb_forall in Hok. apply Hok. by apply list_elem_of_In. }
      split; [done|]. by apply IH. }
    change (encode level (JArr (x :: items)))
      with ([91] ++ newline_indent (S level)
              ++ join (44 :: newline_indent (S level))
                      (map (encode (S level)) (x :: items))
              ++ newline_indent level ++ [93]).
    cbn [app]. rewrite <- !app_assoc. cbn [app].
    rewrite scan_once_array, skip_ws_newline_indent, skip_ws_value_head.
    2:{ apply value_head_app, value_head_join, encode_head.
        by apply Forall_cons in Hall as [[? _] _]. }
    pose proof (array_items_encode (S level) level rest (x :: items) Hall
                  ltac:(done) fuel) as Hitems.
    assert (Hhead : value_head
      (join (44 :: newline_indent (S level)) (map (encode (S level)) (x :: items))
         ++ newline_indent level ++ 93 :: rest)).
    { apply value_head_app, value_head_join, encode_head.
      by apply Forall_cons in Hall as [[? _] _]. }
    destruct (join _ _ ++ _) as [|c1 r] eqn:E; [done|].
    destruct Hhead as (_ & Hc1 & _). apply N.eqb_neq in Hc1. rewrite Hc1.
    rewrite Hitems; [done|]. simpl in Hfuel. simpl. lia.
  - destruct members as [|kv members]; [reflexivity|].
    cbn [json_ok] in Hok. apply andb_true_iff in Hok as [Hok Hnd].
    apply bool_decide_eq_true in Hnd.
    assert (Hall : Forall (fun kv => (str_ok kv.1 = true /\ json_ok kv.2 = true)
                                     /\ reads_back kv.2) (kv :: members)).
    { apply Forall_forall. intros y Hy. rewrite Forall_forall in IH.
      assert (str_ok y.1 = true /\ json_ok y.2 = true) as [? ?].
      { rewrite forallb_forall in Hok. apply list_elem_of_In, Hok in Hy.
        by apply andb_true_iff in Hy. }
      split; [done|]. by apply IH. }
    change (encode level (JObj (kv :: members)))
      with ([123] ++ newline_indent (S level)
              ++ join (44 :: newline_indent (S level))
                      (map (member_text (S level)) (kv :: members))
              ++ newline_indent level ++ [125]).
    cbn [app]. rewrite <- !app_assoc. cbn [app].
    rewrite scan_once_object, skip_ws_newline_indent.
    pose proof (object_members_encode (S level) level rest (kv :: members) Hall
                  ltac:(done) fuel) as Hms.
    destruct (join_member_head (44 :: newline_indent (S level)) (S level)
                kv members) as [t Et].
    rewrite Et in *. cbn [app tail] in *.
    rewrite (skip_ws_nonws 34) by done.
    change (34 =? 125) with false. change (34 =? 34) with true. cbv iota.
    rewrite Hms; [|simpl in Hfuel; simpl; lia].
    by rewrite dict_of_pairs_NoDup.
Qed.

(** *** The whole text *)

Lemma length_join_ge {A : Type} (sep : list N) (f : A -> list N) (g : A -> nat)
    (l : list A) :
  (1 <= length sep)%nat ->
  Forall (fun x => (g x <= length (f x))%nat) l ->
  (list_sum (map (fun x => S (g x)) l) <= length (join sep (map f l)) + 1)%nat.
Proof.
  intros Hsep Hall. induction Hall as [|x l Hx Hall IH]; [simpl; lia|].
  destruct (decide (l = [])) as [->|Hne].
  - simpl. lia.
  - cbn [map]. rewrite join_cons by (by destruct l).
    rewrite !length_app.
    change (list_sum (S (g x) :: map (fun x => S (g x)) l))
      with (S (g x) + list_sum (map (fun x => S (g x)) l))%nat.
    lia.
Qed.

Lemma length_newline_indent level : (1 <= length (newline_indent level))%nat.
Proof. unfold newline_indent. simpl. lia. Qed.

(** The text of a value is at least as long as the fuel reading it
    takes. *)
Lemma jsize_le_length v : forall level,
  json_ok v = true -> (jsize v <= length (encode level v))%nat.
Proof.
  induction v as [|b|lit|s|items IH|members IH] using json_ind';
    intros level Hok.
  - simpl. lia.
  - destruct b; simpl; lia.
  - pose proof (encode_head level _ Hok) as H.
    destruct (encode level (JNum lit)); [done|]. simpl. lia.
  - simpl. lia.
  - destruct items as [|x items]; [simpl; lia|].
    cbn [json_ok] in Hok.
    change (encode level (JArr (x :: items)))
      with ([91] ++ newline_indent (S level)
              ++ join (44 :: newline_indent (S level))
                      (map (encode (S level)) (x :: items))
              ++ newline_indent level ++ [93]).
    rewrite !length_app.
    pose proof (length_newline_indent level).
    pose proof (length_newline_indent (S level)).
    pose proof (length_join_ge (44 :: newline_indent (S level))
                  (encode (S level)) jsize (x :: items)) as Hj.
    cbn [jsize]. cbn [length] in *.
    assert (Forall (fun y => (jsize y <= length (encode (S level) y))%nat)
                   (x :: items)) as Hall.
    { apply Forall_forall. intros y Hy. rewrite Forall_forall in IH.
      apply IH; [done|]. rewrite forallb_forall in Hok. apply Hok.
      by apply list_elem_of_In. }
    specialize (Hj ltac:(lia) Hall). lia.
  - destruct members as [|kv members]; [simpl; lia|].
    cbn [json_ok] in Hok. apply andb_true_iff in Hok as [Hok _].
    change (encode level (JObj (kv :: members)))
      with ([123] ++ newline_indent (S level)
              ++ join (44 :: newline_indent (S level))
                      (map (member_text (S level)) (kv :: members))
              ++ newline_indent level ++ [125]).
    rewrite !length_app.
    pose proof (length_newline_indent level).
    pose proof (length_newline_indent (S level)).
    pose proof (length_join_ge (44 :: newline_indent (S level))
                  (member_text (S level)) (fun kv => jsize kv.2)
                  (kv :: members)) as Hj.
    cbn [jsize]. cbn [length] in *.
    assert (Forall (fun y => (jsize y.2 <= length (member_text (S level) y))%nat)
                   (kv :: members)) as Hall.
    { apply Forall_forall. intros y Hy. rewrite Forall_forall in IH.
      unfold member_text. rewrite !length_app.
      assert (jsize y.2 <= length (encode (S level) y.2))%nat; [|lia].
      apply IH; [done|]. rewrite forallb_forall in Hok.
      apply list_elem_of_In, Hok in Hy. by apply andb_true_iff in Hy as [_ ?]. }
    specialize (Hj ltac:(lia) Hall). lia.
Qed.

(** [json.loads (json.dumps v, indent=4)] is [v]. *)
Lemma json_loads_dumps v : json_ok v = true -> json_loads (json_dumps v) = Ok v.
Proof.
  intros Hok. unfold json_loads, json_dumps.
  pose proof (encode_head 0 v Hok) as Hhead.
  pose proof (jsize_le_length v 0 Hok) as Hlen.
  rewrite (skip_ws_value_head _ Hhead).
  pose proof (scan_once_encode v Hok 0%nat (2 * length (encode 0 v) + 2)%nat [])
    as Hscan.
  rewrite app_nil_r in Hscan. rewrite Hscan; [|lia|done].
  destruct (encode 0 v) as [|c t]; [done|].
  destruct Hhead as (_ & _ & Hbom). cbn [starts_with].
  apply N.eqb_neq in Hbom. rewrite N.eqb_sym, Hbom. done.
Qed.

(** *** The bytes on disk

    With [ensure_ascii] every character written is ASCII, so the bytes of
    the file are the characters of the text, and decoding them gives the
    text back. *)

Lemma utf8_decode_ascii s : ascii_text s -> utf8_decode s = Some s.
Proof.
  induction 1 as [|c s Hc Hs IH]; [done|].
  cbn [utf8_decode]. apply N.ltb_lt in Hc. by rewrite Hc, IH.
Qed.

Lemma hexdigit_ascii d : d < 16 -> hexdigit d < 128.
Proof. intros Hd. unfold hexdigit. destruct (d <? 10); lia. Qed.

Lemma hex4_ascii n : ascii_text (hex4 n).
Proof.
  unfold hex4. repeat constructor; apply hexdigit_ascii, N.mod_lt; lia.
Qed.

Lemma escape_char_ascii c : ascii_text (escape_char c).
Proof.
  unfold escape_char, ascii_text.
  repeat match goal with
         | |- context [if ?b =? ?n then _ else _] =>
             destruct (b =? n); [repeat constructor; lia|]
         end.
  destruct ((32 <=? c) && (c <=? 126)) eqn:E.
  - apply andb_true_iff in E as [_ E]. apply N.leb_le in E.
    repeat constructor; lia.
  - destruct (c <? 65536).
    + do 2 (constructor; [lia|]). apply hex4_ascii.
    + apply Forall_app. split; do 2 (constructor; [lia|]); apply hex4_ascii.
Qed.

Lemma encode_str_ascii s : ascii_text (encode_str s).
Proof.
  unfold encode_str. constructor; [lia|]. apply Forall_app. split.
  - induction s as [|c s IH]; [constructor|].
    cbn [flat_map]. apply Forall_app. split; [apply escape_char_ascii|exact IH].
  - repeat constructor; lia.
Qed.

Lemma newline_indent_ascii level : ascii_text (newline_indent level).
Proof.
  unfold newline_indent. constructor; [lia|].
  apply Forall_forall. intros c Hc. apply list_elem_of_In, repeat_spec in Hc. lia.
Qed.

Lemma join_ascii sep parts :
  ascii_text sep -> Forall ascii_text parts -> ascii_text (join sep parts).
Proof.
  intros Hsep Hall. induction Hall as [|p parts Hp Hall IH]; [constructor|].
  destruct (decide (parts = [])) as [->|Hne]; [done|].
  rewrite join_cons by done. by repeat (apply Forall_app; split).
Qed.

Lemma span_digits_ascii s d r : span_digits s = (d, r) -> ascii_text d.
Proof.
  revert d r. induction s as [|c s IH]; intros d r E; simpl in E.
  - injection E as <- <-. constructor.
  - destruct (is_digit c) eqn:Ec; [|injection E as <- <-; constructor].
    destruct (span_digits s) as [d' r']. injection E as <- <-.
    constructor; [|by eapply IH].
    unfold is_digit in Ec. apply andb_true_iff in Ec as [_ Ec].
    apply N.leb_le in Ec. lia.
Qed.

Lemma match_number_ascii s l r : match_number s = Some (l, r) -> ascii_text l.
Proof.
  unfold match_number.
  destruct (scan_int s) as [[i r1]|] eqn:Ei; [|done].
  destruct (scan_frac r1) as [f r2] eqn:Ef.
  destruct (scan_exp r2) as [e r3] eqn:Ee. intros [= <- <-].
  repeat (apply Forall_app; split).
  - unfold scan_int in Ei.
    assert (Hbody : forall sign s1, ascii_text sign ->
      match s1 with
      | c :: s2 =>
          if c =? 48 then Some (sign ++ [48], s2)
          else if is_digit c then
            let '(d, r) := span_digits s2 in Some (sign ++ c :: d, r)
          else None
      | [] => None
      end = Some (i, r1) -> ascii_text i).
    { intros sign [|c s2] Hsign; [done|].
      destruct (c =? 48).
      - intros [= <- <-]. apply Forall_app. split; [done|]. repeat constructor; lia.
      - destruct (is_digit c) eqn:Ec; [|done].
        destruct (span_digits s2) as [d r'] eqn:Ed. intros [= <- <-].
        apply Forall_app. split; [done|]. constructor; [|by eapply span_digits_ascii].
        unfold is_digit in Ec. apply andb_true_iff in Ec as [_ Ec].
        apply N.leb_le in Ec. lia. }
    destruct s as [|c s]; [done|]. destruct (c =? 45).
    + apply (Hbody [45] s); [repeat constructor; lia|exact Ei].
    + apply (Hbody [] (c :: s)); [constructor|exact Ei].
  - unfold scan_frac in Ef. destruct r1 as [|c s1]; [by injection Ef as <- <-|].
    destruct (c =? 46); [|injection Ef as <- <-; constructor].
    destruct (span_digits s1) as [d r'] eqn:Ed.
    destruct d; injection Ef as <- <-; [constructor|].
    constructor; [lia|]. by eapply span_digits_ascii.
  - unfold scan_exp in Ee. destruct r2 as [|c s2]; [by injection Ee as <- <-|].
    destruct ((c =? 101) || (c =? 69)) eqn:Ec; [|injection Ee as <- <-; constructor].
    assert (Hc : c < 128).
    { apply orb_true_iff in Ec as [Ec|Ec]; apply N.eqb_eq in Ec; lia. }
    assert (Hsp : forall sign s1, ascii_text sign ->
      match span_digits s1 with
      | ([], _) => ([], c :: s2)
      | (d, r) => (c :: sign ++ d, r)
      end = (e, r3) -> ascii_text e).
    { intros sign s1 Hsign. destruct (span_digits s1) as [d r'] eqn:Ed.
      destruct d; intros [= <- <-]; [constructor|].
      constructor; [done|]. apply Forall_app. split; [done|].
      by eapply span_digits_ascii. }
    destruct s2 as [|c2 s2]; [by apply (Hsp [] []); [constructor|]|].
    destruct ((c2 =? 45) || (c2 =? 43)) eqn:Ec2.
    + apply (Hsp [c2] s2); [|exact Ee]. repeat constructor.
      apply orb_true_iff in Ec2 as [E2|E2]; apply N.eqb_eq in E2; lia.
    + apply (Hsp [] (c2 :: s2)); [constructor|exact Ee].
Qed.

Lemma encode_ascii v : forall level,
  json_ok v = true -> ascii_text (encode level v).
Proof.
  induction v as [|b|lit|s|items IH|members IH] using json_ind';
    intros level Hok.
  - repeat constructor; vm_compute; done.
  - destruct b; repeat constructor; vm_compute; done.
  - cbn [json_ok encode] in *.
    destruct (num_ok_cases lit Hok) as [H|[->|[->| ->]]];
      [by eapply match_number_ascii|..]; repeat constructor; vm_compute; done.
  - apply encode_str_ascii.
  - destruct items as [|x items]; [repeat constructor; vm_compute; done|].
    cbn [json_ok] in Hok.
    change (encode level (JArr (x :: items)))
      with ([91] ++ newline_indent (S level)
              ++ join (44 :: newline_indent (S level))
                      (map (encode (S level)) (x :: items))
              ++ newline_indent level ++ [93]).
    repeat (apply Forall_app; split);
      try apply newline_indent_ascii; try (repeat constructor; lia).
    apply join_ascii; [constructor; [lia|apply newline_indent_ascii]|].
    apply Forall_forall. intros t Ht. apply list_elem_of_fmap in Ht as (y & -> & Hy).
    rewrite Forall_forall in IH. apply IH; [done|].
    rewrite forallb_forall in Hok. apply Hok. by apply list_elem_of_In.
  - destruct members as [|kv members]; [repeat constructor; vm_compute; done|].
    cbn [json_ok] in Hok. apply andb_true_iff in Hok as [Hok _].
    change (encode level (JObj (kv :: members)))
      with ([123] ++ newline_indent (S level)
              ++ join (44 :: newline_indent (S level))
                      (map (member_text (S level)) (kv :: members))
              ++ newline_indent level ++ [125]).
    repeat (apply Forall_app; split);
      try apply newline_indent_ascii; try (repeat constructor; lia).
    apply join_ascii; [constructor; [lia|apply newline_indent_ascii]|].
    apply Forall_forall. intros t Ht. apply list_elem_of_fmap in Ht as (y & -> & Hy).
    rewrite Forall_forall in IH. unfold member_text.
    repeat (apply Forall_app; split);
      [apply encode_str_ascii|repeat constructor; lia|].
    apply IH; [done|]. rewrite forallb_forall in Hok.
    apply list_elem_of_In, Hok in Hy. by apply andb_true_iff in Hy as [_ ?].
Qed.

(** Reading the file that [json.dump] wrote gives the value back. *)
Lemma json_load_dumps v : json_ok v = true -> json_load (json_dumps v) = Ok v.
Proof.
  intros Hok. unfold json_load.
  rewrite utf8_decode_ascii by (by apply encode_ascii).
  by apply json_loads_dumps.
Qed.

(** C6, as the code has it.  [save_provenance] followed by a load of the
    same path gives the record back: the data of the recorder that
    [__init__] returns, whatever artifact path it is given and as long as
    the file still holds what was saved, is the data that was saved, entry
    for entry and in the same order -- the same [artifact], the same steps,
    the same [artifact_hash].  This holds for the records in which no
    string has a high surrogate directly followed by a low one
    ([json_ok]; every record built from the command line or loaded from a
    file is such a record), and the save succeeds wherever the file can be
    written: the path is not a directory, and a file can be created there
    if none exists. *)
Theorem save_then_load (self : recorder) (w : world) :
  json_ok (provenance_data self) = true ->
  fs w !! provenance_file self <> Some Dir ->
  (fs w !! provenance_file self = None -> denied w (provenance_file self) = None) ->
  exists w1,
    save_provenance self w = (Ok tt, self, w1)
    /\ fs w1 !! provenance_file self
       = Some (File (json_dumps (provenance_data self)))
    /\ forall (ap : list N) (w2 : world),
         fs w2 !! provenance_file self = fs w1 !! provenance_file self ->
         __init__ ap (provenance_file self) w2
         = (Ok {| artifact_path := ap;
                  provenance_file := provenance_file self;
                  provenance_data := provenance_data self |},
            (utcnow_iso_z w2).2).
Proof.
  intros Hok Hdir Hnew. eexists. split; [by apply save_provenance_Ok|].
  split; [apply lookup_insert_eq|].
  intros ap w2 Hfs. simpl in Hfs. rewrite lookup_insert_eq in Hfs.
  apply (init_loaded ap _ w2 _ _ Hfs). by apply json_load_dumps.
Qed.

Lemma save_then_load_witness :
  exists w1,
    save_provenance demo_recorder1 demo_world = (Ok tt, demo_recorder1, w1)
    /\ __init__ (py "bar.bin") (py "provenance.json") w1
       = (Ok {| artifact_path := py "bar.bin";
                provenance_file := py "provenance.json";
                provenance_data := provenance_data demo_recorder1 |},
          (utcnow_iso_z w1).2).
Proof.
  destruct (save_then_load demo_recorder1 demo_world) as (w1 & E & _ & H).
  - vm_compute. reflexivity.
  - vm_compute. discriminate.
  - reflexivity.
  - exists w1. split; [exact E|]. by apply (H (py "bar.bin") w1).
Defined.

(** Without the condition on strings the round trip fails: a high
    surrogate directly followed by a low one is written as two escapes and
    read back as one character. *)
Lemma surrogate_pair_not_read_back :
  json_ok (JStr [55357; 56832]) = false
  /\ json_load (json_dumps (JStr [55357; 56832])) = Ok (JStr [128512]).
Proof. split; vm_compute; reflexivity. Qed.

(** C6 as stated fails on a record that [add_build_step] builds.  Given
    the command of the two code points U+D83D U+DE00, the step holds them;
    the record is saved to a path where it can be written, and the load of
    that file holds a step whose command is the one character U+1F600.  So
    it is not true of every record that the load gives back what was
    saved. *)
Lemma save_then_load_surrogate_counterexample :
  (exists self w0 w1 self2 w2,
     add_build_step demo_recorder [55357; 56832] None demo_world
     = (Ok tt, self, w0)
     /\ getitem (provenance_data self) (py "build_steps")
        = Ok (JArr [JObj [(py "command", JStr [55357; 56832]);
                          (py "executed_at", JStr (py "2024-05-01T10:00:00Z"))]])
     /\ save_provenance self w0 = (Ok tt, self, w1)
     /\ __init__ (py "foo.bin") (py "provenance.json") w1 = (Ok self2, w2)
     /\ getitem (provenance_data self2) (py "build_steps")
        = Ok (JArr [JObj [(py "command", JStr [128512]);
                          (py "executed_at", JStr (py "2024-05-01T10:00:00Z"))]])
     /\ provenance_data self2 <> provenance_data self)
  /\ ~ (forall (self : recorder) (w : world),
          fs w !! provenance_file self <> Some Dir ->
          (fs w !! provenance_file self = None ->
           denied w (provenance_file self) = None) ->
          exists w1 w2,
            save_provenance self w = (Ok tt, self, w1)
            /\ __init__ (artifact_path self) (provenance_file self) w1
               = (Ok self, w2)).
Proof.
  assert (Hrun : exists self w0 w1 self2 w2,
     add_build_step demo_recorder [55357; 56832] None demo_world
     = (Ok tt, self, w0)
     /\ getitem (provenance_data self) (py "build_steps")
        = Ok (JArr [JObj [(py "command", JStr [55357; 56832]);
                          (py "executed_at", JStr (py "2024-05-01T10:00:00Z"))]])
     /\ save_provenance self w0 = (Ok tt, self, w1)
     /\ __init__ (py "foo.bin") (py "provenance.json") w1 = (Ok self2, w2)
     /\ getitem (provenance_data self2) (py "build_steps")
        = Ok (JArr [JObj [(py "command", JStr [128512]);
                          (py "executed_at", JStr (py "2024-05-01T10:00:00Z"))]])
     /\ provenance_data self2 <> provenance_data self).
  { eexists _, _, _, _, _. split; [vm_compute; reflexivity|].
    split; [vm_compute; reflexivity|]. split; [vm_compute; reflexivity|].
    split; [vm_compute; reflexivity|]. split; [vm_compute; reflexivity|].
    vm_compute. discriminate. }
  split; [exact Hrun|].
  intros H.
  clear Hrun.
  destruct (H (add_build_step demo_recorder [55357; 56832] None demo_world).1.2
              (add_build_step demo_recorder [55357; 56832] None demo_world).2)
    as (w1 & w2 & Es & Ei).
  - vm_compute. discriminate.
  - intros _. reflexivity.
  - vm_compute in Es. injection Es as <-.
    vm_compute in Ei. injection Ei as Ed _. discriminate Ed.
Qed.

(** *** The fuel of [json_loads] is never exhausted *)

Lemma skip_ws_length s : (length (skip_ws s) <= length s)%nat.
Proof.
  induction s as [|c s IH]; [done|]. simpl. destruct (is_ws c); simpl; lia.
Qed.

Lemma scanstring_length n : forall s str r,
  (length s <= n)%nat -> scanstring s = Some (str, r) ->
  (length r < length s)%nat.
Proof.
  induction n as [|n IH]; intros s str r Hn; (destruct s as [|c s]; [done|]).
  { simpl in Hn. lia. }
  cbn [scanstring]. simpl in Hn.
  assert (Hrec : forall u x,
    (length u <= length s)%nat ->
    match scanstring u with
    | Some (str', rest) => Some (x :: str', rest)
    | None => None
    end = Some (str, r) -> (length r < length (c :: s))%nat).
  { intros u x Hu. destruct (scanstring u) as [[str' rest]|] eqn:E; [|done].
    intros [= <- <-]. apply IH in E; [|lia]. simpl. lia. }
  destruct (c =? 34); [intros [= <- <-]; simpl; lia|].
  destruct (c =? 92); [|destruct (c <? 32); [done|by apply Hrec]].
  destruct s as [|e s]; [done|].
  destruct (e =? 117).
  - destruct s as [|h1 [|h2 [|h3 [|h4 t]]]]; try done.
    destruct (hex4_val h1 h2 h3 h4) as [uni|]; [|done].
    cbv zeta.
    assert (Hsingle :
      match scanstring t with
      | Some (str', rest) => Some (uni :: str', rest)
      | None => None
      end = Some (str, r) -> (length r < length (c :: e :: h1 :: h2 :: h3 :: h4 :: t))%nat).
    { destruct (scanstring t) as [[str' rest]|] eqn:E; [|done].
      intros [= <- <-]. apply IH in E; [|simpl in *; lia]. simpl. lia. }
    destruct (is_high_surrogate uni); [|exact Hsingle].
    destruct t as [|b1 [|b2 [|g1 [|g2 [|g3 [|g4 t']]]]]]; try exact Hsingle.
    destruct ((b1 =? 92) && (b2 =? 117)); [|exact Hsingle].
    destruct (hex4_val g1 g2 g3 g4) as [uni2|]; [|done].
    destruct (is_low_surrogate uni2); [|exact Hsingle].
    destruct (scanstring t') as [[str' rest]|] eqn:E; [|done].
    intros [= <- <-]. apply IH in E; [|simpl in *; lia]. simpl. lia.
  - destruct (unescape e) as [ch|]; [|done].
    intros H. apply Hrec in H; simpl in *; lia.
Qed.

Lemma span_digits_split s d r : span_digits s = (d, r) -> s = d ++ r.
Proof.
  revert d r. induction s as [|c s IH]; intros d r E; simpl in E.
  - by injection E as <- <-.
  - destruct (is_digit c); [|by injection E as <- <-].
    destruct (span_digits s) as [d' r']. injection E as <- <-.
    simpl. f_equal. by apply IH.
Qed.

Lemma match_number_length s l r :
  match_number s = Some (l, r) -> (length r < length s)%nat.
Proof.
  unfold match_number.
  destruct (scan_int s) as [[i r1]|] eqn:Ei; [|done].
  destruct (scan_frac r1) as [f r2] eqn:Ef.
  destruct (scan_exp r2) as [e r3] eqn:Ee. intros [= <- <-].
  assert (length r1 < length s)%nat.
  { unfold scan_int in Ei.
    assert (Hbody : forall sign s1,
      match s1 with
      | c :: s2 =>
          if c =? 48 then Some (sign ++ [48], s2)
          else if is_digit c then
            let '(d, r) := span_digits s2 in Some (sign ++ c :: d, r)
          else None
      | [] => None
      end = Some (i, r1) -> (length r1 < length s1)%nat).
    { intros sign [|c s2]; [done|].
      destruct (c =? 48); [intros [= <- <-]; simpl; lia|].
      destruct (is_digit c); [|done].
      destruct (span_digits s2) as [d r'] eqn:Ed. intros [= <- <-].
      apply span_digits_split in Ed as ->. rewrite length_cons, length_app. lia. }
    destruct s as [|c s]; [done|]. destruct (c =? 45).
    - apply Hbody in Ei. simpl. lia.
    - by apply (Hbody [] (c :: s)). }
  assert (length r2 <= length r1)%nat.
  { unfold scan_frac in Ef. destruct r1 as [|c s1]; [by injection Ef as <- <-|].
    destruct (c =? 46); [|by injection Ef as <- <-].
    destruct (span_digits s1) as [d r'] eqn:Ed.
    apply span_digits_split in Ed as ->.
    destruct d; injection Ef as <- <-; [done|].
    rewrite !length_cons, length_app. simpl. lia. }
  assert (length r3 <= length r2)%nat.
  { unfold scan_exp in Ee. destruct r2 as [|c s2]; [by injection Ee as <- <-|].
    destruct ((c =? 101) || (c =? 69)); [|by injection Ee as <- <-].
    assert (Hsp : forall sign s1, (length s1 <= length s2)%nat ->
      match span_digits s1 with
      | ([], _) => ([], c :: s2)
      | (d, r) => (c :: sign ++ d, r)
      end = (e, r3) -> (length r3 <= length (c :: s2))%nat).
    { intros sign s1 Hs1. destruct (span_digits s1) as [d r'] eqn:Ed.
      apply span_digits_split in Ed as ->.
      destruct d; intros [= <- <-]; [done|].
      rewrite length_app in Hs1. simpl in *. lia. }
    destruct s2 as [|c2 s2]; [by apply (Hsp [] [])|].
    destruct ((c2 =? 45) || (c2 =? 43)).
    - apply (Hsp [c2] s2); [simpl; lia|done].
    - by apply (Hsp [] (c2 :: s2)). }
  lia.
Qed.

Lemma scan_once_S fuel s :
  scan_once (S fuel) s
  = match s with
    | [] => Malformed
    | c :: s' =>
        if c =? 34 then
          match scanstring s' with
          | Some (str, r) => Parsed (JStr str) r
          | None => Malformed
          end
        else if c =? 123 then
          match skip_ws s' with
          | c1 :: r =>
              if c1 =? 125 then Parsed (JObj []) r
              else if c1 =? 34 then
                match object_members fuel r with
                | Parsed ms r' => Parsed (JObj (dict_of_pairs ms)) r'
                | Malformed => Malformed
                | OutOfFuel => OutOfFuel
                end
              else Malformed
          | [] => Malformed
          end
        else if c =? 91 then
          match skip_ws s' with
          | c1 :: r =>
              if c1 =? 93 then Parsed (JArr []) r
              else
                match array_items fuel (c1 :: r) with
                | Parsed vs r' => Parsed (JArr vs) r'
                | Malformed => Malformed
                | OutOfFuel => OutOfFuel
                end
          | [] => Malformed
          end
        else if starts_with (py "null") s then Parsed JNull (drop 4 s)
        else if starts_with (py "true") s then Parsed (JBool true) (drop 4 s)
        else if starts_with (py "false") s then Parsed (JBool false) (drop 5 s)
        else
          match match_number s with
          | Some (lit, r) => Parsed (JNum lit) r
          | None =>
              if starts_with (py "NaN") s then Parsed (JNum (py "NaN")) (drop 3 s)
              else if starts_with (py "Infinity") s
              then Parsed (JNum (py "Infinity")) (drop 8 s)
              else if starts_with (py "-Infinity") s
              then Parsed (JNum (py "-Infinity")) (drop 9 s)
              else Malformed
          end
    end.
Proof. reflexivity. Qed.

(** What is left after a value is shorter than what was there. *)
Lemma parsed_length fuel :
  (forall s v r, scan_once fuel s = Parsed v r -> (length r < length s)%nat)
  /\ (forall s vs r, array_items fuel s = Parsed vs r -> (length r < length s)%nat)
  /\ (forall s ms r, object_members fuel s = Parsed ms r ->
                     (length r < length s)%nat).
Proof.
  induction fuel as [|fuel (IHs & IHa & IHo)]; [by repeat split|].
  split; [|split].
  - intros s v r. rewrite scan_once_S. destruct s as [|c s]; [done|].
    destruct (c =? 34).
    { destruct (scanstring s) as [[str r']|] eqn:E; [|done]. intros [= <- <-].
      apply (scanstring_length _ _ _ _ (le_n _)) in E. simpl. lia. }
    destruct (c =? 123).
    { pose proof (skip_ws_length s). destruct (skip_ws s) as [|c1 r1]; [done|].
      destruct (c1 =? 125); [intros [= <- <-]; simpl in *; lia|].
      destruct (c1 =? 34); [|done].
      destruct (object_members fuel r1) as [ms r'| |] eqn:E; try done.
      intros [= <- <-]. apply IHo in E. simpl in *. lia. }
    destruct (c =? 91).
    { pose proof (skip_ws_length s). destruct (skip_ws s) as [|c1 r1]; [done|].
      destruct (c1 =? 93); [intros [= <- <-]; simpl in *; lia|].
      destruct (array_items fuel (c1 :: r1)) as [vs r'| |] eqn:E; try done.
      intros [= <- <-]. apply IHa in E. simpl in *. lia. }
    destruct (starts_with _ _); [intros [= <- <-]; simpl; rewrite length_drop; lia|].
    destruct (starts_with _ _); [intros [= <- <-]; simpl; rewrite length_drop; lia|].
    destruct (starts_with _ _); [intros [= <- <-]; simpl; rewrite length_drop; lia|].
    destruct (match_number (c :: s)) as [[lit r']|] eqn:E.
    { intros [= <- <-]. by apply match_number_length in E. }
    destruct (starts_with _ _); [intros [= <- <-]; simpl; rewrite length_drop; lia|].
    destruct (starts_with _ _); [intros [= <- <-]; simpl; rewrite length_drop; lia|].
    destruct (starts_with _ _); [intros [= <- <-]; simpl; rewrite length_drop; lia|].
    done.
  - intros s vs r. rewrite array_items_S.
    destruct (scan_once fuel s) as [v r1| |] eqn:E; try done. apply IHs in E.
    pose proof (skip_ws_length r1). destruct (skip_ws r1) as [|c r2]; [done|].
    destruct (c =? 93); [intros [= <- <-]; simpl in *; lia|].
    destruct (c =? 44); [|done].
    destruct (array_items fuel (skip_ws r2)) as [vs' r3| |] eqn:E2; try done.
    intros [= <- <-]. apply IHa in E2. pose proof (skip_ws_length r2).
    simpl in *. lia.
  - intros s ms r. rewrite object_members_S.
    destruct (scanstring s) as [[key r1]|] eqn:Ek; [|done].
    apply (scanstring_length _ _ _ _ (le_n _)) in Ek.
    pose proof (skip_ws_length r1). destruct (skip_ws r1) as [|c r2]; [done|].
    destruct (c =? 58); [|done].
    destruct (scan_once fuel (skip_ws r2)) as [v r3| |] eqn:E; try done.
    apply IHs in E. pose proof (skip_ws_length r2).
    pose proof (skip_ws_length r3). destruct (skip_ws r3) as [|c2 r4]; [done|].
    destruct (c2 =? 125); [intros [= <- <-]; simpl in *; lia|].
    destruct (c2 =? 44); [|done].
    pose proof (skip_ws_length r4). destruct (skip_ws r4) as [|q r5]; [done|].
    destruct (q =? 34); [|done].
    destruct (object_members fuel r5) as [ms' r6| |] eqn:E2; try done.
    intros [= <- <-]. apply IHo in E2. simpl in *. lia.
Qed.

Lemma enough_fuel fuel :
  (forall s, (2 * length s + 1 <= fuel)%nat -> scan_once fuel s <> OutOfFuel)
  /\ (forall s, (2 * length s + 2 <= fuel)%nat -> array_items fuel s <> OutOfFuel)
  /\ (forall s, (2 * length s + 1 <= fuel)%nat ->
                object_members fuel s <> OutOfFuel).
Proof.
  induction fuel as [|fuel (IHs & IHa & IHo)];
    [repeat split; intros s Hs; lia|].
  split; [|split].
  - intros s Hs. rewrite scan_once_S. destruct s as [|c s]; [done|].
    simpl in Hs.
    destruct (c =? 34); [by destruct (scanstring s) as [[? ?]|]|].
    destruct (c =? 123).
    { pose proof (skip_ws_length s). destruct (skip_ws s) as [|c1 r1]; [done|].
      destruct (c1 =? 125); [done|]. destruct (c1 =? 34); [|done].
      destruct (object_members fuel r1) eqn:E; try done.
      apply IHo in E; [done|]. simpl in *. lia. }
    destruct (c =? 91).
    { pose proof (skip_ws_length s). destruct (skip_ws s) as [|c1 r1]; [done|].
      destruct (c1 =? 93); [done|].
      destruct (array_items fuel (c1 :: r1)) eqn:E; try done.
      apply IHa in E; [done|]. simpl in *. lia. }
    repeat (destruct (starts_with _ _); [done|]).
    destruct (match_number (c :: s)) as [[? ?]|]; [done|].
    repeat (destruct (starts_with _ _); [done|]). done.
  - intros s Hs. rewrite array_items_S.
    destruct (scan_once fuel s) as [v r1| |] eqn:E; [|done|].
    + apply (proj1 (parsed_length fuel)) in E.
      pose proof (skip_ws_length r1). destruct (skip_ws r1) as [|c r2]; [done|].
      destruct (c =? 93); [done|]. destruct (c =? 44); [|done].
      destruct (array_items fuel (skip_ws r2)) eqn:E2; try done.
      apply IHa in E2; [done|]. pose proof (skip_ws_length r2). simpl in *. lia.
    + apply IHs in E; [done|]. lia.
  - intros s Hs. rewrite object_members_S.
    destruct (scanstring s) as [[key r1]|] eqn:Ek; [|done].
    apply (scanstring_length _ _ _ _ (le_n _)) in Ek.
    pose proof (skip_ws_length r1). destruct (skip_ws r1) as [|c r2]; [done|].
    destruct (c =? 58); [|done].
    pose proof (skip_ws_length r2).
    destruct (scan_once fuel (skip_ws r2)) as [v r3| |] eqn:E; [|done|].
    + apply (proj1 (parsed_length fuel)) in E.
      pose proof (skip_ws_length r3). destruct (skip_ws r3) as [|c2 r4]; [done|].
      destruct (c2 =? 125); [done|]. destruct (c2 =? 44); [|done].
      pose proof (skip_ws_length r4). destruct (skip_ws r4) as [|q r5]; [done|].
      destruct (q =? 34); [|done].
      destruct (object_members fuel r5) eqn:E2; try done.
      apply IHo in E2; [done|]. simpl in *. lia.
    + apply IHs in E; [done|]. simpl in *. lia.
Qed.

(** The fuel that [json_loads] gives to [scan_once] is never used up, so
    [json_loads] raises only where the text is not JSON. *)
Lemma scan_once_fuel s :
  scan_once (2 * length s + 2) (skip_ws s) <> OutOfFuel.
Proof.
  apply (proj1 (enough_fuel _)). pose proof (skip_ws_length s). lia.
Qed.

(** ** The records a run can hold are well formed *)

Lemma is_scalar_iff c :
  is_scalar c = true <-> c < 55296 \/ (57343 < c /\ c < 1114112).
Proof.
  unfold is_scalar. rewrite orb_true_iff, andb_true_iff, !N.ltb_lt. done.
Qed.

Lemma utf8_decode_scalar n : forall bs t,
  (length bs <= n)%nat -> utf8_decode bs = Some t -> scalar_text t.
Proof.
  induction n as [|n IH]; intros bs t Hn;
    (destruct bs as [|b1 r1]; [by intros [= <-]; constructor|]).
  { simpl in Hn. lia. }
  simpl in Hn. cbn [utf8_decode].
  assert (Hrec : forall c u,
    (length u <= n)%nat -> is_scalar c = true ->
    option_map (cons c) (utf8_decode u) = Some t -> scalar_text t).
  { intros c u Hu Hc. destruct (utf8_decode u) as [t'|] eqn:E; [|done].
    intros [= <-]. constructor; [done|]. by apply (IH u). }
  unfold is_cont, cont in *.
  destruct (b1 <? 128) eqn:E1.
  { apply Hrec; [lia|]. apply is_scalar_iff. bool_to_prop. lia. }
  destruct ((194 <=? b1) && (b1 <=? 223)) eqn:E2.
  { destruct r1 as [|b2 r2]; [done|].
    destruct ((128 <=? b2) && (b2 <=? 191)) eqn:C2; [|done].
    apply Hrec; [simpl in Hn; lia|]. apply is_scalar_iff. bool_to_prop. lia. }
  destruct ((224 <=? b1) && (b1 <=? 239)) eqn:E3.
  { destruct r1 as [|b2 [|b3 r3]]; try done.
    match goal with |- context [if ?b then _ else _] => destruct b eqn:C end; [|done].
    apply Hrec; [simpl in Hn; lia|]. apply is_scalar_iff.
    clear E1 E2. bool_to_prop; lia. }
  destruct ((240 <=? b1) && (b1 <=? 244)) eqn:E4; [|done].
  destruct r1 as [|b2 [|b3 [|b4 r4]]]; try done.
  match goal with |- context [if ?b then _ else _] => destruct b eqn:C end; [|done].
  apply Hrec; [simpl in Hn; lia|]. apply is_scalar_iff.
  clear E1 E2 E3. bool_to_prop; lia.
Qed.

Lemma hexval_lt c d : hexval c = Some d -> d < 16.
Proof.
  unfold hexval, is_digit.
  destruct ((48 <=? c) && (c <=? 57)) eqn:E1; [intros [= <-]; bool_to_prop; lia|].
  destruct ((97 <=? c) && (c <=? 102)) eqn:E2;
    [intros [= <-]; clear E1; bool_to_prop; lia|].
  destruct ((65 <=? c) && (c <=? 70)) eqn:E3; [|done].
  intros [= <-]. clear E1 E2. bool_to_prop. lia.
Qed.

Lemma hex4_val_lt h1 h2 h3 h4 u : hex4_val h1 h2 h3 h4 = Some u -> u < 65536.
Proof.
  unfold hex4_val.
  destruct (hexval h1) as [a|] eqn:Ea; [|done].
  destruct (hexval h2) as [b|] eqn:Eb; [|done].
  destruct (hexval h3) as [c|] eqn:Ec; [|done].
  destruct (hexval h4) as [d|] eqn:Ed; [|done].
  apply hexval_lt in Ea, Eb, Ec, Ed. intros [= <-]. lia.
Qed.

Lemma unescape_lt e ch : unescape e = Some ch -> ch < 128.
Proof.
  unfold unescape.
  repeat match goal with
         | |- context [if ?b =? ?n then _ else _] =>
             destruct (b =? n); [intros [= <-]; lia|]
         end.
  done.
Qed.

Lemma str_ok_cons c str :
  c < 1114112 ->
  (is_high_surrogate c = true ->
   match str with c' :: _ => is_low_surrogate c' = false | [] => True end) ->
  str_ok str = true ->
  str_ok (c :: str) = true.
Proof.
  intros Hc Hpair Hstr. cbn [str_ok]. rewrite Hstr, andb_true_r.
  apply andb_true_iff. split; [by apply N.ltb_lt|].
  apply negb_true_iff. destruct (is_high_surrogate c); [|done].
  specialize (Hpair eq_refl). destruct str as [|c' str]; [done|]. by rewrite Hpair.
Qed.

Lemma joined_pair_range hi lo :
  is_high_surrogate hi = true -> is_low_surrogate lo = true ->
  65536 <= 65536 + N.lor (N.shiftl (hi - 55296) 10) (lo - 56320) < 1114112.
Proof.
  unfold is_high_surrogate, is_low_surrogate. intros Hh Hl. bool_to_prop.
  rewrite N.shiftl_mul_pow2, lor_shifted by (change (2 ^ 10) with 1024; lia).
  change (2 ^ 10) with 1024. lia.
Qed.

(** A string that [scanstring] returns from text of scalar values is well
    formed; and it begins with a low surrogate only where the text begins
    with the escape of one. *)
Lemma scanstring_ok n : forall s str r,
  (length s <= n)%nat -> scalar_text s -> scanstring s = Some (str, r) ->
  str_ok str = true /\ scalar_text r
  /\ match str with
     | c :: _ => is_low_surrogate c = true -> low_escape s
     | [] => True
     end.
Proof.
  induction n as [|n IH]; intros s str r Hn Hs; (destruct s as [|c s]; [done|]).
  { simpl in Hn. lia. }
  simpl in Hn. apply Forall_cons in Hs as [Hc Hs]. cbn [scanstring].
  (* one character [x] in front of what the rest [u] of the text gives *)
  assert (Hrec : forall u x,
    (length u <= n)%nat -> scalar_text u -> x < 1114112 ->
    (is_high_surrogate x = true -> ~ low_escape u) ->
    (is_low_surrogate x = true -> low_escape (c :: s)) ->
    match scanstring u with
    | Some (str', rest) => Some (x :: str', rest)
    | None => None
    end = Some (str, r) ->
    str_ok str = true /\ scalar_text r
    /\ match str with
       | c' :: _ => is_low_surrogate c' = true -> low_escape (c :: s)
       | [] => True
       end).
  { intros u x Hu Hsu Hx Hhigh Hlow.
    destruct (scanstring u) as [[str' rest]|] eqn:E; [|done]. intros [= <- <-].
    destruct (IH u str' rest Hu Hsu E) as (Hok & Hrest & Hhead).
    split; [|by split]. apply str_ok_cons; [done| |done].
    intros Hh. destruct str' as [|c' str']; [done|].
    destruct (is_low_surrogate c') eqn:El; [|done].
    destruct (Hhigh Hh). by apply Hhead. }
  assert (Hsuffix : forall k, scalar_text (drop k s)) by (intros k; by apply Forall_drop).
  destruct (c =? 34) eqn:E34; [by intros [= <- <-]|].
  destruct (c =? 92) eqn:E92.
  2:{ destruct (c <? 32) eqn:E32; [done|].
      apply is_scalar_iff in Hc. unfold is_high_surrogate, is_low_surrogate.
      apply Hrec; [lia|done|lia| |];
        intros H; exfalso;
        unfold is_high_surrogate, is_low_surrogate in H; bool_to_prop; lia. }
  destruct s as [|e s]; [done|]. simpl in Hn.
  destruct (e =? 117) eqn:E117.
  2:{ destruct (unescape e) as [ch|] eqn:Ee; [|done].
      apply unescape_lt in Ee. unfold is_high_surrogate, is_low_surrogate.
      apply Hrec; [lia|exact (Hsuffix 1%nat)|lia| |];
        intros H; exfalso;
        unfold is_high_surrogate, is_low_surrogate in H; bool_to_prop; lia. }
  destruct s as [|h1 [|h2 [|h3 [|h4 t]]]]; try done.
  destruct (hex4_val h1 h2 h3 h4) as [uni|] eqn:Eh; [|done].
  pose proof (hex4_val_lt _ _ _ _ _ Eh) as Huni. cbv zeta.
  assert (Hst : scalar_text t) by exact (Hsuffix 5%nat).
  assert (Hlow : is_low_surrogate uni = true ->
                 low_escape (c :: e :: h1 :: h2 :: h3 :: h4 :: t)).
  { intros Hl. apply N.eqb_eq in E92, E117. simpl. eauto. }
  assert (Hsingle : (is_high_surrogate uni = true -> ~ low_escape t) ->
    match scanstring t with
    | Some (str', rest) => Some (uni :: str', rest)
    | None => None
    end = Some (str, r) ->
    str_ok str = true /\ scalar_text r
    /\ match str with
       | c' :: _ =>
           is_low_surrogate c' = true ->
           low_escape (c :: e :: h1 :: h2 :: h3 :: h4 :: t)
       | [] => True
       end).
  { intros Hhigh. apply Hrec; [simpl in Hn; lia|done|lia|done|done]. }
  destruct (is_high_surrogate uni) eqn:Ehigh; [|by apply Hsingle].
  destruct t as [|b1 [|b2 [|g1 [|g2 [|g3 [|g4 t']]]]]];
    try (apply Hsingle; intros _ []).
  destruct ((b1 =? 92) && (b2 =? 117)) eqn:Eb.
  2:{ apply Hsingle. intros _ (-> & -> & _). done. }
  destruct (hex4_val g1 g2 g3 g4) as [uni2|] eqn:Eg; [|done].
  destruct (is_low_surrogate uni2) eqn:Elow.
  2:{ apply Hsingle. intros _ (_ & _ & u & Hu & Hl). congruence. }
  destruct (joined_pair_range uni uni2 Ehigh Elow) as [Hge Hlt].
  unfold is_high_surrogate, is_low_surrogate.
  apply Hrec; [simpl in Hn; lia|by apply (Forall_drop _ 6 _ Hst)|lia| |];
    intros H; exfalso;
        unfold is_high_surrogate, is_low_surrogate in H; bool_to_prop; lia.
Qed.

(** *** Number literals scan as themselves *)

Lemma span_digits_digits s d r :
  span_digits s = (d, r) -> Forall (fun c => is_digit c = true) d.
Proof.
  revert d r. induction s as [|c s IH]; intros d r E; simpl in E.
  - injection E as <- <-. constructor.
  - destruct (is_digit c) eqn:Ec; [|injection E as <- <-; constructor].
    destruct (span_digits s) as [d' r']. injection E as <- <-.
    constructor; [done|]. by eapply IH.
Qed.

Lemma span_digits_all d :
  Forall (fun c => is_digit c = true) d -> span_digits d = (d, []).
Proof.
  induction 1 as [|c d Hc Hd IH]; [done|]. simpl. by rewrite Hc, IH.
Qed.

Lemma span_digits_self s d r : span_digits s = (d, r) -> span_digits d = (d, []).
Proof. intros E. by apply span_digits_all, (span_digits_digits s d r). Qed.

Lemma scan_int_spec s i r :
  scan_int s = Some (i, r) -> s = i ++ r /\ scan_int i = Some (i, []).
Proof.
  unfold scan_int.
  assert (Hbody : forall sign s1,
    match s1 with
    | c :: s2 =>
        if c =? 48 then Some (sign ++ [48], s2)
        else if is_digit c then
          let '(d, r) := span_digits s2 in Some (sign ++ c :: d, r)
        else None
    | [] => None
    end = Some (i, r) ->
    exists j, i = sign ++ j /\ s1 = j ++ r
      /\ match j with
         | c :: s2 =>
             if c =? 48 then Some (sign ++ [48], s2)
             else if is_digit c then
               let '(d, r) := span_digits s2 in Some (sign ++ c :: d, r)
             else None
         | [] => None
         end = Some (i, [])).
  { intros sign [|c s2]; [done|].
    destruct (c =? 48) eqn:E48.
    - intros [= <- <-]. exists [48]. apply N.eqb_eq in E48 as ->. done.
    - destruct (is_digit c) eqn:Ec; [|done].
      destruct (span_digits s2) as [d r'] eqn:Ed. intros [= <- <-].
      exists (c :: d). rewrite E48, Ec, (span_digits_self _ _ _ Ed).
      by rewrite (span_digits_split _ _ _ Ed). }
  destruct s as [|c s]; [done|]. destruct (c =? 45) eqn:E45.
  - intros H. apply Hbody in H as (j & -> & -> & Hj).
    apply N.eqb_eq in E45 as ->. done.
  - intros H. apply (Hbody [] (c :: s)) in H as (j & -> & Hs & Hj).
    split; [done|]. cbn [app] in *. destruct j as [|c' j]; [done|].
    injection Hs as <- _. by rewrite E45.
Qed.

(** What may follow a fraction that was read to its end: no digit, and no
    dot. *)
Lemma scan_frac_spec s f r :
  scan_frac s = (f, r) ->
  s = f ++ r
  /\ (f = [] \/ exists d, f = 46 :: d /\ d <> [] /\ span_digits d = (d, [])).
Proof.
  unfold scan_frac. destruct s as [|c s]; [intros [= <- <-]; by split; [|left]|].
  destruct (c =? 46) eqn:E46; [|intros [= <- <-]; by split; [|left]].
  destruct (span_digits s) as [d r'] eqn:Ed.
  destruct d as [|c' d]; intros [= <- <-]; [by split; [|left]|].
  apply N.eqb_eq in E46 as ->. split.
  - by rewrite (span_digits_split _ _ _ Ed).
  - right. exists (c' :: d). split; [done|]. split; [done|].
    by apply (span_digits_self _ _ _ Ed).
Qed.

Lemma scan_exp_spec s e r :
  scan_exp s = (e, r) ->
  s = e ++ r
  /\ scan_exp e = (e, [])
  /\ (e = [] \/ exists c t, e = c :: t /\ (c = 101 \/ c = 69)).
Proof.
  unfold scan_exp. destruct s as [|c s]; [intros [= <- <-]; repeat split; auto|].
  destruct ((c =? 101) || (c =? 69)) eqn:Ec;
    [|intros [= <- <-]; repeat split; auto].
  assert (Hc : c = 101 \/ c = 69) by (bool_to_prop; auto).
  assert (Hsp : forall sign s1,
    match span_digits s1 with
    | ([], _) => ([], c :: s)
    | (d, r) => (c :: sign ++ d, r)
    end = (e, r) ->
    (exists d, d <> [] /\ span_digits d = (d, []) /\ e = c :: sign ++ d
               /\ s1 = d ++ r)
    \/ (e = [] /\ r = c :: s)).
  { intros sign s1. destruct (span_digits s1) as [d r'] eqn:Ed.
    destruct d as [|c' d]; intros [= <- <-]; [by right|]. left.
    exists (c' :: d). split; [done|]. split; [by apply (span_digits_self _ _ _ Ed)|].
    split; [done|]. by apply span_digits_split. }
  destruct s as [|c2 s].
  - intros H. apply (Hsp [] []) in H as [(d & Hd & Hsd & -> & Hs1)|[-> ->]].
    + by destruct d.
    + repeat split; auto.
  - destruct ((c2 =? 45) || (c2 =? 43)) eqn:Ec2; intros H.
    + apply (Hsp [c2] s) in H as [(d & Hd & Hsd & -> & ->)|[-> ->]].
      * split; [done|]. split; [|right; eauto].
        cbn [app]. rewrite Ec, Ec2, Hsd. by destruct d.
      * repeat split; auto.
    + apply (Hsp [] (c2 :: s)) in H as [(d & Hd & Hsd & -> & Hs1)|[-> ->]].
      * split; [cbn [app]; by rewrite Hs1|]. split; [|right; eauto].
        cbn [app]. rewrite Ec. destruct d as [|c' d]; [done|].
        cbn [app] in Hs1. injection Hs1 as <- _. by rewrite Ec2, Hsd.
      * repeat split; auto.
Qed.

Lemma match_number_self s l r :
  match_number s = Some (l, r) -> s = l ++ r /\ match_number l = Some (l, []).
Proof.
  unfold match_number.
  destruct (scan_int s) as [[i r1]|] eqn:Ei; [|done].
  destruct (scan_frac r1) as [f r2] eqn:Ef.
  destruct (scan_exp r2) as [e r3] eqn:Ee. intros [= <- <-].
  apply scan_int_spec in Ei as [-> Hi].
  apply scan_frac_spec in Ef as [-> Hf].
  apply scan_exp_spec in Ee as (-> & He & Hhead).
  split; [by rewrite <- !app_assoc|].
  assert (Hne : nondigit_head e).
  { destruct Hhead as [->|(c & t & -> & [->| ->])]; done. }
  rewrite (scan_int_app i (f ++ e) i [] Hi).
  2:{ intros _. destruct Hf as [->|(d & -> & _)]; done. }
  cbn [app].
  assert (Hfe : scan_frac (f ++ e) = (f, e)).
  { destruct Hf as [->|(d & -> & Hd & Hsd)].
    - cbn [app]. unfold scan_frac.
      destruct Hhead as [->|(c & t & -> & [->| ->])]; done.
    - unfold scan_frac. cbn [app]. change (46 =? 46) with true. cbv iota.
      rewrite (span_digits_app d e d [] Hsd) by done. by destruct d. }
  by rewrite Hfe, He.
Qed.

(** *** Values that [json.load] returns *)

Lemma skip_ws_scalar s : scalar_text s -> scalar_text (skip_ws s).
Proof.
  induction 1 as [|c s Hc Hs IH]; [constructor|].
  simpl. destruct (is_ws c); [done|by constructor].
Qed.

Lemma dict_set_ok k v d :
  member_ok (k, v) = true ->
  forallb member_ok d = true ->
  forallb member_ok (dict_set k v d) = true.
Proof.
  intros Hkv. induction d as [|[k0 v0] d IH]; simpl; intros Hd.
  - by rewrite Hkv.
  - apply andb_true_iff in Hd as [H0 Hd].
    destruct (decide (k0 = k)) as [->|Hne]; simpl.
    + by rewrite Hkv, Hd.
    + by rewrite H0, IH.
Qed.

Lemma dict_of_pairs_ok ms :
  forallb member_ok ms = true ->
  forallb member_ok (dict_of_pairs ms) = true
  /\ NoDup (map fst (dict_of_pairs ms)).
Proof.
  unfold dict_of_pairs.
  assert (H : forall acc,
    forallb member_ok acc = true -> NoDup (dict_keys acc) ->
    forallb member_ok ms = true ->
    forallb member_ok (fold_left (fun d kv => dict_set kv.1 kv.2 d) ms acc) = true
    /\ NoDup (dict_keys (fold_left (fun d kv => dict_set kv.1 kv.2 d) ms acc))).
  { induction ms as [|[k v] ms IH]; intros acc Hacc Hnd Hms; [done|].
    simpl in Hms. apply andb_true_iff in Hms as [Hkv Hms].
    cbn [fold_left fst snd]. apply IH; [|by apply NoDup_dict_set|done].
    by apply dict_set_ok. }
  intros Hms. apply (H []); [done|constructor|done].
Qed.

Lemma json_ok_obj d :
  json_ok (JObj d) = true <-> forallb member_ok d = true /\ NoDup (dict_keys d).
Proof.
  cbn [json_ok]. rewrite andb_true_iff, bool_decide_eq_true. done.
Qed.

Lemma parsed_ok fuel :
  (forall s v r, scalar_text s -> scan_once fuel s = Parsed v r ->
                 json_ok v = true /\ scalar_text r)
  /\ (forall s vs r, scalar_text s -> array_items fuel s = Parsed vs r ->
                     forallb json_ok vs = true /\ scalar_text r)
  /\ (forall s ms r, scalar_text s -> object_members fuel s = Parsed ms r ->
                     forallb member_ok ms = true /\ scalar_text r).
Proof.
  induction fuel as [|fuel (IHs & IHa & IHo)]; [by repeat split|].
  split; [|split].
  - intros s v r Hs. rewrite scan_once_S. destruct s as [|c s]; [done|].
    pose proof (Forall_cons_1 _ _ _ Hs) as [_ Hs'].
    destruct (c =? 34).
    { destruct (scanstring s) as [[str r']|] eqn:E; [|done]. intros [= <- <-].
      by destruct (scanstring_ok _ _ _ _ (le_n _) Hs' E) as (? & ? & _). }
    destruct (c =? 123).
    { pose proof (skip_ws_scalar s Hs') as Hw.
      destruct (skip_ws s) as [|c1 r1]; [done|].
      apply Forall_cons in Hw as [_ Hw].
      destruct (c1 =? 125); [by intros [= <- <-]|].
      destruct (c1 =? 34); [|done].
      destruct (object_members fuel r1) as [ms r'| |] eqn:E; try done.
      intros [= <- <-]. destruct (IHo _ _ _ Hw E) as [Hms Hr].
      split; [|done]. apply json_ok_obj. by apply dict_of_pairs_ok. }
    destruct (c =? 91).
    { pose proof (skip_ws_scalar s Hs') as Hw.
      destruct (skip_ws s) as [|c1 r1] eqn:Ew; [done|].
      destruct (c1 =? 93);
        [intros [= <- <-]; by apply Forall_cons in Hw as [_ Hw]|].
      destruct (array_items fuel (c1 :: r1)) as [vs r'| |] eqn:E; try done.
      intros [= <- <-]. by destruct (IHa _ _ _ Hw E) as [Hvs Hr]. }
    destruct (starts_with _ _); [intros [= <- <-]; split; [done|by apply Forall_drop]|].
    destruct (starts_with _ _); [intros [= <- <-]; split; [done|by apply Forall_drop]|].
    destruct (starts_with _ _); [intros [= <- <-]; split; [done|by apply Forall_drop]|].
    destruct (match_number (c :: s)) as [[lit r']|] eqn:E.
    { intros [= <- <-]. apply match_number_self in E as [Hsplit Hself].
      split.
      - cbn [json_ok]. unfold num_ok. apply orb_true_iff. left.
        by apply bool_decide_eq_true.
      - rewrite Hsplit in Hs. by apply Forall_app in Hs as [_ ?]. }
    destruct (starts_with _ _); [intros [= <- <-]; split; [done|by apply Forall_drop]|].
    destruct (starts_with _ _); [intros [= <- <-]; split; [done|by apply Forall_drop]|].
    destruct (starts_with _ _); [intros [= <- <-]; split; [done|by apply Forall_drop]|].
    done.
  - intros s vs r Hs. rewrite array_items_S.
    destruct (scan_once fuel s) as [v r1| |] eqn:E; try done.
    destruct (IHs _ _ _ Hs E) as [Hv Hr1].
    pose proof (skip_ws_scalar r1 Hr1) as Hw.
    destruct (skip_ws r1) as [|c r2]; [done|].
    apply Forall_cons in Hw as [_ Hw].
    destruct (c =? 93); [intros [= <- <-]; simpl; by rewrite Hv|].
    destruct (c =? 44); [|done].
    destruct (array_items fuel (skip_ws r2)) as [vs' r3| |] eqn:E2; try done.
    intros [= <- <-].
    destruct (IHa _ _ _ (skip_ws_scalar _ Hw) E2) as [Hvs Hr3].
    simpl. by rewrite Hv, Hvs.
  - intros s ms r Hs. rewrite object_members_S.
    destruct (scanstring s) as [[key r1]|] eqn:Ek; [|done].
    destruct (scanstring_ok _ _ _ _ (le_n _) Hs Ek) as (Hkey & Hr1 & _).
    pose proof (skip_ws_scalar r1 Hr1) as Hw.
    destruct (skip_ws r1) as [|c r2]; [done|].
    apply Forall_cons in Hw as [_ Hw].
    destruct (c =? 58); [|done].
    destruct (scan_once fuel (skip_ws r2)) as [v r3| |] eqn:E; try done.
    destruct (IHs _ _ _ (skip_ws_scalar _ Hw) E) as [Hv Hr3].
    pose proof (skip_ws_scalar r3 Hr3) as Hw3.
    destruct (skip_ws r3) as [|c2 r4]; [done|].
    apply Forall_cons in Hw3 as [_ Hw3].
    assert (Hkv : member_ok (key, v) = true).
    { unfold member_ok. simpl. by rewrite Hkey, Hv. }
    destruct (c2 =? 125); [intros [= <- <-]; simpl; by rewrite Hkv|].
    destruct (c2 =? 44); [|done].
    pose proof (skip_ws_scalar r4 Hw3) as Hw4.
    destruct (skip_ws r4) as [|q r5]; [done|].
    apply Forall_cons in Hw4 as [_ Hw4].
    destruct (q =? 34); [|done].
    destruct (object_members fuel r5) as [ms' r6| |] eqn:E2; try done.
    intros [= <- <-]. destruct (IHo _ _ _ Hw4 E2) as [Hms Hr6].
    simpl. by rewrite Hkv, Hms.
Qed.

(** What [json.load] returns is a value the recorder can hold. *)
Lemma json_load_ok data v : json_load data = Ok v -> json_ok v = true.
Proof.
  unfold json_load, json_loads.
  destruct (utf8_decode data) as [text|] eqn:Ed; [|done].
  apply (utf8_decode_scalar _ _ _ (le_n _)) in Ed.
  destruct (starts_with [65279] text); [done|].
  destruct (scan_once _ _) as [v' r| |] eqn:E; try done.
  destruct (skip_ws r); [|done]. intros [= <-].
  by destruct (proj1 (parsed_ok _) _ _ _ (skip_ws_scalar _ Ed) E).
Qed.

(** *** Records built by the recorder *)

Lemma ascii_str_ok s : ascii_text s -> str_ok s = true.
Proof.
  induction 1 as [|c s Hc Hs IH]; [done|].
  apply str_ok_cons; [lia| |done].
  unfold is_high_surrogate. intros H. bool_to_prop. lia.
Qed.

Lemma hexlify_ascii bs : ascii_text (hexlify bs).
Proof.
  induction bs as [|b bs IH]; [constructor|]. cbn [hexlify].
  repeat constructor; try (apply hexdigit_ascii, N.mod_lt; lia). exact IH.
Qed.

Lemma dict_get_ok k x d :
  forallb member_ok d = true -> dict_get k d = Some x -> member_ok (k, x) = true.
Proof.
  induction d as [|[k0 v0] d IH]; [done|]. simpl. intros Hd.
  apply andb_true_iff in Hd as [H0 Hd].
  destruct (decide (k0 = k)) as [->|Hne]; [by intros [= <-]|]. by apply IH.
Qed.

Lemma json_ok_dict_set k v d :
  str_ok k = true -> json_ok v = true -> json_ok (JObj d) = true ->
  json_ok (JObj (dict_set k v d)) = true.
Proof.
  intros Hk Hv Hd. apply json_ok_obj in Hd as [Hd Hnd]. apply json_ok_obj. split.
  - apply dict_set_ok; [|done]. unfold member_ok. simpl. by rewrite Hk, Hv.
  - by apply NoDup_dict_set.
Qed.

Lemma fresh_data_ok ap now :
  str_ok ap = true -> str_ok now = true -> json_ok (fresh_data ap now) = true.
Proof.
  intros Hap Hnow. unfold fresh_data. apply json_ok_obj. split.
  - cbn [forallb]. unfold member_ok. cbn [fst snd json_ok].
    rewrite Hap, Hnow. reflexivity.
  - refine (bool_decide_unpack _ _). vm_compute. exact I.
Qed.

Lemma build_step_ok command now version :
  str_ok command = true -> str_ok now = true ->
  (forall v, version = Some v -> str_ok v = true) ->
  json_ok (JObj (build_step command now version)) = true.
Proof.
  intros Hc Hnow Hv.
  assert (Hbase : json_ok (JObj [(py "command", JStr command);
                                 (py "executed_at", JStr now)]) = true).
  { apply json_ok_obj. split.
    - cbn [forallb]. unfold member_ok. cbn [fst snd json_ok].
      rewrite Hc, Hnow. reflexivity.
    - refine (bool_decide_unpack _ _). vm_compute. exact I. }
  unfold build_step. destruct version as [v|]; [|done].
  destruct (truthy v); [|done].
  apply json_ok_dict_set; [reflexivity| |done]. cbn [json_ok]. by apply Hv.
Qed.

Lemma hash_result_ok algorithm digest data :
  str_ok algorithm = true -> json_ok (hash_result algorithm digest data) = true.
Proof.
  intros Ha. rewrite hash_result_hexlify. apply json_ok_obj. split.
  - cbn [forallb]. unfold member_ok. cbn [fst snd json_ok].
    rewrite Ha, (ascii_str_ok _ (hexlify_ascii _)). reflexivity.
  - refine (bool_decide_unpack _ _). vm_compute. exact I.
Qed.

Lemma init_ok ap pf w self w' :
  __init__ ap pf w = (Ok self, w') ->
  str_ok ap = true -> str_ok (clock w (ticks w) ++ py "Z") = true ->
  json_ok (provenance_data self) = true
  /\ clock w' = clock w /\ ticks w' = S (ticks w).
Proof.
  unfold __init__, load_existing_provenance, utcnow_iso_z.
  intros H Hap Hnow. cbv zeta beta iota in H.
  destruct (path_exists _ _).
  - match type of H with context [match ?b with Ok _ => _ | Raise _ => _ end] =>
      destruct b as [v|e] eqn:E end.
    + injection H as <- <-. split; [|done]. cbn [provenance_data set_data].
      unfold open_read in E. simpl in E.
      destruct (fs w !! pf) as [[data|]|]; try done. by apply json_load_ok in E.
    + destruct (load_handles e); [|done]. injection H as <- <-.
      split; [|done]. by apply fresh_data_ok.
  - injection H as <- <-. split; [|done]. by apply fresh_data_ok.
Qed.

Lemma add_build_step_ok self command version w self' w' :
  add_build_step self command version w = (Ok tt, self', w') ->
  json_ok (provenance_data self) = true ->
  str_ok command = true ->
  (forall v, version = Some v -> str_ok v = true) ->
  str_ok (clock w (ticks w) ++ py "Z") = true ->
  json_ok (provenance_data self') = true
  /\ clock w' = clock w /\ ticks w' = S (ticks w).
Proof.
  unfold add_build_step, utcnow_iso_z, mutate_item.
  intros H Hd Hc Hv Hnow. cbv zeta beta iota in H.
  destruct (provenance_data self) as [| | | | |d] eqn:Ed; try done.
  destruct (dict_get (py "build_steps") d) as [x|] eqn:Ex; [|done].
  destruct x as [| | | |l|]; try done. cbn [append] in H.
  injection H as <- <-. split; [|done]. cbn [provenance_data set_data].
  pose proof Hd as Hd'. apply json_ok_obj in Hd' as [Hms _].
  pose proof (dict_get_ok _ _ _ Hms Ex) as Hl.
  unfold member_ok in Hl. cbn [fst snd json_ok] in Hl.
  apply andb_true_iff in Hl as [_ Hl].
  apply json_ok_dict_set; [reflexivity| |done].
  cbn [json_ok]. rewrite forallb_app, Hl. cbn [forallb].
  by rewrite build_step_ok.
Qed.

Lemma save_provenance_Ok_inv self w self' w' :
  save_provenance self w = (Ok tt, self', w') ->
  self' = self
  /\ fs w' = <[provenance_file self := File (json_dumps (provenance_data self))]>
               (fs w).
Proof.
  unfold save_provenance, open_write.
  destruct (fs w !! provenance_file self) as [[|]|];
    [| |destruct (denied w (provenance_file self))]; by intros [= <- <-].
Qed.

Section SavedRecords.

Variable hashlib_new : list N -> option (list N -> list N).

(** Every record that a run saves is well formed, when the strings given
    on the command line and the clock readings are. *)
Lemma main_saves_ok (a : args) (w : world) (self' : recorder) (w' : world) :
  main_body hashlib_new a w = (Ok self', w') ->
  str_ok (arg_artifact_path a) = true ->
  (forall c, arg_command a = Some c -> str_ok c = true) ->
  (forall v, arg_version a = Some v -> str_ok v = true) ->
  str_ok (arg_hash_algorithm a) = true ->
  (forall n, str_ok (clock w n ++ py "Z") = true) ->
  json_ok (provenance_data self') = true
  /\ provenance_file self' = arg_provenance_file a
  /\ fs w' !! arg_provenance_file a
     = Some (File (json_dumps (provenance_data self'))).
Proof.
  intros H Hap Hc Hv Halg Hclock.
  apply main_body_Ok_inv in H
    as (self0 & w0 & self1 & w1 & self2 & w2 & _ & E0 & E1 & E2 & E3).
  pose proof (init_paths _ _ _ _ _ E0) as [_ P0].
  pose proof (first_step_paths _ _ _ _ _ _ E1) as [_ P1].
  destruct (init_ok _ _ _ _ _ E0 Hap (Hclock _)) as (Hok0 & Hc0 & Ht0).
  assert (Hok1 : json_ok (provenance_data self1) = true).
  { unfold first_step, skip in E1. destruct (arg_command a) as [c|] eqn:Ec.
    - cbn [truthy_opt default] in E1. destruct (truthy c).
      + eapply add_build_step_ok; [exact E1|done|by apply Hc|done|].
        rewrite Hc0. apply Hclock.
      + by injection E1 as <- <-.
    - by injection E1 as <- <-. }
  apply calculate_hash_Ok_inv in E2 as (g & data & d & _ & _ & Ed & -> & _).
  apply save_provenance_Ok_inv in E3 as [-> Hfs].
  cbn [provenance_data provenance_file set_data] in *.
  split; [|split].
  - apply json_ok_dict_set; [reflexivity|by apply hash_result_ok|].
    by rewrite <- Ed.
  - congruence.
  - rewrite Hfs, P1, P0. apply lookup_insert_eq.
Qed.

(** So the next run loads exactly the record that this run saved. *)
Lemma next_run_loads (a : args) (w : world) (self' : recorder) (w' : world)
    (ap : list N) :
  main_body hashlib_new a w = (Ok self', w') ->
  str_ok (arg_artifact_path a) = true ->
  (forall c, arg_command a = Some c -> str_ok c = true) ->
  (forall v, arg_version a = Some v -> str_ok v = true) ->
  str_ok (arg_hash_algorithm a) = true ->
  (forall n, str_ok (clock w n ++ py "Z") = true) ->
  __init__ ap (arg_provenance_file a) w'
  = (Ok {| artifact_path := ap;
           provenance_file := arg_provenance_file a;
           provenance_data := provenance_data self' |},
     (utcnow_iso_z w').2).
Proof.
  intros H Hap Hc Hv Halg Hclock.
  destruct (main_saves_ok a w self' w' H Hap Hc Hv Halg Hclock) as (Hok & _ & Hfs).
  apply (init_loaded ap _ w' _ _ Hfs). by apply json_load_dumps.
Qed.

End SavedRecords.

(** ** Whole runs *)

Section Runs.

Variable hashlib_new : list N -> option (list N -> list N).

Lemma main_0_inv a w w' :
  main hashlib_new a w = (0%nat, w') ->
  exists self', main_body hashlib_new a w = (Ok self', w').
Proof.
  unfold main. destruct (main_body hashlib_new a w) as [[self'|e] w0].
  - intros [= <-]. by exists self'.
  - by destruct e.
Qed.

Lemma init_Ok_inv ap pf w self0 w0 :
  __init__ ap pf w = (Ok self0, w0) ->
  artifact_path self0 = ap /\ provenance_file self0 = pf
  /\ fs w0 = fs w /\ clock w0 = clock w /\ ticks w0 = S (ticks w)
  /\ ((fs w !! pf = None
       /\ provenance_data self0 = fresh_data ap (clock w (ticks w) ++ py "Z")
       /\ log w0 = log w)
      \/ (exists pdata, fs w !! pf = Some (File pdata)
          /\ json_load pdata = Raise JSONDecodeError
          /\ provenance_data self0 = fresh_data ap (clock w (ticks w) ++ py "Z")
          /\ log w0 = log w ++ [(WARNING,
               "Could not load existing provenance file. Starting fresh."%string)])
      \/ (exists pdata, fs w !! pf = Some (File pdata)
          /\ json_load pdata = Ok (provenance_data self0)
          /\ log w0 = log w)).
Proof.
  intros E. destruct (fs w !! pf) as [[pdata|]|] eqn:Ep.
  - destruct (json_load pdata) as [v|e] eqn:Ev.
    + rewrite (init_loaded _ _ _ _ _ Ep Ev) in E. injection E as <- <-.
      repeat split; try done. right. right. by exists pdata.
    + destruct (json_load_Raise _ _ Ev) as [->| ->].
      * unfold json_load in Ev. destruct (utf8_decode pdata) eqn:Eu.
        -- by apply json_loads_Raise in Ev.
        -- by rewrite (init_undecodable _ _ _ _ Ep Eu) in E.
      * rewrite (init_malformed _ _ _ _ Ep Ev) in E. injection E as <- <-.
        repeat split; try done. right. left. by exists pdata.
  - by rewrite (init_directory _ _ _ Ep) in E.
  - rewrite (init_absent _ _ _ Ep) in E. injection E as <- <-.
    repeat split; try done. by left.
Qed.


(** The first step of a run: nothing without a command, one appended
    step with one. *)
Lemma first_step_Ok_inv a self w self1 w1 :
  first_step a self w = (Ok tt, self1, w1) ->
  (truthy_opt (arg_command a) = false /\ self1 = self /\ w1 = w)
  \/ (exists c d old,
        arg_command a = Some c /\ truthy c = true
        /\ provenance_data self = JObj d
        /\ dict_get (py "build_steps") d = Some (JArr old)
        /\ self1 = set_data self
             (JObj (dict_set (py "build_steps")
                (JArr (old ++ [JObj (build_step c (clock w (ticks w) ++ py "Z")
                                               (arg_version a))])) d))
        /\ w1 = logging INFO "Added build step" (utcnow_iso_z w).2).
Proof.
  unfold first_step, skip.
  destruct (arg_command a) as [c|] eqn:Ec; cbn [truthy_opt default].
  - destruct (truthy c) eqn:Ht.
    + intros H. right. pose proof H as H'.
      unfold add_build_step, utcnow_iso_z, mutate_item in H'.
      cbv zeta beta iota in H'.
      destruct (provenance_data self) as [| | | | |d] eqn:Ed; try done.
      destruct (dict_get (py "build_steps") d) as [x|] eqn:Eb; [|done].
      destruct x as [| | | |old|]; try done. clear H'.
      rewrite (add_build_step_Ok _ _ _ _ d old Ed Eb) in H.
      injection H as <- <-. by exists c, d, old.
    + intros [= <- <-]. by left.
  - intros [= <- <-]. by left.
Qed.

Lemma first_step_Ok a self w d :
  provenance_data self = JObj d ->
  (truthy_opt (arg_command a) = true ->
   exists old, dict_get (py "build_steps") d = Some (JArr old)) ->
  exists self1 w1, first_step a self w = (Ok tt, self1, w1).
Proof.
  intros Ed Hc. unfold first_step, skip.
  destruct (truthy_opt (arg_command a)); [|by eauto].
  destruct Hc as [old Eb]; [done|].
  rewrite (add_build_step_Ok _ _ _ _ d old Ed Eb). by eauto.
Qed.

(** No stage changes where files can be created. *)
Lemma init_denied ap pf w r w' : __init__ ap pf w = (r, w') -> denied w' = denied w.
Proof.
  unfold __init__, load_existing_provenance. simpl.
  destruct (path_exists _ _); [|by intros [= <- <-]].
  match goal with |- context [match ?b with Ok _ => _ | Raise _ => _ end] =>
    destruct b as [v|e] end; [by intros [= <- <-]|].
  destruct (load_handles e); by intros [= <- <-].
Qed.

Lemma first_step_denied a self w r self' w' :
  first_step a self w = (r, self', w') -> denied w' = denied w.
Proof.
  unfold first_step, skip, add_build_step. simpl. destruct (truthy_opt _).
  - destruct (mutate_item _ _ _); by intros [= <- <- <-].
  - by intros [= <- <- <-].
Qed.

Lemma calculate_hash_denied self algorithm w r self' w' :
  calculate_hash hashlib_new self algorithm w = (r, self', w') ->
  denied w' = denied w.
Proof.
  destruct r as [[]|e]; intros H.
  - apply calculate_hash_Ok_inv in H as (? & ? & ? & _ & _ & _ & _ & ->). done.
  - apply calculate_hash_Raise in H as [_ [msg ->]]. done.
Qed.

Lemma save_provenance_Ok_needs self w self' w' :
  save_provenance self w = (Ok tt, self', w') ->
  fs w !! provenance_file self <> Some Dir
  /\ (fs w !! provenance_file self = None -> denied w (provenance_file self) = None).
Proof.
  unfold save_provenance, open_write.
  destruct (fs w !! provenance_file self) as [[|]|]; [done|done|].
  destruct (denied w (provenance_file self)); [done|]. by split.
Qed.

(** In the model, a run succeeds exactly when the artifact is a regular
    file, the algorithm is known, and the provenance file is absent from a
    place where it can be created, or is text that is not JSON, or holds a
    dict (with a list of steps, if a step is to be added). *)
Lemma main_body_Ok_iff a w :
  (exists self' w', main_body hashlib_new a w = (Ok self', w'))
  <-> (exists adata, fs w !! arg_artifact_path a = Some (File adata))
      /\ (exists digest, hashlib_new (arg_hash_algorithm a) = Some digest)
      /\ (fs w !! arg_provenance_file a = None
          /\ denied w (arg_provenance_file a) = None
          \/ exists pdata,
               fs w !! arg_provenance_file a = Some (File pdata)
               /\ (json_load pdata = Raise JSONDecodeError
                   \/ exists d,
                        json_load pdata = Ok (JObj d)
                        /\ (truthy_opt (arg_command a) = true ->
                            exists old,
                              dict_get (py "build_steps") d = Some (JArr old)))).
Proof.
  split.
  - intros (self' & w' & E).
    apply main_body_Ok_inv in E
      as (self0 & w0 & self1 & w1 & self2 & w2 & _ & E0 & E1 & E2 & E3).
    pose proof (init_denied _ _ _ _ _ E0) as D0.
    pose proof (init_Ok_inv _ _ _ _ _ E0) as (P0 & P0' & F0 & _ & _ & Hload).
    pose proof (first_step_fs _ _ _ _ _ _ E1) as F1.
    pose proof (first_step_denied _ _ _ _ _ _ E1) as D1.
    pose proof (first_step_paths _ _ _ _ _ _ E1) as [P1 P1'].
    pose proof (calculate_hash_fs _ _ _ _ _ _ _ E2) as F2.
    pose proof (calculate_hash_denied _ _ _ _ _ _ E2) as D2.
    apply save_provenance_Ok_needs in E3 as [_ Hnew].
    apply calculate_hash_Ok_inv in E2 as (g & adata & d2 & Eg & Ea & Ed2 & -> & _).
    cbn [provenance_file set_data] in Hnew.
    rewrite P1', P0', F2, F1, F0, D2, D1, D0 in Hnew.
    split; [exists adata; congruence|]. split; [by exists g|].
    destruct Hload as [(Ep & _)|[(pdata & Ep & Ev & _)|(pdata & Ep & Ev & _)]].
    + left. split; [done|]. by apply Hnew.
    + right. exists pdata. split; [done|]. by left.
    + right. exists pdata. split; [done|]. right.
      apply first_step_Ok_inv in E1
        as [(Hc & -> & ->)|(c & d & old & Ec & Ht & Ed & Eb & _)].
      * exists d2. rewrite Ev, Ed2. split; [done|]. by rewrite Hc.
      * exists d. rewrite Ev, Ed. split; [done|]. intros _. by exists old.
  - intros ((adata & Ea) & (g & Eg) & Hp).
    assert (exists self0 w0 d0,
      __init__ (arg_artifact_path a) (arg_provenance_file a) w = (Ok self0, w0)
      /\ provenance_data self0 = JObj d0
      /\ (truthy_opt (arg_command a) = true ->
          exists old, dict_get (py "build_steps") d0 = Some (JArr old))
      /\ fs w !! arg_provenance_file a <> Some Dir
      /\ (fs w !! arg_provenance_file a = None ->
          denied w (arg_provenance_file a) = None))
      as (self0 & w0 & d0 & E0 & Ed0 & Hc & Hnd & Hnew).
    { destruct Hp as [[Ep Hd]|(pdata & Ep & [Ev|(d & Ev & Hc)])].
      - eexists _, _, _. split; [by apply init_absent|]. split; [reflexivity|].
        split; [|split; [congruence|done]]. intros _. by exists [].
      - eexists _, _, _. split; [by eapply init_malformed|]. split; [reflexivity|].
        split; [|split; congruence]. intros _. by exists [].
      - eexists _, _, _. split; [by eapply init_loaded|]. split; [reflexivity|].
        split; [done|split; congruence]. }
    pose proof (init_denied _ _ _ _ _ E0) as D0.
    pose proof (init_Ok_inv _ _ _ _ _ E0) as (P0 & P0' & F0 & _).
    destruct (first_step_Ok a self0 w0 d0 Ed0 Hc) as (self1 & w1 & E1).
    pose proof (first_step_fs _ _ _ _ _ _ E1) as F1.
    pose proof (first_step_denied _ _ _ _ _ _ E1) as D1.
    pose proof (first_step_paths _ _ _ _ _ _ E1) as [P1 P1'].
    assert (exists d1, provenance_data self1 = JObj d1) as [d1 Ed1].
    { apply first_step_Ok_inv in E1 as [(_ & -> & _)|(c & d & old & _ & _ & _ & _ & -> & _)];
        by eauto. }
    rewrite main_body_unfold. unfold path_exists. rewrite Ea. cbn [negb].
    rewrite E0, E1.
    rewrite (calculate_hash_Ok _ _ _ _ g adata d1) by (congruence || done).
    rewrite save_provenance_Ok; [by eauto| |]; simpl; rewrite P1', P0', F1, F0.
    + done.
    + by rewrite D1, D0.
Qed.


Lemma save_provenance_Ok_world self w self' w' :
  save_provenance self w = (Ok tt, self', w') ->
  self' = self
  /\ w' = logging INFO "Provenance data saved"
            (set_fs w (<[provenance_file self
                         := File (json_dumps (provenance_data self))]> (fs w))).
Proof.
  unfold save_provenance, open_write.
  destruct (fs w !! provenance_file self) as [[|]|];
    [| |destruct (denied w (provenance_file self))]; by intros [= <- <-].
Qed.

(** *** The log only grows *)

Lemma load_existing_provenance_log self w r self' w' :
  load_existing_provenance self w = (r, self', w') ->
  exists l, log w' = log w ++ l.
Proof.
  unfold load_existing_provenance.
  destruct (path_exists _ _); [|intros [= <- <- <-]; exists []; by rewrite app_nil_r].
  match goal with |- context [match ?b with Ok _ => _ | Raise _ => _ end] =>
    destruct b as [v|e] end.
  - intros [= <- <- <-]. exists []. by rewrite app_nil_r.
  - destruct (load_handles e); intros [= <- <- <-].
    + by eexists.
    + exists []. by rewrite app_nil_r.
Qed.

Lemma init_log ap pf w r w' :
  __init__ ap pf w = (r, w') -> exists l, log w' = log w ++ l.
Proof.
  unfold __init__. simpl.
  match goal with |- context [load_existing_provenance ?s ?w0] =>
    destruct (load_existing_provenance s w0) as [[[u|e] s'] w0'] eqn:E end;
    intros [= <- <-]; by apply load_existing_provenance_log in E.
Qed.

Lemma first_step_log a self w r self' w' :
  first_step a self w = (r, self', w') -> exists l, log w' = log w ++ l.
Proof.
  unfold first_step, skip, add_build_step. simpl. destruct (truthy_opt _).
  - destruct (mutate_item _ _ _); intros [= <- <- <-]; by eexists.
  - intros [= <- <- <-]. exists []. by rewrite app_nil_r.
Qed.

Lemma calculate_hash_log self algorithm w r self' w' :
  calculate_hash hashlib_new self algorithm w = (r, self', w') ->
  exists l, log w' = log w ++ l.
Proof.
  destruct r as [[]|e]; intros H.
  - apply calculate_hash_Ok_inv in H as (? & ? & ? & _ & _ & _ & _ & ->). by eexists.
  - apply calculate_hash_Raise in H as [_ [msg ->]]. by eexists.
Qed.

Lemma save_provenance_log self w r self' w' :
  save_provenance self w = (r, self', w') -> exists l, log w' = log w ++ l.
Proof.
  unfold save_provenance, open_write.
  destruct (fs w !! provenance_file self) as [[|]|];
    [| |destruct (denied w (provenance_file self))];
    intros [= <- <- <-]; by eexists.
Qed.

Lemma log_grows_trans (l0 l1 l2 : list (level * string)) :
  (exists l, l1 = l0 ++ l) -> (exists l, l2 = l1 ++ l) -> exists l, l2 = l0 ++ l.
Proof. intros [a ->] [b ->]. exists (a ++ b). by rewrite app_assoc. Qed.

Lemma main_body_log a w r w' :
  main_body hashlib_new a w = (r, w') -> exists l, log w' = log w ++ l.
Proof.
  rewrite main_body_unfold.
  destruct (negb _); [intros [= <- <-]; exists []; by rewrite app_nil_r|].
  destruct (__init__ _ _ _) as [[self0|e0] w0] eqn:E0;
    apply init_log in E0; [|by intros [= <- <-]].
  destruct (first_step _ _ _) as [[[[]|e1] self1] w1] eqn:E1;
    apply first_step_log in E1;
    pose proof (log_grows_trans _ _ _ E0 E1) as G1; [|by intros [= <- <-]].
  destruct (calculate_hash _ _ _ _) as [[[[]|e2] self2] w2] eqn:E2;
    apply calculate_hash_log in E2;
    pose proof (log_grows_trans _ _ _ G1 E2) as G2; [|by intros [= <- <-]].
  destruct (save_provenance _ _) as [[[[]|e3] self3] w3] eqn:E3;
    apply save_provenance_log in E3;
    pose proof (log_grows_trans _ _ _ G2 E3) as G3; by intros [= <- <-].
Qed.


(** *** What a successful run leaves *)

Lemma main_body_Ok_result a w self' w' :
  main_body hashlib_new a w = (Ok self', w') ->
  exists self0 w0 self1 w1 d1 adata digest,
    __init__ (arg_artifact_path a) (arg_provenance_file a) w = (Ok self0, w0)
    /\ first_step a self0 w0 = (Ok tt, self1, w1)
    /\ provenance_data self1 = JObj d1
    /\ fs w !! arg_artifact_path a = Some (File adata)
    /\ hashlib_new (arg_hash_algorithm a) = Some digest
    /\ self' = {| artifact_path := arg_artifact_path a;
                  provenance_file := arg_provenance_file a;
                  provenance_data :=
                    JObj (dict_set (py "artifact_hash")
                            (hash_result (arg_hash_algorithm a) digest adata) d1) |}
    /\ fs w' = <[arg_provenance_file a := File (json_dumps (provenance_data self'))]>
                 (fs w)
    /\ clock w' = clock w1 /\ ticks w' = ticks w1
    /\ log w' = log w1 ++ [(INFO, "Calculated hash"%string);
                           (INFO, "Provenance data saved"%string)].
Proof.
  intros E.
  apply main_body_Ok_inv in E
    as (self0 & w0 & self1 & w1 & self2 & w2 & _ & E0 & E1 & E2 & E3).
  pose proof (init_Ok_inv _ _ _ _ _ E0) as (P0 & P0' & F0 & _).
  pose proof (first_step_fs _ _ _ _ _ _ E1) as F1.
  pose proof (first_step_paths _ _ _ _ _ _ E1) as [P1 P1'].
  apply calculate_hash_Ok_inv in E2 as (g & adata & d1 & Eg & Ea & Ed1 & -> & ->).
  apply save_provenance_Ok_world in E3 as [-> ->].
  exists self0, w0, self1, w1, d1, adata, g.
  split; [done|]. split; [done|]. split; [done|]. split; [congruence|].
  split; [done|]. split.
  { unfold set_data. f_equal; congruence. }
  split.
  { cbn [fs logging set_fs provenance_file provenance_data set_data].
    by rewrite P1', P0', F1, F0. }
  split; [done|]. split; [done|].
  cbn [log logging set_fs]. by rewrite <- app_assoc.
Qed.

(** A run that starts from the fresh record of [__init__]. *)
Lemma main_fresh a w w0 adata digest :
  fs w !! arg_artifact_path a = Some (File adata) ->
  hashlib_new (arg_hash_algorithm a) = Some digest ->
  __init__ (arg_artifact_path a) (arg_provenance_file a) w
  = (Ok {| artifact_path := arg_artifact_path a;
           provenance_file := arg_provenance_file a;
           provenance_data :=
             fresh_data (arg_artifact_path a) (clock w (ticks w) ++ py "Z") |}, w0) ->
  (fs w !! arg_provenance_file a = None ->
   denied w (arg_provenance_file a) = None) ->
  let steps :=
    match arg_command a with
    | Some c =>
        if truthy c
        then [JObj (build_step c (clock w (S (ticks w)) ++ py "Z") (arg_version a))]
        else []
    | None => []
    end in
  let record :=
    JObj [(py "artifact", JStr (arg_artifact_path a));
          (py "created_at", JStr (clock w (ticks w) ++ py "Z"));
          (py "build_steps", JArr steps);
          (py "artifact_hash",
           JObj [(py "algorithm", JStr (arg_hash_algorithm a));
                 (py "hash", JStr (hexlify (digest adata)))])] in
  exists w',
    main hashlib_new a w = (0%nat, w')
    /\ fs w' = <[arg_provenance_file a := File (json_dumps record)]> (fs w)
    /\ log w' = log w0
                ++ (if truthy_opt (arg_command a)
                    then [(INFO, "Added build step"%string)] else [])
                ++ [(INFO, "Calculated hash"%string);
                    (INFO, "Provenance data saved"%string)].
Proof.
  intros Ea Eg E0 Hnew steps record.
  pose proof (init_denied _ _ _ _ _ E0) as D0.
  pose proof (init_Ok_inv _ _ _ _ _ E0) as (_ & _ & F0 & C0 & T0 & Hload).
  assert (Hnd : fs w !! arg_provenance_file a <> Some Dir).
  { destruct Hload as [(Ep & _)|[(pdata & Ep & _)|(pdata & Ep & _)]]; congruence. }
  assert (Hset : forall st,
    dict_set (py "artifact_hash") (hash_result (arg_hash_algorithm a) digest adata)
      (dict_set (py "build_steps") (JArr st)
         [(py "artifact", JStr (arg_artifact_path a));
          (py "created_at", JStr (clock w (ticks w) ++ py "Z"));
          (py "build_steps", JArr []);
          (py "artifact_hash", JNull)])
    = [(py "artifact", JStr (arg_artifact_path a));
       (py "created_at", JStr (clock w (ticks w) ++ py "Z"));
       (py "build_steps", JArr st);
       (py "artifact_hash",
        JObj [(py "algorithm", JStr (arg_hash_algorithm a));
              (py "hash", JStr (hexlify (digest adata)))])]).
  { intros st. rewrite hash_result_hexlify. reflexivity. }
  unfold main. rewrite main_body_unfold. unfold path_exists. rewrite Ea.
  cbn [negb]. rewrite E0. unfold first_step, skip.
  destruct (arg_command a) as [c|] eqn:Ec; cbn [truthy_opt default];
    [destruct (truthy c) eqn:Ht|].
  - erewrite add_build_step_Ok; [|reflexivity|reflexivity].
    erewrite calculate_hash_Ok; [|exact Eg|simpl; rewrite F0; exact Ea|reflexivity].
    rewrite save_provenance_Ok;
      [|simpl; congruence|simpl; rewrite F0, D0; exact Hnew].
    eexists. split; [reflexivity|].
    cbn [fs log logging set_fs utcnow_iso_z snd provenance_file provenance_data
         set_data app].
    rewrite C0, T0, F0, Hset. split; [reflexivity|]. by rewrite <- !app_assoc.
  - erewrite calculate_hash_Ok; [|exact Eg|simpl; rewrite F0; exact Ea|reflexivity].
    rewrite save_provenance_Ok;
      [|simpl; congruence|simpl; rewrite F0, D0; exact Hnew].
    eexists. split; [reflexivity|].
    cbn [fs log logging set_fs provenance_file provenance_data set_data app].
    rewrite F0. split; [|by rewrite <- !app_assoc].
    subst record steps. rewrite <- (Hset []). reflexivity.
  - erewrite calculate_hash_Ok; [|exact Eg|simpl; rewrite F0; exact Ea|reflexivity].
    rewrite save_provenance_Ok;
      [|simpl; congruence|simpl; rewrite F0, D0; exact Hnew].
    eexists. split; [reflexivity|].
    cbn [fs log logging set_fs provenance_file provenance_data set_data app].
    rewrite F0. split; [|by rewrite <- !app_assoc].
    subst record steps. rewrite <- (Hset []). reflexivity.
Qed.

(** X1.  A first run.  With no provenance file yet, at a path where a file
    can be created, a run on an existing artifact with a known algorithm
    exits with status 0 and writes the record of this run alone: the
    artifact path as given, the first clock reading as [created_at], one
    step if a non-empty command was given and none otherwise, and the
    digest of the artifact.  Nothing else in the file system changes, and
    the log gains only INFO records. *)
Theorem first_run_record (a : args) (w : world) (adata : list N)
    (digest : list N -> list N) :
  fs w !! arg_artifact_path a = Some (File adata) ->
  fs w !! arg_provenance_file a = None ->
  denied w (arg_provenance_file a) = None ->
  hashlib_new (arg_hash_algorithm a) = Some digest ->
  let steps :=
    match arg_command a with
    | Some c =>
        if truthy c
        then [JObj (build_step c (clock w (S (ticks w)) ++ py "Z") (arg_version a))]
        else []
    | None => []
    end in
  let record :=
    JObj [(py "artifact", JStr (arg_artifact_path a));
          (py "created_at", JStr (clock w (ticks w) ++ py "Z"));
          (py "build_steps", JArr steps);
          (py "artifact_hash",
           JObj [(py "algorithm", JStr (arg_hash_algorithm a));
                 (py "hash", JStr (hexlify (digest adata)))])] in
  exists w',
    main hashlib_new a w = (0%nat, w')
    /\ fs w' = <[arg_provenance_file a := File (json_dumps record)]> (fs w)
    /\ log w' = log w
                ++ (if truthy_opt (arg_command a)
                    then [(INFO, "Added build step"%string)] else [])
                ++ [(INFO, "Calculated hash"%string);
                    (INFO, "Provenance data saved"%string)].
Proof.
  intros Ea Ep Hnew Eg.
  exact (main_fresh a w _ adata digest Ea Eg (init_absent _ _ _ Ep) (fun _ => Hnew)).
Qed.

(** X2.  A provenance file that is text but not JSON is lost.  The load logs
    one warning, the run goes on from a fresh record, exits with status 0
    and overwrites the file with the record of this run alone. *)
Theorem malformed_file_replaced (a : args) (w : world) (adata pdata : list N)
    (digest : list N -> list N) :
  fs w !! arg_artifact_path a = Some (File adata) ->
  fs w !! arg_provenance_file a = Some (File pdata) ->
  json_load pdata = Raise JSONDecodeError ->
  hashlib_new (arg_hash_algorithm a) = Some digest ->
  let steps :=
    match arg_command a with
    | Some c =>
        if truthy c
        then [JObj (build_step c (clock w (S (ticks w)) ++ py "Z") (arg_version a))]
        else []
    | None => []
    end in
  let record :=
    JObj [(py "artifact", JStr (arg_artifact_path a));
          (py "created_at", JStr (clock w (ticks w) ++ py "Z"));
          (py "build_steps", JArr steps);
          (py "artifact_hash",
           JObj [(py "algorithm", JStr (arg_hash_algorithm a));
                 (py "hash", JStr (hexlify (digest adata)))])] in
  exists w',
    main hashlib_new a w = (0%nat, w')
    /\ fs w' = <[arg_provenance_file a := File (json_dumps record)]> (fs w)
    /\ log w' = log w
                ++ [(WARNING,
                     "Could not load existing provenance file. Starting fresh."%string)]
                ++ (if truthy_opt (arg_command a)
                    then [(INFO, "Added build step"%string)] else [])
                ++ [(INFO, "Calculated hash"%string);
                    (INFO, "Provenance data saved"%string)].
Proof.
  intros Ea Ep Ev Eg steps record.
  destruct (main_fresh a w _ adata digest Ea Eg (init_malformed _ _ _ _ Ep Ev))
    as (w' & E & Hfs & Hlog); [congruence|].
  exists w'. split; [exact E|]. split; [exact Hfs|].
  rewrite Hlog. cbn [log logging utcnow_iso_z snd]. by rewrite <- app_assoc.
Qed.

(** X3.  What a successful run presupposes.  When [main], given the
    arguments that the parser delivered, ends with status 0, the artifact
    is a regular file, the algorithm is known, and the provenance file is
    absent from a place where it can be created, or is text that is not
    JSON, or holds a dict which, if a step is to be added, has a list
    under [build_steps].  So a directory at either path, a provenance path
    where no file can be created, bytes that are not UTF-8, a stored value
    that is not a dict, or a stored dict without a list of steps when a
    command is given, all keep the run from ending with status 0. *)
Theorem main_exit_status (a : args) (w : world) :
  (main hashlib_new a w).1 = 0%nat ->
  (exists adata, fs w !! arg_artifact_path a = Some (File adata))
  /\ (exists digest, hashlib_new (arg_hash_algorithm a) = Some digest)
  /\ (fs w !! arg_provenance_file a = None
      /\ denied w (arg_provenance_file a) = None
      \/ exists pdata,
           fs w !! arg_provenance_file a = Some (File pdata)
           /\ (json_load pdata = Raise JSONDecodeError
               \/ exists d,
                    json_load pdata = Ok (JObj d)
                    /\ (truthy_opt (arg_command a) = true ->
                        exists old,
                          dict_get (py "build_steps") d = Some (JArr old)))).
Proof.
  intros H. apply main_body_Ok_iff.
  destruct (main hashlib_new a w) as [n w'] eqn:E. simpl in H. subst n.
  apply main_0_inv in E as [self' E]. by eauto.
Qed.


(** X5.  The log and the exit status agree.  A run only appends to the log;
    with status 0 none of the records it appends is an error, and with
    status 1 the last record it appends is an error. *)
Theorem main_log_status (a : args) (w : world) :
  exists l,
    log (main hashlib_new a w).2 = log w ++ l
    /\ (((main hashlib_new a w).1 = 0%nat /\ Forall (fun r => r.1 <> ERROR) l)
        \/ ((main hashlib_new a w).1 = 1%nat
            /\ exists l0 msg, l = l0 ++ [(ERROR, msg)])).
Proof.
  destruct (main_body hashlib_new a w) as [[self'|e] w'] eqn:E.
  - rewrite (main_of_Ok _ _ _ _ _ E).
    apply main_body_Ok_result in E
      as (self0 & w0 & self1 & w1 & d1 & adata & g & E0 & E1 & _ & _ & _ & _
          & _ & _ & _ & Hlog).
    apply init_Ok_inv in E0 as (_ & _ & _ & _ & _ & Hload).
    assert (exists l0, log w0 = log w ++ l0 /\ Forall (fun r => r.1 <> ERROR) l0)
      as (l0 & L0 & N0).
    { destruct Hload as [(_ & _ & L)|[(? & _ & _ & _ & L)|(? & _ & _ & L)]].
      - exists []. by rewrite app_nil_r.
      - eexists. split; [exact L|]. by repeat constructor.
      - exists []. by rewrite app_nil_r. }
    assert (exists l1, log w1 = log w0 ++ l1 /\ Forall (fun r => r.1 <> ERROR) l1)
      as (l1 & L1 & N1).
    { apply first_step_Ok_inv in E1
        as [(_ & _ & ->)|(? & ? & ? & _ & _ & _ & _ & _ & ->)].
      - exists []. by rewrite app_nil_r.
      - eexists. split; [reflexivity|]. by repeat constructor. }
    eexists. split.
    + cbn [snd]. rewrite Hlog, L1, L0, <- !app_assoc. reflexivity.
    + left. split; [done|]. rewrite !Forall_app. by repeat constructor.
  - destruct (main_of_Raise _ _ _ _ _ E) as [msg ->].
    apply main_body_log in E as [l0 L0].
    exists (l0 ++ [(ERROR, msg)]). split.
    + cbn [snd log logging]. by rewrite L0, <- app_assoc.
    + right. split; [done|]. by eauto.
Qed.

(** X16.  A provenance file that cannot be created ends the run.  With no
    provenance file and a path where the system refuses to create one (its
    parent directory is missing, say), a run on an existing artifact with a
    known algorithm adds its step and computes the hash, fails in
    [save_provenance], which logs its error, and ends with status 1 after
    the error that [main] logs; nothing is written. *)
Theorem unwritable_provenance_path_aborts (a : args) (w : world)
    (adata : list N) (digest : list N -> list N) (e : exn) :
  fs w !! arg_artifact_path a = Some (File adata) ->
  hashlib_new (arg_hash_algorithm a) = Some digest ->
  fs w !! arg_provenance_file a = None ->
  denied w (arg_provenance_file a) = Some e ->
  exists w',
    main hashlib_new a w = (1%nat, w')
    /\ fs w' = fs w
    /\ log w' = log w
                ++ (if truthy_opt (arg_command a)
                    then [(INFO, "Added build step"%string)] else [])
                ++ [(INFO, "Calculated hash"%string);
                    (ERROR, "Error saving provenance data"%string);
                    (ERROR, match e with
                            | FileNotFoundError => "File not found"%string
                            | _ => "An error occurred"%string
                            end)].
Proof.
  intros Ea Eg Ep Hden.
  unfold main. rewrite main_body_unfold. unfold path_exists. rewrite Ea.
  cbn [negb]. rewrite (init_absent _ _ _ Ep). unfold first_step, skip.
  destruct (arg_command a) as [c|] eqn:Ec; cbn [truthy_opt default];
    [destruct (truthy c) eqn:Ht|].
  - erewrite add_build_step_Ok; [|reflexivity|reflexivity].
    erewrite calculate_hash_Ok; [|exact Eg|exact Ea|reflexivity].
    unfold save_provenance, open_write.
    cbn [fs denied logging set_fs utcnow_iso_z snd provenance_file set_data].
    rewrite Ep, Hden.
    destruct e; (eexists; split; [reflexivity|]; split; [reflexivity|]);
      cbn [log logging utcnow_iso_z snd app]; by rewrite <- !app_assoc.
  - erewrite calculate_hash_Ok; [|exact Eg|exact Ea|reflexivity].
    unfold save_provenance, open_write.
    cbn [fs denied logging set_fs utcnow_iso_z snd provenance_file set_data].
    rewrite Ep, Hden.
    destruct e; (eexists; split; [reflexivity|]; split; [reflexivity|]);
      cbn [log logging utcnow_iso_z snd app]; by rewrite <- !app_assoc.
  - erewrite calculate_hash_Ok; [|exact Eg|exact Ea|reflexivity].
    unfold save_provenance, open_write.
    cbn [fs denied logging set_fs utcnow_iso_z snd provenance_file set_data].
    rewrite Ep, Hden.
    destruct e; (eexists; split; [reflexivity|]; split; [reflexivity|]);
      cbn [log logging utcnow_iso_z snd app]; by rewrite <- !app_assoc.
Qed.

(** *** A run on a stored record *)

(** What a successful run on a provenance file that loads saves. *)
Lemma main_stored_result a w w' pdata v :
  main hashlib_new a w = (0%nat, w') ->
  fs w !! arg_provenance_file a = Some (File pdata) ->
  json_load pdata = Ok v ->
  exists d d1 adata digest,
    v = JObj d
    /\ fs w !! arg_artifact_path a = Some (File adata)
    /\ hashlib_new (arg_hash_algorithm a) = Some digest
    /\ ((truthy_opt (arg_command a) = false /\ d1 = d
         /\ clock w' = clock w /\ ticks w' = S (ticks w))
        \/ (exists c old,
              arg_command a = Some c /\ truthy c = true
              /\ dict_get (py "build_steps") d = Some (JArr old)
              /\ d1 = dict_set (py "build_steps")
                        (JArr (old ++ [JObj (build_step c
                                 (clock w (S (ticks w)) ++ py "Z")
                                 (arg_version a))])) d
              /\ clock w' = clock w /\ ticks w' = S (S (ticks w))))
    /\ fs w' = <[arg_provenance_file a
                 := File (json_dumps
                      (JObj (dict_set (py "artifact_hash")
                         (hash_result (arg_hash_algorithm a) digest adata) d1)))]>
                 (fs w).
Proof.
  intros E Ep Ev. apply main_0_inv in E as [self' E].
  apply main_body_Ok_result in E
    as (self0 & w0 & self1 & w1 & d1 & adata & g & E0 & E1 & Ed1 & Ea & Eg & ->
        & Hfs & Hc & Ht & _).
  rewrite (init_loaded _ _ _ _ _ Ep Ev) in E0. injection E0 as <- <-.
  apply first_step_Ok_inv in E1
    as [(Hcmd & -> & ->)|(c & d & old & Ec & Htr & Ed & Eb & -> & ->)].
  - simpl in Ed1. subst v. exists d1, d1, adata, g.
    split; [done|]. split; [done|]. split; [done|]. split; [|exact Hfs].
    left. by repeat split.
  - simpl in Ed. subst v. unfold set_data in Ed1. simpl in Ed1.
    injection Ed1 as <-. eexists d, _, adata, g.
    split; [done|]. split; [done|]. split; [done|]. split; [|exact Hfs].
    right. exists c, old. by repeat split.
Qed.

(** X6.  A run keeps what it does not know.  When the provenance file holds
    a dict without numbers, a successful run saves a dict with the same
    keys in the same order ([artifact_hash] is added at the end if it was
    missing), every entry other than [build_steps] and [artifact_hash] is
    the stored one, whatever its key, and without a command [build_steps]
    is the stored entry as well. *)
Theorem stored_entries_preserved (a : args) (w w' : world) (pdata : list N)
    (d : list (list N * json)) :
  main hashlib_new a w = (0%nat, w') ->
  fs w !! arg_provenance_file a = Some (File pdata) ->
  json_load pdata = Ok (JObj d) ->
  number_free (JObj d) = true ->
  exists d',
    fs w' !! arg_provenance_file a = Some (File (json_dumps (JObj d')))
    /\ dict_keys d'
       = match dict_get (py "artifact_hash") d with
         | Some _ => dict_keys d
         | None => dict_keys d ++ [py "artifact_hash"]
         end
    /\ (forall k, k <> py "build_steps" -> k <> py "artifact_hash" ->
        dict_get k d' = dict_get k d)
    /\ (truthy_opt (arg_command a) = false ->
        dict_get (py "build_steps") d' = dict_get (py "build_steps") d).
Proof.
  intros E Ep Ev _.
  destruct (main_stored_result _ _ _ _ _ E Ep Ev)
    as (d0 & d1 & adata & g & [= <-] & _ & _ & Hstep & Hfs).
  eexists. split; [rewrite Hfs; apply lookup_insert_eq|].
  destruct Hstep as [(Hcmd & -> & _)|(c & old & Ec & Ht & Eb & -> & _)].
  - split; [apply dict_keys_set|]. split.
    + intros k _ Hk. by apply dict_get_set_ne.
    + intros _. apply dict_get_set_ne. key_ne.
  - split; [|split].
    + rewrite dict_keys_set, dict_get_set_ne by key_ne.
      by rewrite dict_keys_set_present by (by rewrite Eb).
    + intros k Hk1 Hk2. by rewrite !dict_get_set_ne.
    + unfold truthy_opt. by rewrite Ec, Ht.
Qed.

(** X7.  The provenance path may be the artifact path, and nothing guards
    against it: a successful run then replaces the artifact by the text of
    the record, whose [artifact_hash] is the digest of the content that was
    there before. *)
Theorem same_path_overwrites_artifact (a : args) (w w' : world) :
  arg_provenance_file a = arg_artifact_path a ->
  main hashlib_new a w = (0%nat, w') ->
  exists adata digest d',
    fs w !! arg_artifact_path a = Some (File adata)
    /\ hashlib_new (arg_hash_algorithm a) = Some digest
    /\ fs w' !! arg_artifact_path a = Some (File (json_dumps (JObj d')))
    /\ dict_get (py "artifact_hash") d'
       = Some (JObj [(py "algorithm", JStr (arg_hash_algorithm a));
                     (py "hash", JStr (hexlify (digest adata)))]).
Proof.
  intros Hsame E. apply main_0_inv in E as [self' E].
  apply main_body_Ok_result in E
    as (self0 & w0 & self1 & w1 & d1 & adata & g & _ & _ & _ & Ea & Eg & ->
        & Hfs & _).
  exists adata, g. eexists. split; [done|]. split; [done|]. split.
  - rewrite Hfs, Hsame. apply lookup_insert_eq.
  - by rewrite dict_get_set_eq, hash_result_hexlify.
Qed.

End Runs.

Section SavedRuns.

Variable hashlib_new : list N -> option (list N -> list N).

(** X8.  Every successful run leaves a provenance file that the next run
    loads: the file holds the text of a dict whose [artifact_hash] is the
    digest of the artifact under the algorithm asked for, and [__init__] on
    that file, for whatever artifact path, holds exactly that dict. *)
Theorem successful_run_reloads (a : args) (w w' : world) :
  main hashlib_new a w = (0%nat, w') ->
  str_ok (arg_artifact_path a) = true ->
  (forall c, arg_command a = Some c -> str_ok c = true) ->
  (forall v, arg_version a = Some v -> str_ok v = true) ->
  str_ok (arg_hash_algorithm a) = true ->
  (forall n, str_ok (clock w n ++ py "Z") = true) ->
  exists d adata digest,
    fs w' !! arg_provenance_file a = Some (File (json_dumps (JObj d)))
    /\ fs w !! arg_artifact_path a = Some (File adata)
    /\ hashlib_new (arg_hash_algorithm a) = Some digest
    /\ dict_get (py "artifact_hash") d
       = Some (JObj [(py "algorithm", JStr (arg_hash_algorithm a));
                     (py "hash", JStr (hexlify (digest adata)))])
    /\ forall ap,
         __init__ ap (arg_provenance_file a) w'
         = (Ok {| artifact_path := ap;
                  provenance_file := arg_provenance_file a;
                  provenance_data := JObj d |}, (utcnow_iso_z w').2).
Proof.
  intros E Hap Hc Hv Halg Hclock. apply main_0_inv in E as [self' E].
  destruct (main_saves_ok _ a w self' w' E Hap Hc Hv Halg Hclock) as (Hok & _ & Hfs).
  apply main_body_Ok_result in E
    as (self0 & w0 & self1 & w1 & d1 & adata & g & _ & _ & _ & Ea & Eg & ->
        & _).
  cbn [provenance_data] in *.
  eexists _, adata, g. split; [exact Hfs|]. split; [done|]. split; [done|].
  split; [by rewrite dict_get_set_eq, hash_result_hexlify|].
  intros ap. apply (init_loaded ap _ w' _ _ Hfs). by apply json_load_dumps.
Qed.

(** X9.  Running again without a command changes nothing.  When the
    provenance file is text as [json.dump] writes it, of a dict without
    numbers whose [artifact_hash] is already the digest of the artifact
    under the algorithm asked for -- as a successful run leaves it -- a
    run with no (or an empty) command that ends with status 0 leaves the
    file system as it was: the file is rewritten with the same text. *)
Theorem rerun_without_command_changes_nothing (a : args) (w w' : world)
    (pdata adata : list N) (d : list (list N * json))
    (digest : list N -> list N) :
  main hashlib_new a w = (0%nat, w') ->
  truthy_opt (arg_command a) = false ->
  fs w !! arg_provenance_file a = Some (File pdata) ->
  json_load pdata = Ok (JObj d) ->
  json_dumps (JObj d) = pdata ->
  number_free (JObj d) = true ->
  fs w !! arg_artifact_path a = Some (File adata) ->
  hashlib_new (arg_hash_algorithm a) = Some digest ->
  dict_get (py "artifact_hash") d
  = Some (JObj [(py "algorithm", JStr (arg_hash_algorithm a));
                (py "hash", JStr (hexlify (digest adata)))]) ->
  fs w' = fs w.
Proof.
  intros E Hcmd Ep Ev Hdump _ Ea Eg Eh.
  destruct (main_stored_result _ _ _ _ _ _ E Ep Ev)
    as (d0 & d1 & adata' & g' & [= <-] & Ea' & Eg' & Hstep & Hfs).
  rewrite Ea in Ea'. injection Ea' as <-. rewrite Eg in Eg'. injection Eg' as <-.
  destruct Hstep as [(_ & -> & _)|(c & old & Ec & Ht & _)].
  - rewrite Hfs, hash_result_hexlify, (dict_set_get_id _ _ _ Eh), Hdump.
    by apply insert_id.
  - unfold truthy_opt in Hcmd. rewrite Ec, Ht in Hcmd. discriminate Hcmd.
Qed.

End SavedRuns.

(** ** Failures of the methods *)

Section Failures.

Variable hashlib_new : list N -> option (list N -> list N).

(** X10.  A failing [calculate_hash] is atomic and reports a missing
    artifact first.  The recorder and the file system are left as they
    were and exactly one error is logged.  When nothing exists at the
    artifact path the exception is [FileNotFoundError], whatever the
    algorithm, and the message is the one of that handler; otherwise the
    exception is another one and the message is that of the general
    handler: for a known algorithm it is [IsADirectoryError] on a
    directory and [TypeError] on a record that is not a dict. *)
Theorem calculate_hash_failure (self self' : recorder) (algorithm : list N)
    (w w' : world) (e : exn) :
  calculate_hash hashlib_new self algorithm w = (Raise e, self', w') ->
  self' = self /\ fs w' = fs w
  /\ log w' = log w ++ [(ERROR,
                          match fs w !! artifact_path self with
                          | None => "File not found error"%string
                          | Some _ => "Error calculating hash"%string
                          end)]
  /\ match fs w !! artifact_path self, hashlib_new algorithm with
     | None, _ => e = FileNotFoundError
     | Some Dir, Some _ => e = IsADirectoryError
     | Some (File _), Some _ => e = TypeError
     | Some _, None => e <> FileNotFoundError
     end.
Proof.
  intros H. pose proof (calculate_hash_Raise _ _ _ _ _ _ _ H) as [-> _].
  pose proof (calculate_hash_fs _ _ _ _ _ _ _ H) as Hfs.
  split; [done|]. split; [done|].
  revert H. unfold calculate_hash, path_exists, open_read, setitem.
  destruct (fs w !! artifact_path self) as [[data|]|]; cbn [negb];
    destruct (hashlib_new algorithm) as [digest|];
    try (intros H; simplify_eq/=; done).
  destruct (provenance_data self); intros H; simplify_eq/=; done.
Qed.

End Failures.

(** X11.  [add_build_step] fails exactly when the record has no list
    under [build_steps], and a failing call is atomic.  It raises
    [TypeError] if the record is not a dict, [KeyError] if the key is
    missing, [AttributeError] if the entry is not a list; the record and
    the file system are then as they were, the clock has been read once,
    and one error is logged.  In every other case it succeeds. *)
Theorem add_build_step_failure (self : recorder) (command : list N)
    (version : option (list N)) (w : world) :
  ((exists e self' w',
      add_build_step self command version w = (Raise e, self', w'))
   <-> ~ (exists d old, provenance_data self = JObj d
                        /\ dict_get (py "build_steps") d = Some (JArr old)))
  /\ ((exists self' w',
       add_build_step self command version w = (Ok tt, self', w'))
      <-> exists d old, provenance_data self = JObj d
                        /\ dict_get (py "build_steps") d = Some (JArr old))
  /\ forall e self' w',
       add_build_step self command version w = (Raise e, self', w') ->
       self' = self /\ fs w' = fs w /\ ticks w' = S (ticks w)
       /\ log w' = log w ++ [(ERROR, "Error adding build step"%string)]
       /\ e = match provenance_data self with
              | JObj d =>
                  match dict_get (py "build_steps") d with
                  | Some _ => AttributeError
                  | None => KeyError
                  end
              | _ => TypeError
              end.
Proof.
  assert (Hcases :
    (exists d old, provenance_data self = JObj d
                   /\ dict_get (py "build_steps") d = Some (JArr old))
    \/ (~ (exists d old, provenance_data self = JObj d
                         /\ dict_get (py "build_steps") d = Some (JArr old))
        /\ add_build_step self command version w
           = (Raise match provenance_data self with
                    | JObj d =>
                        match dict_get (py "build_steps") d with
                        | Some _ => AttributeError
                        | None => KeyError
                        end
                    | _ => TypeError
                    end,
              self, logging ERROR "Error adding build step" (utcnow_iso_z w).2))).
  { unfold add_build_step, utcnow_iso_z, mutate_item. cbv zeta beta iota.
    destruct (provenance_data self) as [| | | | |d];
      try (right; split; [by intros (? & ? & ? & _)|reflexivity]).
    destruct (dict_get (py "build_steps") d) as [[| | | |old|]|] eqn:Eb;
      try (right; split; [intros (? & ? & [= <-] & ?); congruence|reflexivity]).
    left. by exists d, old. }
  split; [|split].
  - split.
    + intros (e & self' & w' & H) (d & old & Ed & Eb).
      by rewrite (add_build_step_Ok _ _ _ _ d old Ed Eb) in H.
    + intros Hno. destruct Hcases as [Hyes|[_ H]]; [done|]. by eauto.
  - split.
    + intros (self' & w' & H). destruct Hcases as [Hyes|[_ H']]; [done|].
      by rewrite H' in H.
    + intros (d & old & Ed & Eb).
      rewrite (add_build_step_Ok _ _ _ _ d old Ed Eb). by eauto.
  - intros e self' w' H. destruct Hcases as [(d & old & Ed & Eb)|[_ H']].
    + by rewrite (add_build_step_Ok _ _ _ _ d old Ed Eb) in H.
    + rewrite H' in H. injection H as <- <- <-. by repeat split.
Qed.

(** ** The text that is saved *)


(** ** Provenance files that are discarded *)

Lemma json_loads_blank s : forallb is_ws s = true -> json_loads s = Raise JSONDecodeError.
Proof.
  intros Hs. unfold json_loads.
  assert (Hskip : skip_ws s = []).
  { induction s as [|c s IH]; [done|]. simpl in *.
    apply andb_true_iff in Hs as [Hc Hs]. rewrite Hc. by apply IH. }
  rewrite Hskip.
  destruct (starts_with [65279] s); [done|].
  by replace (2 * length s + 2)%nat with (S (2 * length s + 1)) by lia.
Qed.

(** X13.  An empty provenance file, or one of white space only, is not a
    record: [__init__] logs the warning and holds the fresh record. *)
Theorem blank_file_starts_fresh (ap pf : list N) (w : world) (pdata : list N) :
  fs w !! pf = Some (File pdata) ->
  forallb is_ws pdata = true ->
  __init__ ap pf w
  = (Ok {| artifact_path := ap; provenance_file := pf;
           provenance_data := fresh_data ap (clock w (ticks w) ++ py "Z") |},
     logging WARNING "Could not load existing provenance file. Starting fresh."
             (utcnow_iso_z w).2).
Proof.
  intros Ep Hws. apply (init_malformed _ _ _ pdata Ep).
  unfold json_load. rewrite utf8_decode_ascii; [by apply json_loads_blank|].
  apply Forall_forall. intros c Hc.
  rewrite forallb_forall in Hws. apply list_elem_of_In, Hws in Hc.
  unfold is_ws in Hc. bool_to_prop; lia.
Qed.

(** X14.  A provenance file that starts with a UTF-8 byte-order mark is not
    read, even if a record follows the mark: [json.load] refuses the mark,
    and [__init__] logs the warning and holds the fresh record. *)
Theorem bom_file_starts_fresh (ap pf : list N) (w : world) (rest text : list N) :
  fs w !! pf = Some (File (239 :: 187 :: 191 :: rest)) ->
  utf8_decode rest = Some text ->
  __init__ ap pf w
  = (Ok {| artifact_path := ap; provenance_file := pf;
           provenance_data := fresh_data ap (clock w (ticks w) ++ py "Z") |},
     logging WARNING "Could not load existing provenance file. Starting fresh."
             (utcnow_iso_z w).2).
Proof.
  intros Ep Hrest. apply (init_malformed _ _ _ _ Ep).
  unfold json_load.
  assert (E : utf8_decode (239 :: 187 :: 191 :: rest) = Some (65279 :: text)).
  { change (utf8_decode (239 :: 187 :: 191 :: rest))
      with (option_map (cons 65279) (utf8_decode rest)).
    by rewrite Hrest. }
  rewrite E. reflexivity.
Qed.

(** ** Successive runs *)

Section SuccessiveRuns.

Variable hashlib_new : list N -> option (list N -> list N).
Variables ap pf alg : list N.

Lemma mains_stored adata digest calls : forall w pdata d old,
  fs w !! ap = Some (File adata) ->
  hashlib_new alg = Some digest ->
  pf <> ap ->
  str_ok ap = true -> str_ok alg = true ->
  (forall n, str_ok (clock w n ++ py "Z") = true) ->
  Forall (fun cv => truthy cv.1 = true /\ str_ok cv.1 = true
                    /\ forall v, cv.2 = Some v -> str_ok v = true) calls ->
  fs w !! pf = Some (File pdata) ->
  json_load pdata = Ok (JObj d) ->
  dict_get (py "build_steps") d = Some (JArr old) ->
  exists pdata' d',
    fs (mains hashlib_new (map (invoke ap pf alg) calls) w) !! pf = Some (File pdata')
    /\ json_load pdata' = Ok (JObj d')
    /\ dict_get (py "build_steps") d'
       = Some (JArr (old ++ imap (fun i cv =>
                  JObj (build_step cv.1 (clock w (ticks w + 2 * i + 1) ++ py "Z")
                                   cv.2)) calls))
    /\ forall k, k <> py "build_steps" -> k <> py "artifact_hash" ->
                 dict_get k d' = dict_get k d.
Proof.
  induction calls as [|cv calls IH];
    intros w pdata d old Ea Eg Hne Hap Halg Hclock Hcalls Ep Ev Eb.
  - exists pdata, d. simpl. rewrite app_nil_r. by repeat split.
  - apply Forall_cons in Hcalls as [(Ht & Hc & Hv) Hcalls].
    edestruct (main_body_stored hashlib_new (invoke ap pf alg cv) w pdata (JObj d) adata digest)
      as (w' & E & Hfs); try done.
    { unfold first_step, truthy_opt. cbn [invoke arg_command]. rewrite Ht.
      cbn [default]. by apply add_build_step_Ok with (d := d). }
    { reflexivity. }
    destruct (main_saves_ok hashlib_new _ _ _ _ E) as (Hok & _ & Hfs'); try done.
    { by intros c [= <-]. }
    pose proof (main_of_Ok _ _ _ _ _ E) as Em.
    destruct (main_stored_result hashlib_new _ _ _ _ _ Em Ep Ev)
      as (d0 & d1 & adata' & g' & [= <-] & _ & _ & Hstep & _).
    destruct Hstep as [(Hcmd & _)|(c & old' & Ec & _ & Eb' & _ & Hcl & Hti)].
    { cbn [invoke arg_command truthy_opt] in Hcmd. congruence. }
    cbn [provenance_data] in Hok, Hfs'.
    cbn [mains map]. rewrite Em. cbn [snd].
    edestruct (IH w') as (pdata' & d' & Hp' & Hv' & Hb' & Hk').
    { rewrite Hfs. cbn [invoke arg_provenance_file].
      rewrite lookup_insert_ne by done. exact Ea. }
    { exact Eg. } { exact Hne. } { exact Hap. } { exact Halg. }
    { intros n. rewrite Hcl. apply Hclock. }
    { exact Hcalls. }
    { exact Hfs'. }
    { by apply json_load_dumps. }
    { rewrite dict_get_set_ne by key_ne. apply dict_get_set_eq. }
    exists pdata', d'. split; [exact Hp'|]. split; [exact Hv'|]. split.
    + rewrite Hb', <- app_assoc. do 2 f_equal. cbn [app imap].
      unfold utcnow_iso_z. cbn [snd clock ticks].
      replace (ticks w + 2 * 0 + 1)%nat with (S (ticks w)) by lia.
      apply (f_equal (app old)). apply (f_equal2 cons); [reflexivity|].
      apply imap_ext. intros i cv' _. cbn [compose]. rewrite Hcl, Hti.
      by replace (S (S (ticks w)) + 2 * i + 1)%nat
        with (ticks w + 2 * S i + 1)%nat by lia.
    + intros k Hk1 Hk2. rewrite (Hk' k Hk1 Hk2). by rewrite !dict_get_set_ne.
Qed.

(** X15.  Successive runs accumulate the lineage.  Starting with no
    provenance file, at a path where a file can be created, runs on one
    artifact with one non-empty command each leave a provenance file that
    loads as a dict whose [build_steps] are the steps of the runs, one for
    each and in their order, and whose [artifact] and [created_at] are
    those of the first run. *)
Theorem runs_accumulate_steps (adata : list N) (digest : list N -> list N)
    (calls : list (list N * option (list N))) (w : world) :
  fs w !! ap = Some (File adata) ->
  fs w !! pf = None ->
  denied w pf = None ->
  hashlib_new alg = Some digest ->
  str_ok ap = true -> str_ok alg = true ->
  (forall n, str_ok (clock w n ++ py "Z") = true) ->
  Forall (fun cv => truthy cv.1 = true /\ str_ok cv.1 = true
                    /\ forall v, cv.2 = Some v -> str_ok v = true) calls ->
  calls <> [] ->
  exists pdata d,
    fs (mains hashlib_new (map (invoke ap pf alg) calls) w) !! pf
    = Some (File pdata)
    /\ json_load pdata = Ok (JObj d)
    /\ dict_get (py "build_steps") d
       = Some (JArr (imap (fun i cv =>
                  JObj (build_step cv.1 (clock w (ticks w + 2 * i + 1) ++ py "Z")
                                   cv.2)) calls))
    /\ dict_get (py "artifact") d = Some (JStr ap)
    /\ dict_get (py "created_at") d = Some (JStr (clock w (ticks w) ++ py "Z")).
Proof.
  intros Ea Ep Hnew Eg Hap Halg Hclock Hcalls Hnil.
  destruct calls as [|cv calls]; [done|]. clear Hnil.
  apply Forall_cons in Hcalls as [(Ht & Hc & Hv) Hcalls].
  assert (Hne : pf <> ap) by congruence.
  destruct (main_fresh hashlib_new (invoke ap pf alg cv) w _ adata digest Ea Eg
              (init_absent _ _ _ Ep) (fun _ => Hnew)) as (w' & Em & _).
  pose proof (main_0_inv _ _ _ _ Em) as [self' E].
  destruct (main_saves_ok hashlib_new _ _ _ _ E) as (Hok & _ & Hfs'); try done.
  { by intros c [= <-]. }
  pose proof (main_body_Ok_result _ _ _ _ _ E)
    as (self0 & w0 & self1 & w1 & d1 & adata' & g' & E0 & E1 & Ed1 & Ea' & Eg'
        & Hself & Hfs & Hcl & Hti & _).
  rewrite (init_absent _ _ _ Ep) in E0. injection E0 as <- <-.
  apply first_step_Ok_inv in E1
    as [(Hcmd & _)|(c & d & old & [= <-] & _ & Ed & Eb & -> & ->)].
  { cbn [invoke arg_command truthy_opt] in Hcmd. congruence. }
  unfold fresh_data in Ed. cbn [provenance_data] in Ed. injection Ed as <-.
  assert (old = []) as -> by (vm_compute in Eb; congruence). clear Eb.
  unfold set_data in Ed1. cbn [provenance_data] in Ed1. injection Ed1 as <-.
  cbn [clock ticks logging utcnow_iso_z snd] in Hcl, Hti.
  subst self'. cbn [provenance_data invoke arg_provenance_file] in Hok, Hfs'.
  edestruct (mains_stored adata digest calls w') as (pdata' & d' & Hp' & Hv' & Hb' & Hk').
  { cbn [invoke arg_provenance_file] in Hfs.
    rewrite Hfs, lookup_insert_ne by done. exact Ea. }
  { exact Eg. } { exact Hne. } { exact Hap. } { exact Halg. }
  { intros n. rewrite Hcl. apply Hclock. }
  { exact Hcalls. }
  { exact Hfs'. }
  { by apply json_load_dumps. }
  { reflexivity. }
  exists pdata', d'. cbn [mains map]. rewrite Em. cbn [snd].
  split; [exact Hp'|]. split; [exact Hv'|]. split; [|split].
  - rewrite Hb'. cbn [app imap].
    replace (ticks w + 2 * 0 + 1)%nat with (S (ticks w)) by lia.
    do 2 f_equal. apply (f_equal2 cons); [reflexivity|].
    apply imap_ext. intros i cv' _. cbn [compose]. rewrite Hcl, Hti.
    by replace (S (S (ticks w)) + 2 * i + 1)%nat
      with (ticks w + 2 * S i + 1)%nat by lia.
  - rewrite Hk' by key_ne. reflexivity.
  - rewrite Hk' by key_ne. reflexivity.
Qed.

End SuccessiveRuns.

(** ** The properties above at concrete runs *)

Lemma steady_clock_ok n : str_ok (steady_clock n ++ py "Z") = true.
Proof.
  unfold steady_clock.
  assert (H : (n mod 10 < 10)%nat) by (apply Nat.mod_upper_bound; lia).
  generalize dependent (n mod 10)%nat. intros k H.
  do 10 (destruct k as [|k]; [reflexivity|]). lia.
Qed.

Lemma first_run_record_witness :
  exists w',
    main hashlib_sha2 demo_args demo_world = (0%nat, w')
    /\ fs w' !! py "provenance.json"
       = Some (File (json_dumps
           (JObj [(py "artifact", JStr (py "foo.bin"));
                  (py "created_at", JStr (py "2024-05-01T10:00:00Z"));
                  (py "build_steps",
                   JArr [JObj [(py "command", JStr (py "gcc -o foo foo.c"));
                               (py "executed_at", JStr (py "2024-05-01T10:00:01Z"));
                               (py "version", JStr (py "gcc 11.2"))]]);
                  (py "artifact_hash",
                   JObj [(py "algorithm", JStr (py "sha256"));
                         (py "hash",
                          JStr (hexlify (Sha2.sha256 (py "hello"))))])]))).
Proof.
  destruct (first_run_record hashlib_sha2 demo_args demo_world (py "hello")
              Sha2.sha256) as (w' & E & Hfs & _).
  - vm_compute. reflexivity.
  - vm_compute. reflexivity.
  - reflexivity.
  - reflexivity.
  - exists w'. split; [exact E|]. rewrite Hfs. apply lookup_insert_eq.
Defined.

Lemma main_exit_status_witness :
  (main hashlib_sha2 demo_args demo_world).1 = 0%nat
  /\ fs demo_world !! arg_artifact_path demo_args = Some (File (py "hello"))
  /\ hashlib_sha2 (arg_hash_algorithm demo_args) = Some Sha2.sha256
  /\ fs demo_world !! arg_provenance_file demo_args = None
  /\ denied demo_world (arg_provenance_file demo_args) = None.
Proof.
  assert (H : (main hashlib_sha2 demo_args demo_world).1 = 0%nat)
    by (vm_compute; reflexivity).
  split; [exact H|].
  destruct (main_exit_status hashlib_sha2 demo_args demo_world H)
    as ((adata & Ea) & (digest & Eg) & [[Ep Hd]|(pdata & Ep & _)]).
  - split; [vm_compute; reflexivity|]. split; [reflexivity|].
    split; [exact Ep|exact Hd].
  - vm_compute in Ep. discriminate Ep.
Defined.

Lemma malformed_file_replaced_witness :
  exists w',
    main hashlib_sha2 demo_args_bare malformed_world = (0%nat, w')
    /\ fs w' !! py "provenance.json"
       = Some (File (json_dumps
           (JObj [(py "artifact", JStr (py "foo.bin"));
                  (py "created_at", JStr (py "2024-05-01T10:00:00Z"));
                  (py "build_steps", JArr []);
                  (py "artifact_hash",
                   JObj [(py "algorithm", JStr (py "sha256"));
                         (py "hash",
                          JStr (hexlify (Sha2.sha256 (py "hello"))))])])))
    /\ log w'
       = [(WARNING, "Could not load existing provenance file. Starting fresh."%string);
          (INFO, "Calculated hash"%string);
          (INFO, "Provenance data saved"%string)].
Proof.
  destruct (malformed_file_replaced hashlib_sha2 demo_args_bare malformed_world
              (py "hello") (py "{not json") Sha2.sha256) as (w' & E & Hfs & Hlog).
  - vm_compute. reflexivity.
  - vm_compute. reflexivity.
  - vm_compute. reflexivity.
  - reflexivity.
  - exists w'. split; [exact E|]. split; [|exact Hlog].
    rewrite Hfs. apply lookup_insert_eq.
Defined.

Lemma unwritable_provenance_path_aborts_witness :
  exists w',
    main hashlib_sha2 orphan_args orphan_world = (1%nat, w')
    /\ fs w' = fs orphan_world
    /\ log w' = [(INFO, "Calculated hash"%string);
                 (ERROR, "Error saving provenance data"%string);
                 (ERROR, "File not found"%string)].
Proof.
  apply (unwritable_provenance_path_aborts hashlib_sha2 orphan_args orphan_world
           (py "hello") Sha2.sha256 FileNotFoundError).
  - vm_compute. reflexivity.
  - reflexivity.
  - vm_compute. reflexivity.
  - reflexivity.
Defined.

Lemma stored_entries_preserved_witness :
  exists d',
    fs (main hashlib_sha2 demo_args_bare annotated_world).2 !! py "provenance.json"
    = Some (File (json_dumps (JObj d')))
    /\ dict_keys d' = [py "owner"; py "build_steps"; py "artifact_hash"]
    /\ dict_get (py "owner") d' = Some (JStr (py "ci"))
    /\ dict_get (py "build_steps") d' = Some (JArr []).
Proof.
  edestruct (stored_entries_preserved hashlib_sha2 demo_args_bare annotated_world
               (main hashlib_sha2 demo_args_bare annotated_world).2)
    as (d' & Hfs & Hkeys & Hget & Hsteps).
  - vm_compute. reflexivity.
  - vm_compute. reflexivity.
  - vm_compute. reflexivity.
  - reflexivity.
  - exists d'. split; [exact Hfs|]. split; [exact Hkeys|]. split.
    + rewrite Hget; [reflexivity|key_ne|key_ne].
    + rewrite Hsteps; reflexivity.
Defined.

Lemma same_path_overwrites_artifact_witness :
  exists d',
    fs demo_world !! py "foo.bin" = Some (File (py "hello"))
    /\ fs (main hashlib_sha2 same_path_args demo_world).2 !! py "foo.bin"
       = Some (File (json_dumps (JObj d')))
    /\ dict_get (py "artifact_hash") d'
       = Some (JObj [(py "algorithm", JStr (py "sha256"));
                     (py "hash", JStr (hexlify (Sha2.sha256 (py "hello"))))]).
Proof.
  destruct (same_path_overwrites_artifact hashlib_sha2 same_path_args demo_world
              (main hashlib_sha2 same_path_args demo_world).2)
    as (adata & digest & d' & Ea & Eg & Hfs & Hget).
  - reflexivity.
  - vm_compute. reflexivity.
  - vm_compute in Ea. injection Ea as <-. injection Eg as <-.
    exists d'. split; [vm_compute; reflexivity|]. split; [exact Hfs|exact Hget].
Defined.

Lemma successful_run_reloads_witness :
  exists d,
    fs (main hashlib_sha2 demo_args steady_world).2 !! py "provenance.json"
    = Some (File (json_dumps (JObj d)))
    /\ __init__ (py "bar.bin") (py "provenance.json")
         (main hashlib_sha2 demo_args steady_world).2
       = (Ok {| artifact_path := py "bar.bin";
                provenance_file := py "provenance.json";
                provenance_data := JObj d |},
          (utcnow_iso_z (main hashlib_sha2 demo_args steady_world).2).2).
Proof.
  destruct (successful_run_reloads hashlib_sha2 demo_args steady_world
              (main hashlib_sha2 demo_args steady_world).2)
    as (d & adata & digest & Hfs & _ & _ & _ & Hinit).
  - vm_compute. reflexivity.
  - reflexivity.
  - intros c [= <-]. reflexivity.
  - intros v [= <-]. reflexivity.
  - reflexivity.
  - apply steady_clock_ok.
  - exists d. split; [exact Hfs|apply Hinit].
Defined.

Lemma rerun_without_command_changes_nothing_witness :
  fs (main hashlib_sha2 demo_args_bare
        (main hashlib_sha2 demo_args steady_world).2).2
  = fs (main hashlib_sha2 demo_args steady_world).2.
Proof.
  eapply (rerun_without_command_changes_nothing hashlib_sha2 demo_args_bare
            (main hashlib_sha2 demo_args steady_world).2 _ _ (py "hello") _
            Sha2.sha256).
  - vm_compute. reflexivity.
  - reflexivity.
  - vm_compute. reflexivity.
  - vm_compute. reflexivity.
  - vm_compute. reflexivity.
  - vm_compute. reflexivity.
  - vm_compute. reflexivity.
  - reflexivity.
  - vm_compute. reflexivity.
Defined.

Lemma calculate_hash_failure_witness :
  calculate_hash hashlib_sha2 lost_recorder (py "crc32") demo_world
  = (Raise FileNotFoundError, lost_recorder,
     logging ERROR "File not found error" demo_world)
  /\ fs (logging ERROR "File not found error" demo_world) = fs demo_world.
Proof.
  assert (H : calculate_hash hashlib_sha2 lost_recorder (py "crc32") demo_world
              = (Raise FileNotFoundError, lost_recorder,
                 logging ERROR "File not found error" demo_world))
    by (vm_compute; reflexivity).
  split; [exact H|].
  destruct (calculate_hash_failure hashlib_sha2 _ _ _ _ _ _ H) as (_ & Hfs & _).
  exact Hfs.
Defined.

Lemma add_build_step_failure_witness :
  add_build_step bare_recorder (py "make") None demo_world
  = (Raise KeyError, bare_recorder,
     logging ERROR "Error adding build step" (utcnow_iso_z demo_world).2)
  /\ ticks (logging ERROR "Error adding build step" (utcnow_iso_z demo_world).2)
     = 1%nat.
Proof.
  assert (H : add_build_step bare_recorder (py "make") None demo_world
              = (Raise KeyError, bare_recorder,
                 logging ERROR "Error adding build step" (utcnow_iso_z demo_world).2))
    by (vm_compute; reflexivity).
  split; [exact H|].
  destruct (add_build_step_failure bare_recorder (py "make") None demo_world)
    as (_ & _ & Hraise).
  destruct (Hraise _ _ _ H) as (_ & _ & Ht & _). exact Ht.
Defined.


Lemma blank_file_starts_fresh_witness :
  __init__ (py "foo.bin") (py "provenance.json") blank_world
  = (Ok demo_recorder,
     logging WARNING "Could not load existing provenance file. Starting fresh."
             (utcnow_iso_z blank_world).2).
Proof.
  apply (blank_file_starts_fresh (py "foo.bin") (py "provenance.json") blank_world []).
  - vm_compute. reflexivity.
  - reflexivity.
Defined.

Lemma bom_file_starts_fresh_witness :
  __init__ (py "foo.bin") (py "provenance.json") bom_world
  = (Ok demo_recorder,
     logging WARNING "Could not load existing provenance file. Starting fresh."
             (utcnow_iso_z bom_world).2).
Proof.
  apply (bom_file_starts_fresh (py "foo.bin") (py "provenance.json") bom_world
           (py "{}") (py "{}")).
  - vm_compute. reflexivity.
  - reflexivity.
Defined.

Lemma runs_accumulate_steps_witness :
  exists pdata d,
    fs (mains hashlib_sha2
          (map (invoke (py "foo.bin") (py "provenance.json") (py "sha256"))
               [(py "gcc -o foo foo.c", Some (py "gcc 11.2"));
                (py "strip foo", None)])
          steady_world)
      !! py "provenance.json" = Some (File pdata)
    /\ json_load pdata = Ok (JObj d)
    /\ dict_get (py "build_steps") d
       = Some (JArr [JObj [(py "command", JStr (py "gcc -o foo foo.c"));
                           (py "executed_at", JStr (py "2024-05-01T10:00:01Z"));
                           (py "version", JStr (py "gcc 11.2"))];
                     JObj [(py "command", JStr (py "strip foo"));
                           (py "executed_at", JStr (py "2024-05-01T10:00:03Z"))]])
    /\ dict_get (py "created_at") d = Some (JStr (py "2024-05-01T10:00:00Z")).
Proof.
  destruct (runs_accumulate_steps hashlib_sha2 (py "foo.bin") (py "provenance.json")
              (py "sha256") (py "hello") Sha2.sha256
              [(py "gcc -o foo foo.c", Some (py "gcc 11.2")); (py "strip foo", None)]
              steady_world)
    as (pdata & d & Hfs & Hload & Hsteps & _ & Hcreated).
  - vm_compute. reflexivity.
  - vm_compute. reflexivity.
  - reflexivity.
  - reflexivity.
  - reflexivity.
  - reflexivity.
  - apply steady_clock_ok.
  - repeat constructor; try reflexivity; by intros v [= <-].
  - discriminate.
  - exists pdata, d. split; [exact Hfs|]. split; [exact Hload|].
    split; [exact Hsteps|exact Hcreated].
Defined.
